(** * Commit removal by contribution-graph coordinates

    A shallow embedding of the commit-removal scripts of the repository
    (removeCommit.js, removeCommitAdvanced.js, removeSingleCommit.js) and
    the properties their specification states about them.

    The scripts lean on three collaborators that are not part of the
    repository: the [moment] date library, the [simple-git] client and
    Node's [readline].  [Moment] below models the calendar arithmetic that
    the scripts use from moment; the git client and the prompt are an
    interface ([Platform]) over an arbitrary store state, so that every
    theorem holds for every behaviour of the store, failures included. *)

From Stdlib Require Import ZArith List String Ascii Bool Lia.
From Stdlib Require Import DecimalString.
Import ListNotations.

Open Scope string_scope.
Open Scope Z_scope.

(** ** The calendar of [moment] and of the JavaScript [Date] beneath it *)

Module Moment.

(** A local calendar date as [Date] holds it: [month] counts from 0
    (January) to 11 (December), [day] from 1. *)
Record civil : Type := mkDate { year : Z; month : Z; day : Z }.

Definition date_eqb (a b : civil) : bool :=
  (year a =? year b) && (month a =? month b) && (day a =? day b).

(** moment: [(year % 4 === 0 && year % 100 !== 0) || year % 400 === 0];
    JavaScript's [%] truncates, as [Z.rem] does. *)
Definition isLeapYear (y : Z) : bool :=
  ((Z.rem y 4 =? 0) && negb (Z.rem y 100 =? 0)) || (Z.rem y 400 =? 0).

(** moment: [mod(n, x) = ((n % x) + x) % x]. *)
Definition mod_ (n x : Z) : Z := Z.rem (Z.rem n x + x) x.

(** moment: [daysInMonth(year, month)], which accepts a month outside
    0..11 and carries it into the year. *)
Definition daysInMonth (y m : Z) : Z :=
  let modMonth := mod_ m 12 in
  let y' := y + Z.quot (m - modMonth) 12 in
  if modMonth =? 1 then (if isLeapYear y' then 29 else 28)
  else 31 - Z.rem (Z.rem modMonth 7) 2.

Definition valid_date (d : civil) : Prop :=
  0 <= month d <= 11 /\ 1 <= day d <= daysInMonth (year d) (month d).

Definition valid_dateb (d : civil) : bool :=
  (0 <=? month d) && (month d <=? 11) && (1 <=? day d)
  && (day d <=? daysInMonth (year d) (month d)).

(** The day after and the day before, on well-formed dates. *)
Definition next_day (d : civil) : civil :=
  if day d <? daysInMonth (year d) (month d)
  then mkDate (year d) (month d) (day d + 1)
  else if month d <? 11
       then mkDate (year d) (month d + 1) 1
       else mkDate (year d + 1) 0 1.

Definition prev_day (d : civil) : civil :=
  if 1 <? day d
  then mkDate (year d) (month d) (day d - 1)
  else if 0 <? month d
       then mkDate (year d) (month d - 1) (daysInMonth (year d) (month d - 1))
       else mkDate (year d - 1) 11 31.

(** ECMAScript [MakeDay(year, month, date)] read back as calendar fields:
    the month is carried into the year, then the date is counted from the
    first of that month, forwards or backwards. *)
Definition makeDay (y m dt : Z) : civil :=
  let first := mkDate (y + m / 12) (m mod 12) 1 in
  if 1 <=? dt
  then Nat.iter (Z.to_nat (dt - 1)) next_day first
  else Nat.iter (Z.to_nat (1 - dt)) prev_day first.

(** moment [setMonth(mom, value)]: the day of the month is clamped to the
    length of the target month, then [Date.setMonth(value, dayOfMonth)]. *)
Definition setMonth (d : civil) (value : Z) : civil :=
  let dayOfMonth := Z.min (day d) (daysInMonth (year d) value) in
  makeDay (year d) value dayOfMonth.

(** moment [addSubtract]: months first, then days, each only when the
    amount is not zero. *)
Definition add_months (d : civil) (months : Z) : civil :=
  if months =? 0 then d else setMonth d (month d + months).

Definition add_days (d : civil) (days : Z) : civil :=
  if days =? 0 then d else makeDay (year d) (month d) (day d + days).

(** [.subtract(n, "y")], [.add(n, "d")], [.add(n, "w")]: a duration of
    [12 * n] months, [n] days, [7 * n] days. *)
Definition subtract_y (n : Z) (d : civil) : civil := add_months d (- (12 * n)).
Definition add_d (n : Z) (d : civil) : civil := add_days d n.
Definition add_w (n : Z) (d : civil) : civil := add_days d (7 * n).

(** ECMAScript day numbers: [DayFromYear] and the day within the year. *)
Definition dayFromYear (y : Z) : Z :=
  365 * (y - 1970) + (y - 1969) / 4 - (y - 1901) / 100 + (y - 1601) / 400.

Definition daysBeforeMonth (leap : bool) (m : Z) : Z :=
  let l := if leap then 1 else 0 in
  match m with
  | 0 => 0 | 1 => 31 | 2 => 59 + l | 3 => 90 + l | 4 => 120 + l
  | 5 => 151 + l | 6 => 181 + l | 7 => 212 + l | 8 => 243 + l
  | 9 => 273 + l | 10 => 304 + l | _ => 334 + l
  end.

Definition day_number (d : civil) : Z :=
  dayFromYear (year d) + daysBeforeMonth (isLeapYear (year d)) (month d)
  + (day d - 1).

(** *** Formatting *)

Definition decimal (n : Z) : string :=
  NilZero.string_of_uint (N.to_uint (Z.to_N n)).

Fixpoint zeros (n : nat) : string :=
  match n with O => EmptyString | S k => String "0" (zeros k) end.

(** moment [zeroFill(number, targetLength)], without a forced sign. *)
Definition zeroFill (number : Z) (targetLength : nat) : string :=
  let absNumber := decimal (Z.abs number) in
  let zerosToFill := (targetLength - String.length absNumber)%nat in
  (if 0 <=? number then EmptyString else "-") ++ zeros zerosToFill ++ absNumber.

(** The token [YYYY]: the year filled with zeros to four characters,
    [zeroFill(year, 4)]. *)
Definition format_YYYY (y : Z) : string := zeroFill y 4.

(** [.format("YYYY-MM-DD")]; the token [MM] is the month counted from 1. *)
Definition format_YYYY_MM_DD (d : civil) : string :=
  format_YYYY (year d) ++ "-" ++ zeroFill (month d + 1) 2
  ++ "-" ++ zeroFill (day d) 2.

End Moment.

Import Moment.

(** ** JavaScript helpers *)

Module Js.

(** The character [U+0022] and the line feed, for template literals. *)
Definition dq : string := String (ascii_of_nat 34) EmptyString.
Definition nl : string := String (ascii_of_nat 10) EmptyString.

(** [`${n}`] for an integer. *)
Definition show (n : Z) : string :=
  if n <? 0 then "-" ++ decimal (- n) else decimal n.

Definition show_nat (n : nat) : string := show (Z.of_nat n).

(** [s.includes(t)]. *)
Definition includes (s t : string) : bool :=
  match index 0 t s with Some _ => true | None => false end.

(** [l.join(sep)]. *)
Fixpoint join (sep : string) (l : list string) : string :=
  match l with
  | [] => EmptyString
  | [a] => a
  | a :: rest => a ++ sep ++ join sep rest
  end.

Definition lower (c : ascii) : ascii :=
  let n := nat_of_ascii c in
  if (Nat.leb 65 n && Nat.leb n 90)%bool then ascii_of_nat (n + 32) else c.

(** [s.toLowerCase()], on the ASCII letters. *)
Fixpoint toLowerCase (s : string) : string :=
  match s with
  | EmptyString => EmptyString
  | String c r => String (lower c) (toLowerCase r)
  end.

(** [l.slice(0, -n)]. *)
Definition slice_0_neg {A : Type} (n : nat) (l : list A) : list A :=
  firstn (List.length l - n) l.

(** A run of decimal digits as a number; anything else is no number. *)
Definition digit_value (c : ascii) : option Z :=
  let n := nat_of_ascii c in
  if (Nat.leb 48 n && Nat.leb n 57)%bool then Some (Z.of_nat (n - 48))
  else None.

Fixpoint digits_value (acc : Z) (s : string) : option Z :=
  match s with
  | EmptyString => Some acc
  | String c r =>
      match digit_value c with
      | Some v => digits_value (10 * acc + v) r
      | None => None
      end
  end.

Definition number (s : string) : option Z :=
  match s with
  | EmptyString => None
  | _ => digits_value 0 s
  end.

(** A destructuring default, [{ field = d } = options]. *)
Definition default (d : bool) (o : option bool) : bool :=
  match o with Some b => b | None => d end.

End Js.

Import Js.

(** ** The coordinate grid

    Every script opens with the same two range checks and the same chain
    of moment calls; they are stated once. *)

(** A thrown [Error], by its message. *)
Inductive result (A : Type) : Type :=
| Ok (a : A)
| Throw (message : string).
Arguments Ok {A} a.
Arguments Throw {A} message.

Definition X_OUT_OF_RANGE : string :=
  "X coordinate must be between 0 and 54 (weeks)".
Definition Y_OUT_OF_RANGE : string :=
  "Y coordinate must be between 0 and 6 (days)".

(** [if (x < 0 || x > 54) throw ...; if (y < 0 || y > 6) throw ...]. *)
Definition validateCoordinates (x y : Z) : result unit :=
  if (x <? 0) || (x >? 54) then Throw X_OUT_OF_RANGE
  else if (y <? 0) || (y >? 6) then Throw Y_OUT_OF_RANGE
  else Ok tt.

(** [moment().subtract(1, "y").add(1, "d").add(x, "w").add(y, "d")], with
    the local date of [moment()] as [now]. *)
Definition targetDate (now : civil) (x y : Z) : civil :=
  add_d y (add_w x (add_d 1 (subtract_y 1 now))).

(** [targetDate.format("YYYY-MM-DD")]. *)
Definition targetDateStr (now : civil) (x y : Z) : string :=
  format_YYYY_MM_DD (targetDate now x y).

(** Validation followed by the date computation, as each script runs
    them: the coordinate resolver. *)
Definition resolve (now : civil) (x y : Z) : result civil :=
  match validateCoordinates x y with
  | Throw e => Throw e
  | Ok _ => Ok (targetDate now x y)
  end.

(** ** The History Store and the console *)

(** A commit as [simple-git] lists it; [date] is the string git printed. *)
Record commit : Type := mkCommit
  { hash : string; message : string; date : string }.

(** The result of [git.log()]. *)
Record LogResult : Type := mkLog
  { all : list commit; latest : option commit }.

(** A date string as [moment(str)] reads it into the local calendar. *)
Record datetime : Type := mkDatetime
  { on : civil; hours : Z; minutes : Z; seconds : Z }.

(** The calls the scripts make on the [simple-git] client. *)
Inductive call : Type :=
| GitLog (options : list string)
| GitCheckoutLocalBranch (name : string)
| GitCheckout (name : string)
| GitBranchLocal
| GitDeleteLocalBranch (name : string)
| GitRaw (args : list string)
| GitPush (args : list string).

(** Listing commits and listing branches read the store; every other call
    creates or deletes a branch, rewrites history or pushes. *)
Definition mutating (c : call) : bool :=
  match c with
  | GitLog _ | GitBranchLocal => false
  | _ => true
  end.

(** What a run does that can be observed from outside. *)
Inductive event : Type :=
| Git (c : call)
| ConsoleLog (line : string)
| ConsoleError (line : string)
| Question (query : string)
| RlClose.

Definition git_calls (t : list event) : list call :=
  flat_map (fun e => match e with Git c => [c] | _ => [] end) t.

Definition questions (t : list event) : list string :=
  flat_map (fun e => match e with Question q => [q] | _ => [] end) t.

(** What is outside the scripts: the clock, moment's reading of a date
    string, the git client over a store state [St], and the answer typed
    at the prompt.  A git call returns or throws, and leaves the store in
    whatever state it likes. *)
Record Platform (St : Type) : Type := mkPlatform
  { today : civil;
    date_now : Z;
    moment_parse : string -> option datetime;
    git_log : list string -> St -> result LogResult * St;
    git_checkoutLocalBranch : string -> St -> result unit * St;
    git_checkout : string -> St -> result unit * St;
    git_branchLocal : St -> result (list string) * St;
    git_deleteLocalBranch : string -> St -> result unit * St;
    git_raw : list string -> St -> result unit * St;
    git_push : list string -> St -> result unit * St;
    rl_question : string -> St -> string * St }.

Arguments today {St} _.
Arguments date_now {St} _.
Arguments moment_parse {St} _ _.
Arguments git_log {St} _ _ _.
Arguments git_checkoutLocalBranch {St} _ _ _.
Arguments git_checkout {St} _ _ _.
Arguments git_branchLocal {St} _ _.
Arguments git_deleteLocalBranch {St} _ _ _.
Arguments git_raw {St} _ _ _.
Arguments git_push {St} _ _ _.
Arguments rl_question {St} _ _ _.

(** ** Asynchronous code as a state, error and trace monad *)

Module Run.

Section Monad.
Context {St : Type}.

(** A computation returns or throws, moves the store, and emits events. *)
Definition M (A : Type) : Type := St -> result A * St * list event.

Definition ret {A : Type} (a : A) : M A := fun s => (Ok a, s, []).

Definition throw {A : Type} (e : string) : M A := fun s => (Throw e, s, []).

Definition bind {A B : Type} (m : M A) (f : A -> M B) : M B :=
  fun s =>
    match m s with
    | (Ok a, s1, t1) =>
        let '(r, s2, t2) := f a s1 in (r, s2, (t1 ++ t2)%list)
    | (Throw e, s1, t1) => (Throw e, s1, t1)
    end.

(** [try { m } catch (error) { h(error.message) }]. *)
Definition try_catch {A : Type} (m : M A) (h : string -> M A) : M A :=
  fun s =>
    match m s with
    | (Ok a, s1, t1) => (Ok a, s1, t1)
    | (Throw e, s1, t1) =>
        let '(r, s2, t2) := h e s1 in (r, s2, (t1 ++ t2)%list)
    end.

(** [try { m } finally { f }]: [f] runs either way, and its own throw
    replaces the outcome of [m]. *)
Definition finally {A : Type} (m : M A) (f : M unit) : M A :=
  fun s =>
    let '(r, s1, t1) := m s in
    match f s1 with
    | (Ok _, s2, t2) => (r, s2, (t1 ++ t2)%list)
    | (Throw e, s2, t2) => (Throw e, s2, (t1 ++ t2)%list)
    end.

Definition emit (e : event) : M unit := fun s => (Ok tt, s, [e]).

Definition console_log (line : string) : M unit := emit (ConsoleLog line).

(** [console.error(a, b)] prints its arguments with a space between. *)
Definition console_error (line : string) : M unit := emit (ConsoleError line).

(** A call on the git client, recorded in the trace. *)
Definition git {A : Type} (c : call) (op : St -> result A * St) : M A :=
  fun s => let '(r, s1) := op s in (r, s1, [Git c]).

(** [for (const a of l) { await body(a) }]. *)
Fixpoint for_of {A : Type} (l : list A) (body : A -> M unit) : M unit :=
  match l with
  | [] => ret tt
  | a :: rest => bind (body a) (fun _ => for_of rest body)
  end.

(** [if (c) { m }]. *)
Definition when (c : bool) (m : M unit) : M unit :=
  if c then m else ret tt.

End Monad.

Declare Scope run_scope.
Delimit Scope run_scope with run.
Notation "x <- m ;; k" := (bind m (fun x => k))
  (at level 61, m at next level, right associativity) : run_scope.
Notation "m ;; k" := (bind m (fun _ => k))
  (at level 61, right associativity) : run_scope.

End Run.

Import Run.
Open Scope run_scope.

(** What a script's function evaluates to: [undefined], or the list of
    commits the dry run of the advanced script returns. *)
Inductive value : Type :=
| Undefined
| Commits (l : list commit).

(** [moment(str).format("YYYY-MM-DD")]: an unreadable date prints as
    "Invalid date". *)
Definition format_parsed (m : option datetime) : string :=
  match m with
  | Some t => format_YYYY_MM_DD (on t)
  | None => "Invalid date"
  end.

(** The filter of removeCommit.js and removeSingleCommit.js:
    [log.all.filter(commit => moment(commit.date).format("YYYY-MM-DD")
    === targetDateStr)]. *)
Definition filterByDate {St : Type} (P : Platform St)
    (commits : list commit) (dateStr : string) : list commit :=
  filter (fun commit =>
            let commitDate := format_parsed (moment_parse P (date commit)) in
            String.eqb commitDate dateStr)
         commits.

(** [git.raw(['rebase', '--onto', `${commitHash}^`, commitHash])]. *)
Definition rebase_onto (commitHash : string) : list string :=
  ["rebase"; "--onto"; commitHash ++ "^"; commitHash].

(** ** removeCommit.js *)

Module RemoveCommit.

(** A coordinate object, [{x, y}]. *)
Record coord : Type := mkCoord { cx : Z; cy : Z }.

(** The values a loop [for (let i = a; i <= b; i++)] visits. *)
Fixpoint count_from (a : Z) (n : nat) : list Z :=
  match n with
  | O => []
  | S k => a :: count_from (a + 1) k
  end.

Definition for_range (a b : Z) : list Z := count_from a (Z.to_nat (b - a + 1)).

(** The array that the two nested loops of [removeCommitsInArea] fill:
    [x] from [startX] to [endX], and for each [x], [y] from [startY] to
    [endY]. *)
Definition area (startX endX startY endY : Z) : list coord :=
  flat_map (fun x => map (fun y => mkCoord x y) (for_range startY endY))
           (for_range startX endX).

Section Script.
Context {St : Type} (P : Platform St).

(** [removeCommitByHash(commitHash)]: the splice, whose failure is logged
    and thrown again. *)
Definition removeCommitByHash (commitHash : string) : M (St := St) unit :=
  try_catch
    (console_log ("Removing commit: " ++ commitHash) ;;
     git (GitRaw (rebase_onto commitHash))
         (git_raw P (rebase_onto commitHash)) ;;
     console_log ("Commit " ++ commitHash ++ " removed successfully"))
    (fun error =>
       console_error ("Error removing commit " ++ commitHash ++ ":"
                      ++ " " ++ error) ;;
       throw error).

Definition coords (x y : Z) : string := "x:" ++ show x ++ ", y:" ++ show y.

(** [removeCommitByCoordinates(x, y, force = false)]. *)
Definition removeCommitByCoordinates (x y : Z) (force : bool) : M value :=
  try_catch
    (match validateCoordinates x y with
     | Throw e => throw e
     | Ok _ =>
       let targetDateStr := targetDateStr (today P) x y in
       console_log ("Looking for commits on " ++ targetDateStr
                    ++ " (" ++ coords x y ++ ")") ;;
       log <- git (GitLog []) (git_log P []) ;;
       let commitsToRemove := filterByDate P (all log) targetDateStr in
       if (List.length commitsToRemove =? 0)%nat then
         console_log ("No commits found for coordinates " ++ coords x y
                      ++ " on " ++ targetDateStr) ;;
         ret Undefined
       else
         console_log ("Found " ++ show_nat (List.length commitsToRemove)
                      ++ " commit(s) to remove:") ;;
         for_of commitsToRemove (fun commit =>
           console_log ("- " ++ substring 0 7 (hash commit) ++ ": "
                        ++ message commit)) ;;
         if negb force then
           console_log "Use force=true to proceed with removal" ;;
           ret Undefined
         else
           for_of commitsToRemove (fun commit =>
             removeCommitByHash (hash commit)) ;;
           console_log ("Successfully removed commits for coordinates "
                        ++ coords x y) ;;
           ret Undefined
     end)
    (fun error =>
       console_error ("Error removing commits:" ++ " " ++ error) ;;
       ret Undefined).

(** [removeMultipleCommitsByCoordinates(coordinates, force = false)]. *)
Definition removeMultipleCommitsByCoordinates (coordinates : list coord)
    (force : bool) : M (St := St) unit :=
  console_log ("Removing commits for "
               ++ show_nat (List.length coordinates) ++ " coordinate pairs") ;;
  for_of coordinates (fun coord =>
    _ <- removeCommitByCoordinates (cx coord) (cy coord) force ;;
    ret tt).

(** [removeCommitsInArea(startX, endX, startY, endY, force = false)]. *)
Definition removeCommitsInArea (startX endX startY endY : Z) (force : bool)
  : M (St := St) unit :=
  let coordinates := area startX endX startY endY in
  console_log ("Removing commits in area: x(" ++ show startX ++ "-"
               ++ show endX ++ "), y(" ++ show startY ++ "-" ++ show endY
               ++ ")") ;;
  removeMultipleCommitsByCoordinates coordinates force.

(** [previewRemoval(x, y)]. *)
Definition previewRemoval (x y : Z) : M (St := St) value :=
  removeCommitByCoordinates x y false.

(** [restoreFromReflog(steps = 1)]. *)
Definition restoreFromReflog (steps : Z) : M (St := St) unit :=
  try_catch
    (console_log ("Restoring from reflog (" ++ show steps ++ " steps back)") ;;
     git (GitRaw ["reset"; "--hard"; "HEAD@{" ++ show steps ++ "}"])
         (git_raw P ["reset"; "--hard"; "HEAD@{" ++ show steps ++ "}"]) ;;
     console_log "Commits restored successfully")
    (fun error =>
       console_error ("Error restoring commits:" ++ " " ++ error)).

End Script.
End RemoveCommit.

(** ** removeSingleCommit.js *)

Module RemoveSingleCommit.
Section Script.
Context {St : Type} (P : Platform St).

(** [removeSingleCommitByHash(commitHash)]. *)
Definition removeSingleCommitByHash (commitHash : string)
  : M (St := St) unit :=
  try_catch
    (console_log ("Removing commit: " ++ commitHash) ;;
     git (GitRaw (rebase_onto commitHash))
         (git_raw P (rebase_onto commitHash)) ;;
     console_log ("Commit " ++ commitHash ++ " removed successfully"))
    (fun error =>
       console_error ("Error removing commit " ++ commitHash ++ ":"
                      ++ " " ++ error) ;;
       throw error).

Definition coords (x y : Z) : string := "x:" ++ show x ++ ", y:" ++ show y.

(** [const matchingCommits = log.all.filter(...)]. *)
Definition matchingCommits (commits : list commit) (dateStr : string)
  : list commit :=
  filterByDate P commits dateStr.

(** [const commitToRemove = matchingCommits[0]], where an empty array
    gives [undefined]. *)
Definition commitToRemove (commits : list commit) (dateStr : string)
  : option commit :=
  nth_error (matchingCommits commits dateStr) 0.

(** [removeSingleCommitByCoordinates(x, y, force = false)]. *)
Definition removeSingleCommitByCoordinates (x y : Z) (force : bool)
  : M value :=
  try_catch
    (match validateCoordinates x y with
     | Throw e => throw e
     | Ok _ =>
       let targetDateStr := targetDateStr (today P) x y in
       console_log ("Looking for commits on " ++ targetDateStr
                    ++ " (" ++ coords x y ++ ")") ;;
       log <- git (GitLog []) (git_log P []) ;;
       let matching := matchingCommits (all log) targetDateStr in
       match commitToRemove (all log) targetDateStr with
       | None =>
         console_log ("No commits found for coordinates " ++ coords x y
                      ++ " on " ++ targetDateStr) ;;
         ret Undefined
       | Some commitToRemove =>
         console_log ("Found " ++ show_nat (List.length matching)
                      ++ " commit(s) on this date.") ;;
         console_log "Will remove ONLY the first one:" ;;
         console_log ("- " ++ substring 0 7 (hash commitToRemove) ++ ": "
                      ++ message commitToRemove) ;;
         when (1 <? List.length matching)%nat
           (console_log ("Note: " ++ show_nat (List.length matching - 1)
                         ++ " other commit(s) will remain on this date.")) ;;
         if negb force then
           console_log "Use force=true to proceed with removal" ;;
           ret Undefined
         else
           removeSingleCommitByHash (hash commitToRemove) ;;
           console_log ("Successfully removed 1 commit for coordinates "
                        ++ coords x y) ;;
           ret Undefined
       end
     end)
    (fun error =>
       console_error ("Error removing commit:" ++ " " ++ error) ;;
       ret Undefined).

(** The inner loop of [findCoordinatesForDate]:
    [for (let y = 0; y <= 6; y++)] from the current [y], with [n] turns
    left. *)
Fixpoint scan_y (now : civil) (target : string) (x y : Z) (n : nat)
  : option (Z * Z) :=
  match n with
  | O => None
  | S k =>
      if String.eqb (targetDateStr now x y) target then Some (x, y)
      else scan_y now target x (y + 1) k
  end.

(** The outer loop, [for (let x = 0; x <= 54; x++)]. *)
Fixpoint scan_x (now : civil) (target : string) (x : Z) (n : nat)
  : option (Z * Z) :=
  match n with
  | O => None
  | S k =>
      match scan_y now target x 0 7 with
      | Some c => Some c
      | None => scan_x now target (x + 1) k
      end
  end.

(** [findCoordinatesForDate(targetDateStr)]: the first pair, [x] ascending
    then [y] ascending, whose date prints as the target; [null] when there
    is none. *)
Definition findCoordinatesForDate (target : string)
  : M (St := St) (option (Z * Z)) :=
  console_log ("=== FINDING COORDINATES FOR " ++ target ++ " ===") ;;
  match scan_x (today P) target 0 55 with
  | Some (x, y) =>
      console_log ("Found coordinates: x=" ++ show x ++ ", y=" ++ show y
                   ++ " for date " ++ target) ;;
      ret (Some (x, y))
  | None =>
      console_log ("No coordinates found for date " ++ target) ;;
      ret None
  end.

(** [previewSingleRemoval(x, y)]. *)
Definition previewSingleRemoval (x y : Z) : M (St := St) value :=
  removeSingleCommitByCoordinates x y false.

(** [removeSingleCommitsFromCoordinates(coordinates, force = false)]. *)
Definition removeSingleCommitsFromCoordinates
    (coordinates : list RemoveCommit.coord) (force : bool)
  : M (St := St) unit :=
  console_log ("Removing 1 commit from each of "
               ++ show_nat (List.length coordinates) ++ " coordinate pairs") ;;
  for_of coordinates (fun coord =>
    _ <- removeSingleCommitByCoordinates (RemoveCommit.cx coord)
                                         (RemoveCommit.cy coord) force ;;
    ret tt).

(** [removeCommitByDate(dateStr, force = false)]. *)
Definition removeCommitByDate (dateStr : string) (force : bool) : M value :=
  try_catch
    (console_log ("Looking for commits on " ++ dateStr) ;;
     log <- git (GitLog []) (git_log P []) ;;
     let matching := matchingCommits (all log) dateStr in
     match commitToRemove (all log) dateStr with
     | None =>
       console_log ("No commits found on " ++ dateStr) ;;
       ret Undefined
     | Some commitToRemove =>
       console_log ("Found " ++ show_nat (List.length matching)
                    ++ " commit(s) on " ++ dateStr ++ ".") ;;
       console_log "Will remove ONLY the first one:" ;;
       console_log ("- " ++ substring 0 7 (hash commitToRemove) ++ ": "
                    ++ message commitToRemove) ;;
       if negb force then
         console_log "Use --force flag to proceed with removal" ;;
         ret Undefined
       else
         removeSingleCommitByHash (hash commitToRemove) ;;
         console_log ("Successfully removed commit on " ++ dateStr) ;;
         ret Undefined
     end)
    (fun error =>
       console_error ("Error removing commit:" ++ " " ++ error) ;;
       ret Undefined).

End Script.
End RemoveSingleCommit.

(** ** removeCommitAdvanced.js *)

Module RemoveCommitAdvanced.

(** The [options] object; a field left out is [None]. *)
Record options : Type := mkOptions
  { force : option bool;
    interactive : option bool;
    dryRun : option bool;
    backup : option bool }.

(** [{ ...options, interactive: false, backup: false }]. *)
Definition spread_pattern (o : options) : options :=
  {| force := force o;
     interactive := Some false;
     dryRun := dryRun o;
     backup := Some false |}.

(** A coordinate of a pattern, [{x, y}]. *)
Record coord : Type := mkCoord { cx : Z; cy : Z }.

(** The [--commit-filter] script that skips the listed commits. *)
Definition commit_filter (commitHashes : list string) : string :=
  nl ++ "            if [ " ++ dq ++ "$GIT_COMMIT" ++ dq ++ " = " ++ dq
  ++ join (dq ++ " ] || [ " ++ dq ++ "$GIT_COMMIT" ++ dq ++ " = " ++ dq)
          commitHashes
  ++ dq ++ " ]; then" ++ nl
  ++ "                skip_commit " ++ dq ++ "$@" ++ dq ++ ";" ++ nl
  ++ "            else" ++ nl
  ++ "                git commit-tree " ++ dq ++ "$@" ++ dq ++ ";" ++ nl
  ++ "            fi" ++ nl
  ++ "            ".

Definition filterCommand (commitHashes : list string) : list string :=
  ["filter-branch"; "--force"; "--commit-filter";
   commit_filter commitHashes; "HEAD"].

Definition log_options : list string :=
  ["--all"; "--pretty=format:%H|%s|%ad"; "--date=short"].

(** The predefined [patterns]. *)
Definition heart : list coord :=
  [mkCoord 1 1; mkCoord 2 0; mkCoord 3 1;
   mkCoord 5 1; mkCoord 6 0; mkCoord 7 1;
   mkCoord 0 2; mkCoord 4 2; mkCoord 8 2;
   mkCoord 1 3; mkCoord 7 3;
   mkCoord 2 4; mkCoord 6 4;
   mkCoord 3 5; mkCoord 5 5;
   mkCoord 4 6].

Definition smiley : list coord :=
  [mkCoord 2 1; mkCoord 6 1;
   mkCoord 1 4; mkCoord 2 5; mkCoord 3 5;
   mkCoord 4 5; mkCoord 5 5; mkCoord 6 5; mkCoord 7 4].

Definition ac : list coord :=
  [mkCoord 1 0; mkCoord 1 1; mkCoord 1 2; mkCoord 1 3; mkCoord 1 4;
   mkCoord 1 5; mkCoord 1 6;
   mkCoord 2 0; mkCoord 3 0; mkCoord 4 1; mkCoord 4 2; mkCoord 4 3;
   mkCoord 2 3; mkCoord 3 3;
   mkCoord 6 0; mkCoord 7 0; mkCoord 8 0; mkCoord 6 1; mkCoord 6 2;
   mkCoord 6 3;
   mkCoord 6 4; mkCoord 6 5; mkCoord 6 6; mkCoord 7 6; mkCoord 8 6].

Section Script.
Context {St : Type} (P : Platform St).

(** [askConfirmation(message)]. *)
Definition askConfirmation (message : string) : M (St := St) bool :=
  fun s =>
    let query := message ++ " (y/N): " in
    let '(answer, s1) := rl_question P query s in
    (Ok (String.eqb (toLowerCase answer) "y"
         || String.eqb (toLowerCase answer) "yes"), s1, [Question query]).

(** [removeCommitsUsingRebase(commits)]: the fallback; a splice that
    throws is logged and the loop goes on. *)
Definition removeCommitsUsingRebase (commits : list commit)
  : M (St := St) unit :=
  console_log "🔄 Falling back to rebase method..." ;;
  for_of commits (fun commit =>
    try_catch
      (git (GitRaw (rebase_onto (hash commit)))
           (git_raw P (rebase_onto (hash commit))) ;;
       console_log ("✅ Removed commit: " ++ substring 0 8 (hash commit)))
      (fun error =>
         console_error ("❌ Failed to remove commit "
                        ++ substring 0 8 (hash commit) ++ ": " ++ error))).

(** [removeCommitsUsingFilter(commits, targetDate)]. *)
Definition removeCommitsUsingFilter (commits : list commit)
    (targetDate : string) : M (St := St) unit :=
  try_catch
    (console_log "🔄 Removing commits using git filter-branch..." ;;
     let commitHashes := map hash commits in
     git (GitRaw (filterCommand commitHashes))
         (git_raw P (filterCommand commitHashes)) ;;
     console_log "✅ Filter-branch completed successfully" ;;
     try_catch
       (git (GitPush ["-f"; "origin"; "main"])
            (git_push P ["-f"; "origin"; "main"]) ;;
        console_log "✅ Changes pushed to remote repository")
       (fun pushError =>
          console_log
            "⚠️  Could not push to remote (this is normal if working locally)"))
    (fun error =>
       console_error ("❌ Error during filter-branch:" ++ " " ++ error) ;;
       removeCommitsUsingRebase commits).

(** [cleanupBackupBranch()]: keeps the five last backup branches. *)
Definition cleanupBackupBranch : M (St := St) unit :=
  try_catch
    (branches <- git GitBranchLocal (git_branchLocal P) ;;
     let backupBranches :=
       filter (fun branch => includes branch "backup-before-removal")
              branches in
     when (5 <? List.length backupBranches)%nat
       (console_log "🧹 Cleaning up old backup branches..." ;;
        let oldBranches := slice_0_neg 5 backupBranches in
        for_of oldBranches (fun branch =>
          git (GitDeleteLocalBranch branch)
              (git_deleteLocalBranch P branch))))
    (fun error =>
       console_log ("⚠️  Could not clean up backup branches:"
                    ++ " " ++ error)).

(** [log.latest ? [log.latest, ...log.all] : log.all]. *)
Definition logEntries (log : LogResult) : list commit :=
  match latest log with
  | Some c => c :: all log
  | None => all log
  end.

(** [commit.date && commit.date.includes(targetDateStr)]. *)
Definition matches (targetDateStr : string) (commit : commit) : bool :=
  negb (String.eqb (date commit) EmptyString)
  && includes (date commit) targetDateStr.

(** [removeCommitByCoordinates(x, y, options = {})]. *)
Definition removeCommitByCoordinates (x y : Z) (o : options) : M value :=
  let force := default false (force o) in
  let interactive := default true (interactive o) in
  let dryRun := default false (dryRun o) in
  let backup := default true (backup o) in
  finally
    (try_catch
      (match validateCoordinates x y with
       | Throw e => throw e
       | Ok _ =>
         when (backup && negb dryRun)
           (let backupBranchName :=
              "backup-before-removal-" ++ show (date_now P) in
            git (GitCheckoutLocalBranch backupBranchName)
                (git_checkoutLocalBranch P backupBranchName) ;;
            git (GitCheckout "main") (git_checkout P "main") ;;
            console_log ("✓ Created backup branch: " ++ backupBranchName)) ;;
         let targetDateStr := targetDateStr (today P) x y in
         console_log ("🎯 Targeting commits on " ++ targetDateStr
                      ++ " (coordinates: x=" ++ show x ++ ", y=" ++ show y
                      ++ ")") ;;
         log <- git (GitLog log_options) (git_log P log_options) ;;
         let matchingCommits := filter (matches targetDateStr)
                                       (logEntries log) in
         if (List.length matchingCommits =? 0)%nat then
           console_log ("❌ No commits found for coordinates x:" ++ show x
                        ++ ", y:" ++ show y ++ " on " ++ targetDateStr) ;;
           when backup cleanupBackupBranch ;;
           ret Undefined
         else
           console_log (nl ++ "📋 Found "
                        ++ show_nat (List.length matchingCommits)
                        ++ " commit(s) to remove:") ;;
           for_of (combine (seq 0 (List.length matchingCommits))
                           matchingCommits)
             (fun '(index, commit) =>
                console_log ("  " ++ show_nat (index + 1) ++ ". "
                             ++ substring 0 8 (hash commit) ++ ": "
                             ++ message commit)) ;;
           if dryRun then
             console_log
               (nl ++ "🔍 DRY RUN - No commits will actually be removed") ;;
             ret (Commits matchingCommits)
           else
             confirmed <-
               (if interactive && negb force then
                  askConfirmation
                    (nl ++ "⚠️  This will permanently remove "
                     ++ show_nat (List.length matchingCommits)
                     ++ " commit(s). Continue?")
                else ret true) ;;
             if negb confirmed then
               console_log "❌ Operation cancelled by user" ;;
               when backup cleanupBackupBranch ;;
               ret Undefined
             else
               removeCommitsUsingFilter matchingCommits targetDateStr ;;
               console_log ("✅ Successfully removed commits for coordinates x:"
                            ++ show x ++ ", y:" ++ show y) ;;
               when backup
                 (console_log
                    "📁 Backup available in branch: backup-before-removal-*") ;;
               ret Undefined
       end)
      (fun error =>
         console_error ("❌ Error removing commits:" ++ " " ++ error) ;;
         throw error))
    (emit RlClose).

(** [removeCommitPattern(pattern, options = {})]. *)
Definition removeCommitPattern (pattern : list coord) (o : options)
  : M (St := St) value :=
  console_log ("🎨 Removing commits in pattern ("
               ++ show_nat (List.length pattern) ++ " coordinates)") ;;
  when (default false (dryRun o))
    (console_log "🔍 DRY RUN - Preview of commits that would be removed:") ;;
  for_of pattern (fun coord =>
    _ <- removeCommitByCoordinates (cx coord) (cy coord)
                                   (spread_pattern o) ;;
    ret tt) ;;
  ret Undefined.

End Script.
End RemoveCommitAdvanced.

(** ** commitRemovalUtility.js: the pattern examples *)

Module CommitRemovalUtility.

(** [{ dryRun: true }]. *)
Definition preview_options : RemoveCommitAdvanced.options :=
  RemoveCommitAdvanced.mkOptions None None (Some true) None.

(** [for (let i = 0; i < 7; i++) diagonal.push({ x: i * 2, y: i })]. *)
Definition diagonal : list RemoveCommitAdvanced.coord :=
  map (fun i => RemoveCommitAdvanced.mkCoord (i * 2) i)
      (RemoveCommit.for_range 0 6).

(** [for (let x = 10; x < 15; x++) for (let y = 2; y < 5; y++)
    areaPattern.push({ x, y })]. *)
Definition areaPattern : list RemoveCommitAdvanced.coord :=
  flat_map (fun x => map (fun y => RemoveCommitAdvanced.mkCoord x y)
                         (RemoveCommit.for_range 2 4))
           (RemoveCommit.for_range 10 14).

Section Script.
Context {St : Type} (P : Platform St).

(** [createHeartPattern()]. *)
Definition createHeartPattern : M (St := St) unit :=
  console_log
    "4️⃣  Create heart pattern by removing specific commits:" ;;
  _ <- RemoveCommitAdvanced.removeCommitPattern P
         RemoveCommitAdvanced.heart preview_options ;;
  console_log EmptyString.

(** [customPattern()]. *)
Definition customPattern : M (St := St) unit :=
  console_log
    "5️⃣  Remove commits in custom pattern (diagonal line):" ;;
  _ <- RemoveCommitAdvanced.removeCommitPattern P diagonal preview_options ;;
  console_log EmptyString.

(** [cleanupArea()]. *)
Definition cleanupArea : M (St := St) unit :=
  console_log "6️⃣  Clean up rectangular area:" ;;
  _ <- RemoveCommitAdvanced.removeCommitPattern P areaPattern
         preview_options ;;
  console_log EmptyString.

End Script.
End CommitRemovalUtility.

(** ** An in-memory History Store, for running the scripts on examples *)

Module Fake.

(** The store: its local branches, its log (most recent first), and what
    the environment makes of it: whether [filter-branch] works, which
    commits cannot be spliced out, and whether a remote is there. *)
Record repo : Type := mkRepo
  { branches : list string;
    history : list commit;
    filter_branch_works : bool;
    unspliceable : list string;
    remote : bool }.

Definition mem (a : string) (l : list string) : bool :=
  existsb (String.eqb a) l.

Definition drop_commits (hashes : list string) (h : list commit)
  : list commit :=
  filter (fun c => negb (mem (hash c) hashes)) h.

Definition with_branches (r : repo) (b : list string) : repo :=
  mkRepo b (history r) (filter_branch_works r) (unspliceable r) (remote r).

Definition with_history (r : repo) (h : list commit) : repo :=
  mkRepo (branches r) h (filter_branch_works r) (unspliceable r) (remote r).

Definition number_or (d : Z) (s : string) : Z :=
  match number s with Some v => v | None => d end.

(** Reads ["YYYY-MM-DD"], with or without ["THH:MM:SS"] after it, as a
    local time: what moment makes of an ISO string that has no offset. *)
Definition parse_local (s : string) : option datetime :=
  match number (substring 0 4 s), number (substring 5 2 s),
        number (substring 8 2 s) with
  | Some y, Some m, Some d =>
      let on := mkDate y (m - 1) d in
      if valid_dateb on
         && String.eqb (substring 4 1 s) "-"
         && String.eqb (substring 7 1 s) "-"
      then Some (mkDatetime on (number_or 0 (substring 11 2 s))
                            (number_or 0 (substring 14 2 s))
                            (number_or 0 (substring 17 2 s)))
      else None
  | _, _, _ => None
  end.

(** The platform over [repo], at a given date and millisecond clock, with
    the line that is typed at every prompt. *)
Definition platform (now : civil) (ms : Z) (answer : string)
  : Platform repo :=
  {| today := now;
     date_now := ms;
     moment_parse := parse_local;
     git_log := fun _ r =>
       (Ok (mkLog (history r) (hd_error (history r))), r);
     git_checkoutLocalBranch := fun name r =>
       if mem name (branches r)
       then (Throw ("fatal: a branch named '" ++ name ++ "' already exists"),
             r)
       else (Ok tt, with_branches r (branches r ++ [name])%list);
     git_checkout := fun _ r => (Ok tt, r);
     git_branchLocal := fun r => (Ok (branches r), r);
     git_deleteLocalBranch := fun name r =>
       (Ok tt,
        with_branches r
          (filter (fun b => negb (String.eqb b name)) (branches r)));
     git_raw := fun args r =>
       match args with
       | ["rebase"; "--onto"; _; h] =>
           if mem h (unspliceable r)
           then (Throw ("could not apply " ++ h), r)
           else (Ok tt, with_history r (drop_commits [h] (history r)))
       | "filter-branch" :: _ =>
           if filter_branch_works r
           then (Ok tt,
                 with_history r
                   (filter (fun c =>
                      negb (includes (nth 3 args EmptyString) (hash c)))
                      (history r)))
           else (Throw "filter-branch is not available", r)
       | _ => (Throw "unknown command", r)
       end;
     git_push := fun _ r =>
       if remote r then (Ok tt, r)
       else (Throw "'origin' does not appear to be a git repository", r);
     rl_question := fun _ r => (answer, r) |}.


(** The commits of the specification's scenario. *)
Definition commit_a : commit :=
  mkCommit "aaaaaaaaaaaa" "first" "2024-01-16T10:00:00".
Definition commit_b : commit :=
  mkCommit "bbbbbbbbbbbb" "second" "2024-01-16T18:00:00".
Definition commit_c : commit :=
  mkCommit "cccccccccccc" "third" "2024-01-17T00:00:00".
Definition commit_d : commit :=
  mkCommit "dddddddddddd" "fourth" "2024-01-16T23:59:59".

Definition jan15 : civil := mkDate 2025 0 15.

Definition six_backups : list string :=
  ["main"; "backup-before-removal-1"; "backup-before-removal-2";
   "backup-before-removal-3"; "backup-before-removal-4";
   "backup-before-removal-5"; "backup-before-removal-6"].

End Fake.

(** ** Vocabulary of the properties *)

(** A date that [format("YYYY-MM-DD")] prints in ten characters. *)
Definition printable (d : civil) : Prop :=
  valid_date d /\ 0 <= year d <= 9999.

Definition printableb (d : civil) : bool :=
  valid_dateb d && (0 <=? year d) && (year d <=? 9999).

(** The calendar day of a commit: the date part of its timestamp as
    moment reads it, the time of day left out. *)
Definition commit_day {St : Type} (P : Platform St) (c : commit)
  : option civil :=
  option_map on (moment_parse P (date c)).

Definition on_day {St : Type} (P : Platform St) (target : civil)
    (c : commit) : bool :=
  match commit_day P c with
  | Some d => date_eqb d target
  | None => false
  end.

(** A check run over every number below a bound. *)
Definition below (n : Z) (f : Z -> bool) : bool :=
  forallb (fun k => f (Z.of_nat k)) (seq 0 (Z.to_nat n)).

Definition reads_back (width : nat) (print : Z -> string) (z : Z) : bool :=
  (String.length (print z) =? width)%nat
  && match number (print z) with
     | Some v => v =? z
     | None => false
     end.

(** A computation [holds ok m R] when, from every store state, each event
    it emits passes [ok] and its outcome satisfies [R]. *)
Definition holds {St A : Type} (ok : event -> bool)
    (m : M (St := St) A) (R : result A -> Prop) : Prop :=
  forall s, Forall (fun e => ok e = true) (snd (m s)) /\ R (fst (fst (m s))).

Definition emits {St A : Type} (ok : event -> bool) (m : M (St := St) A)
  : Prop :=
  holds ok m (fun _ => True).

(** Calls that rewrite history or publish it. *)
Definition rewrites (c : call) : bool :=
  match c with
  | GitRaw _ | GitPush _ => true
  | _ => false
  end.

(** Calls that belong to the backup branches: creating one, going back
    to [main], listing and deleting. *)
Definition branch_call (c : call) : bool :=
  match c with
  | GitCheckoutLocalBranch _ | GitCheckout _ | GitBranchLocal
  | GitDeleteLocalBranch _ => true
  | _ => false
  end.

(** No prompt and no call on the backup branches. *)
Definition quiet (e : event) : bool :=
  match e with
  | Question _ => false
  | Git c => negb (branch_call c)
  | _ => true
  end.

(** No call that rewrites or publishes history. *)
Definition no_rewrite (e : event) : bool :=
  match e with
  | Git c => negb (rewrites c)
  | _ => true
  end.

(** No mutating call at all. *)
Definition read_only (e : event) : bool :=
  match e with
  | Git c => negb (mutating c)
  | _ => true
  end.

(** No mutating call other than the deletion of a branch. *)
Definition only_deletes (e : event) : bool :=
  match e with
  | Git (GitDeleteLocalBranch _) => true
  | Git c => negb (mutating c)
  | _ => true
  end.

(** The answers that [askConfirmation] takes for a yes. *)
Definition confirms (answer : string) : bool :=
  String.eqb (toLowerCase answer) "y"
  || String.eqb (toLowerCase answer) "yes".

(** A prompt that is always declined. *)
Definition declines {St : Type} (P : Platform St) : Prop :=
  forall query s, confirms (fst (rl_question P query s)) = false.

(** The body of the fallback loop of removeCommitAdvanced.js. *)
Definition splice {St : Type} (P : Platform St) (commit : commit)
  : M (St := St) unit :=
  try_catch
    (git (GitRaw (rebase_onto (hash commit)))
         (git_raw P (rebase_onto (hash commit))) ;;
     console_log ("✅ Removed commit: " ++ substring 0 8 (hash commit)))
    (fun error =>
       console_error ("❌ Failed to remove commit "
                      ++ substring 0 8 (hash commit) ++ ": " ++ error)).

(** The specification's removal outcome lists commit identifiers as
    skipped.  Of the values the scripts return, only a list of commits
    carries identifiers: a returned value reports [ids] as skipped when
    it is that list. *)
Definition reports_skipped (r : result value) (ids : list string) : Prop :=
  exists l, r = Ok (Commits l) /\ map hash l = ids.

(** A console line that names a commit, by its hash or its short hash. *)
Definition names_commit (c : commit) (e : event) : bool :=
  match e with
  | ConsoleLog line | ConsoleError line =>
      includes line (substring 0 7 (hash c))
  | _ => false
  end.

(** A computation whose first event, from every state, is [e]. *)
Definition starts_with {St A : Type} (e : event) (m : M (St := St) A)
  : Prop :=
  forall s, exists rest, snd (m s) = e :: rest.

(** The outcome is not a list of commits, whether it returns or throws. *)
Definition no_commits (r : result value) : Prop :=
  forall l, r <> Ok (Commits l).

(** No prompt. *)
Definition no_question (e : event) : bool :=
  match e with
  | Question _ => false
  | _ => true
  end.

(** Any event at all. *)
Definition any_event (e : event) : bool := true.


(** The number of mutating calls in a trace. *)
Definition mutations (t : list event) : nat :=
  List.length (filter mutating (git_calls t)).

(** A coordinate inside the grid. *)
Definition in_grid (x y : Z) : Prop := 0 <= x <= 54 /\ 0 <= y <= 6.

(** A store on which a call, whatever the state, does not throw. *)
Definition log_answers {St : Type} (P : Platform St) : Prop :=
  forall options s, exists lg s1, git_log P options s = (Ok lg, s1).



Definition deletes_branches {St : Type} (P : Platform St) : Prop :=
  forall name s, exists s1, git_deleteLocalBranch P name s = (Ok tt, s1).

(** The branches that [cleanupBackupBranch] counts as backups. *)
Definition backups (branches : list string) : list string :=
  filter (fun branch => includes branch "backup-before-removal") branches.

(** [runs m s r s' calls]: from the state [s], the computation [m] ends
    with the outcome [r] in the state [s'], having made the git calls
    [calls], in that order. *)
Definition runs {St A : Type} (m : M (St := St) A) (s : St)
    (r : result A) (s' : St) (calls : list call) : Prop :=
  exists t, m s = (r, s', t) /\ git_calls t = calls.

(** [runs_asking m s r s' calls asked]: as [runs], with the questions put
    at the prompt, in order. *)
Definition runs_asking {St A : Type} (m : M (St := St) A) (s : St)
    (r : result A) (s' : St) (calls : list call) (asked : list string)
  : Prop :=
  exists t, m s = (r, s', t) /\ git_calls t = calls /\ questions t = asked.

(** The question that the advanced script puts before removing the
    commits [matching]. *)
Definition confirmation_query (matching : list commit) : string :=
  (nl ++ "⚠️  This will permanently remove "
   ++ show_nat (List.length matching) ++ " commit(s). Continue?")
  ++ " (y/N): ".

(** The name of the backup branch. *)
Definition backup_name {St : Type} (P : Platform St) : string :=
  "backup-before-removal-" ++ show (date_now P).

(** * Properties *)

(** ** The calendar *)

Lemma isLeapYear_mod (y : Z) :
  isLeapYear y = true <->
  (y mod 4 = 0 /\ y mod 100 <> 0) \/ y mod 400 = 0.
Proof.
  unfold isLeapYear.
  rewrite orb_true_iff, andb_true_iff, negb_true_iff.
  rewrite !Z.eqb_eq, Z.eqb_neq.
  Z.to_euclidean_division_equations. lia.
Qed.

Lemma dayFromYear_succ (y : Z) :
  dayFromYear (y + 1) =
  dayFromYear y + (if isLeapYear y then 366 else 365).
Proof.
  unfold dayFromYear.
  destruct (isLeapYear y) eqn:E.
  - apply isLeapYear_mod in E.
    Z.to_euclidean_division_equations. lia.
  - assert (N : ~ ((y mod 4 = 0 /\ y mod 100 <> 0) \/ y mod 400 = 0)).
    { rewrite <- isLeapYear_mod. congruence. }
    Z.to_euclidean_division_equations. lia.
Qed.

Lemma daysInMonth_in_year (y m : Z) :
  0 <= m <= 11 ->
  daysInMonth y m =
  match m with
  | 1 => if isLeapYear y then 29 else 28
  | 3 | 5 | 8 | 10 => 30
  | _ => 31
  end.
Proof.
  intros H.
  assert (C : m = 0 \/ m = 1 \/ m = 2 \/ m = 3 \/ m = 4 \/ m = 5 \/ m = 6
              \/ m = 7 \/ m = 8 \/ m = 9 \/ m = 10 \/ m = 11) by lia.
  unfold daysInMonth, mod_.
  repeat (destruct C as [-> | C]); try subst m; cbn;
    rewrite ?Z.add_0_r; reflexivity.
Qed.

Lemma daysInMonth_bounds (y m : Z) :
  0 <= m <= 11 -> 28 <= daysInMonth y m <= 31.
Proof.
  intros H. rewrite (daysInMonth_in_year y m H).
  assert (C : m = 0 \/ m = 1 \/ m = 2 \/ m = 3 \/ m = 4 \/ m = 5 \/ m = 6
              \/ m = 7 \/ m = 8 \/ m = 9 \/ m = 10 \/ m = 11) by lia.
  repeat (destruct C as [-> | C]); try subst m;
    try destruct (isLeapYear y); lia.
Qed.

Lemma valid_dateb_spec (d : civil) : valid_dateb d = true <-> valid_date d.
Proof.
  unfold valid_dateb, valid_date.
  rewrite !andb_true_iff, !Z.leb_le. tauto.
Qed.

(** The day after a well-formed date is well formed and has the next day
    number. *)
Lemma next_day_spec (d : civil) :
  valid_date d ->
  valid_date (next_day d) /\ day_number (next_day d) = day_number d + 1.
Proof.
  destruct d as [y m dd]. unfold valid_date, next_day, day_number. cbn.
  intros [Hm Hd].
  destruct (dd <? daysInMonth y m) eqn:E1.
  - apply Z.ltb_lt in E1. cbn. split; lia.
  - apply Z.ltb_ge in E1.
    assert (Hdd : dd = daysInMonth y m) by lia.
    rewrite (daysInMonth_in_year y m Hm) in Hdd.
    destruct (m <? 11) eqn:E2.
    + apply Z.ltb_lt in E2. cbn.
      assert (Hm' : 0 <= m + 1 <= 11) by lia.
      pose proof (daysInMonth_bounds y (m + 1) Hm').
      split; [lia|].
      assert (C : m = 0 \/ m = 1 \/ m = 2 \/ m = 3 \/ m = 4 \/ m = 5
                  \/ m = 6 \/ m = 7 \/ m = 8 \/ m = 9 \/ m = 10) by lia.
      repeat (destruct C as [-> | C]); try subst m; cbn in *;
        destruct (isLeapYear y); lia.
    + apply Z.ltb_ge in E2. assert (m = 11) by lia. subst m. cbn in *.
      split.
      * rewrite ?daysInMonth_in_year by lia. lia.
      * rewrite dayFromYear_succ.
        destruct (isLeapYear y); destruct (isLeapYear (y + 1)); lia.
Qed.

Lemma iter_next_day_spec (n : nat) (d : civil) :
  valid_date d ->
  valid_date (Nat.iter n next_day d)
  /\ day_number (Nat.iter n next_day d) = day_number d + Z.of_nat n.
Proof.
  intros H. induction n as [|n [IHv IHn]].
  - cbn. split; [assumption | lia].
  - change (Nat.iter (S n) next_day d)
      with (next_day (Nat.iter n next_day d)).
    destruct (next_day_spec _ IHv) as [V N]. split; [assumption | lia].
Qed.

(** Within a month, stepping from the first reaches each of its days. *)
Lemma iter_next_day_in_month (y m : Z) (k : nat) :
  0 <= m <= 11 -> 1 + Z.of_nat k <= daysInMonth y m ->
  Nat.iter k next_day (mkDate y m 1) = mkDate y m (1 + Z.of_nat k).
Proof.
  intros Hm. induction k as [|k IH]; intros Hk.
  - reflexivity.
  - change (Nat.iter (S k) next_day (mkDate y m 1))
      with (next_day (Nat.iter k next_day (mkDate y m 1))).
    rewrite IH by lia. unfold next_day. cbn [year month day].
    destruct (1 + Z.of_nat k <? daysInMonth y m) eqn:E.
    + f_equal. lia.
    + apply Z.ltb_ge in E. lia.
Qed.

Lemma makeDay_valid (d : civil) :
  valid_date d -> makeDay (year d) (month d) (day d) = d.
Proof.
  destruct d as [y m dd]. unfold valid_date. cbn. intros [Hm Hd].
  unfold makeDay.
  rewrite Z.div_small, Z.mod_small, Z.add_0_r by lia.
  destruct (1 <=? dd) eqn:E; [|apply Z.leb_gt in E; lia].
  rewrite iter_next_day_in_month by lia. f_equal. lia.
Qed.

(** Adding days to a well-formed date is stepping day by day. *)
Lemma add_days_iter (d : civil) (n : Z) :
  valid_date d -> 0 <= n ->
  add_days d n = Nat.iter (Z.to_nat n) next_day d.
Proof.
  intros V Hn. unfold add_days.
  destruct (n =? 0) eqn:E.
  - apply Z.eqb_eq in E. subst n. reflexivity.
  - destruct d as [y m dd]. unfold valid_date in V. cbn in *.
    destruct V as [Hm Hd]. unfold makeDay.
    rewrite Z.div_small, Z.mod_small, Z.add_0_r by lia.
    destruct (1 <=? dd + n) eqn:E1; [|apply Z.leb_gt in E1; lia].
    replace (Z.to_nat (dd + n - 1))
      with (Z.to_nat n + Z.to_nat (dd - 1))%nat by lia.
    rewrite Nat.iter_add.
    rewrite iter_next_day_in_month by lia.
    do 2 f_equal. lia.
Qed.

Lemma add_days_spec (d : civil) (n : Z) :
  valid_date d -> 0 <= n ->
  valid_date (add_days d n)
  /\ day_number (add_days d n) = day_number d + n.
Proof.
  intros V Hn. rewrite add_days_iter by assumption.
  destruct (iter_next_day_spec (Z.to_nat n) d V) as [V' N].
  split; [assumption | lia].
Qed.

(** One year back: the same month of the year before, the day clamped to
    that month's length (29 February goes to 28 February). *)
Lemma subtract_y_1 (d : civil) :
  valid_date d ->
  subtract_y 1 d =
  mkDate (year d - 1) (month d)
         (Z.min (day d) (daysInMonth (year d - 1) (month d)))
  /\ valid_date (subtract_y 1 d).
Proof.
  destruct d as [y m dd]. unfold valid_date at 1. cbn [year month day].
  intros [Hm Hd].
  assert (E : subtract_y 1 (mkDate y m dd) =
              mkDate (y - 1) m (Z.min dd (daysInMonth (y - 1) m))).
  { unfold subtract_y, add_months, setMonth. cbn [year month day].
    change (- (12 * 1) =? 0) with false. cbv iota.
    change (- (12 * 1)) with (-12).
    assert (D : daysInMonth y (m + -12) = daysInMonth (y - 1) m).
    { assert (C : m = 0 \/ m = 1 \/ m = 2 \/ m = 3 \/ m = 4 \/ m = 5
                  \/ m = 6 \/ m = 7 \/ m = 8 \/ m = 9 \/ m = 10 \/ m = 11)
        by lia.
      unfold daysInMonth, mod_.
      repeat (destruct C as [-> | C]); try subst m; cbn;
        rewrite ?Z.add_0_r; try reflexivity;
        replace (y + -1) with (y - 1) by lia; reflexivity. }
    rewrite D.
    pose proof (daysInMonth_bounds (y - 1) m Hm) as B.
    unfold makeDay.
    replace ((m + -12) / 12) with (-1)
      by (Z.to_euclidean_division_equations; lia).
    replace ((m + -12) mod 12) with m
      by (Z.to_euclidean_division_equations; lia).
    replace (y + -1) with (y - 1) by lia.
    destruct (1 <=? Z.min dd (daysInMonth (y - 1) m)) eqn:E1;
      [|apply Z.leb_gt in E1; lia].
    rewrite iter_next_day_in_month by lia. f_equal. lia. }
  split; [exact E|].
  rewrite E. unfold valid_date. cbn.
  pose proof (daysInMonth_bounds (y - 1) m Hm). lia.
Qed.

(** ** The coordinate resolver *)

Lemma validateCoordinates_in_range (x y : Z) :
  0 <= x <= 54 -> 0 <= y <= 6 -> validateCoordinates x y = Ok tt.
Proof.
  intros Hx Hy. unfold validateCoordinates.
  replace (x <? 0) with false by (symmetry; apply Z.ltb_ge; lia).
  replace (x >? 54) with false
    by (symmetry; rewrite Z.gtb_ltb; apply Z.ltb_ge; lia).
  replace (y <? 0) with false by (symmetry; apply Z.ltb_ge; lia).
  replace (y >? 6) with false
    by (symmetry; rewrite Z.gtb_ltb; apply Z.ltb_ge; lia).
  reflexivity.
Qed.

Lemma validateCoordinates_x_out (x y : Z) :
  x < 0 \/ 54 < x -> validateCoordinates x y = Throw X_OUT_OF_RANGE.
Proof.
  intros H. unfold validateCoordinates.
  replace ((x <? 0) || (x >? 54)) with true; [reflexivity|].
  symmetry. apply orb_true_iff. rewrite Z.gtb_ltb, !Z.ltb_lt. lia.
Qed.

Lemma validateCoordinates_y_out (x y : Z) :
  0 <= x <= 54 -> y < 0 \/ 6 < y ->
  validateCoordinates x y = Throw Y_OUT_OF_RANGE.
Proof.
  intros Hx H. unfold validateCoordinates.
  replace ((x <? 0) || (x >? 54)) with false.
  - replace ((y <? 0) || (y >? 6)) with true; [reflexivity|].
    symmetry. apply orb_true_iff. rewrite Z.gtb_ltb, !Z.ltb_lt. lia.
  - symmetry. apply orb_false_iff. rewrite Z.gtb_ltb, !Z.ltb_ge. lia.
Qed.

(** The anchor, one year back and one day on, and the target date the
    grid offset reaches from it. *)
Lemma targetDate_spec (now : civil) (x y : Z) :
  valid_date now -> 0 <= x -> 0 <= y ->
  let anchor := add_d 1 (subtract_y 1 now) in
  valid_date anchor
  /\ day_number anchor = day_number (subtract_y 1 now) + 1
  /\ targetDate now x y = Nat.iter (Z.to_nat (x * 7 + y)) next_day anchor
  /\ valid_date (targetDate now x y)
  /\ day_number (targetDate now x y) = day_number anchor + (x * 7 + y).
Proof.
  intros V Hx Hy anchor.
  destruct (subtract_y_1 now V) as [_ V1].
  destruct (add_days_spec (subtract_y 1 now) 1 V1 ltac:(lia)) as [Va Na].
  fold (add_d 1 (subtract_y 1 now)) in Va, Na. fold anchor in Va, Na.
  destruct (add_days_spec anchor (7 * x) Va ltac:(lia)) as [Vw Nw].
  destruct (add_days_spec (add_days anchor (7 * x)) y Vw Hy) as [Vd Nd].
  assert (E : targetDate now x y = add_days (add_days anchor (7 * x)) y)
    by reflexivity.
  split; [exact Va|]. split; [exact Na|].
  split; [|split].
  - rewrite E.
    rewrite (add_days_iter _ y Vw Hy), (add_days_iter _ (7 * x) Va)
      by lia.
    rewrite <- Nat.iter_add. f_equal. lia.
  - rewrite E. exact Vd.
  - rewrite E. lia.
Qed.

(** C1.  For a week in 0..54 and a day in 0..6, with the reference date
    fixed, the resolver returns the date that lies [week * 7 + day] days
    after the anchor, the anchor being the reference date one year back
    and one day on; the result is a function of its inputs and is reached
    by stepping whole calendar days.  With 2025-01-15 as the reference,
    (0, 0) resolves to 2024-01-16 and (1, 2) to 2024-01-25. *)
Theorem resolve_offset_from_anchor :
  (forall (now : civil) (wk dy : Z),
      valid_date now -> 0 <= wk <= 54 -> 0 <= dy <= 6 ->
      let anchor := add_d 1 (subtract_y 1 now) in
      exists r,
        resolve now wk dy = Ok r
        /\ r = Nat.iter (Z.to_nat (wk * 7 + dy)) next_day anchor
        /\ valid_date r
        /\ day_number r = day_number anchor + (wk * 7 + dy)
        /\ day_number anchor = day_number (subtract_y 1 now) + 1)
  /\ resolve (mkDate 2025 0 15) 0 0 = Ok (mkDate 2024 0 16)
  /\ resolve (mkDate 2025 0 15) 1 2 = Ok (mkDate 2024 0 25)
  /\ targetDateStr (mkDate 2025 0 15) 0 0 = "2024-01-16"
  /\ targetDateStr (mkDate 2025 0 15) 1 2 = "2024-01-25".
Proof.
  split; [|repeat split; reflexivity].
  intros now wk dy V Hw Hd anchor.
  destruct (targetDate_spec now wk dy V ltac:(lia) ltac:(lia))
    as (Va & Na & E & Vr & Nr).
  exists (targetDate now wk dy).
  unfold resolve. rewrite validateCoordinates_in_range by assumption.
  split; [reflexivity|]. split; [exact E|]. split; [exact Vr|].
  split; [exact Nr | exact Na].
Qed.

Lemma resolve_offset_from_anchor_witness :
  exists r,
    resolve (mkDate 2024 1 29) 54 6 = Ok r
    /\ r = Nat.iter (Z.to_nat (54 * 7 + 6)) next_day
                    (add_d 1 (subtract_y 1 (mkDate 2024 1 29)))
    /\ valid_date r
    /\ day_number r
       = day_number (add_d 1 (subtract_y 1 (mkDate 2024 1 29)))
         + (54 * 7 + 6)
    /\ day_number (add_d 1 (subtract_y 1 (mkDate 2024 1 29)))
       = day_number (subtract_y 1 (mkDate 2024 1 29)) + 1.
Proof.
  apply (proj1 resolve_offset_from_anchor (mkDate 2024 1 29) 54 6).
  - apply valid_dateb_spec. reflexivity.
  - lia.
  - lia.
Defined.

(** C5.  A week outside 0..54 or a day outside 0..6 is rejected with an
    error whose message names the axis, X for the week and Y for the day,
    whatever the reference date; the script then logs that message and
    does nothing else: no date is printed, the store is not called and is
    left as it was. *)
Theorem out_of_range_rejected_first
    {St : Type} (P : Platform St) (x y : Z) (force : bool) (s : St) :
  x < 0 \/ 54 < x \/ y < 0 \/ 6 < y ->
  exists msg,
    validateCoordinates x y = Throw msg
    /\ (forall now, resolve now x y = Throw msg)
    /\ (x < 0 \/ 54 < x -> msg = X_OUT_OF_RANGE)
    /\ (0 <= x <= 54 -> msg = Y_OUT_OF_RANGE)
    /\ RemoveCommit.removeCommitByCoordinates P x y force s
       = (Ok Undefined, s,
          [ConsoleError ("Error removing commits:" ++ " " ++ msg)])
    /\ RemoveSingleCommit.removeSingleCommitByCoordinates P x y force s
       = (Ok Undefined, s,
          [ConsoleError ("Error removing commit:" ++ " " ++ msg)])
    /\ (forall o,
          RemoveCommitAdvanced.removeCommitByCoordinates P x y o s
          = (Throw msg, s,
             [ConsoleError ("❌ Error removing commits:" ++ " " ++ msg);
              RlClose])).
Proof.
  intros H.
  assert (C : (x < 0 \/ 54 < x) \/ (0 <= x <= 54 /\ (y < 0 \/ 6 < y)))
    by lia.
  destruct C as [Hx | [Hx Hy]].
  - exists X_OUT_OF_RANGE.
    pose proof (validateCoordinates_x_out x y Hx) as E.
    unfold resolve, RemoveCommit.removeCommitByCoordinates,
      RemoveSingleCommit.removeSingleCommitByCoordinates,
      RemoveCommitAdvanced.removeCommitByCoordinates.
    rewrite E.
    repeat split; try reflexivity. intros Hx'. lia.
  - exists Y_OUT_OF_RANGE.
    pose proof (validateCoordinates_y_out x y Hx Hy) as E.
    unfold resolve, RemoveCommit.removeCommitByCoordinates,
      RemoveSingleCommit.removeSingleCommitByCoordinates,
      RemoveCommitAdvanced.removeCommitByCoordinates.
    rewrite E.
    repeat split; try reflexivity. intros Hx'. lia.
Qed.

Lemma out_of_range_rejected_first_witness :
  exists msg,
    validateCoordinates 55 7 = Throw msg
    /\ (forall now, resolve now 55 7 = Throw msg)
    /\ (55 < 0 \/ 54 < 55 -> msg = X_OUT_OF_RANGE)
    /\ (0 <= 55 <= 54 -> msg = Y_OUT_OF_RANGE)
    /\ RemoveCommit.removeCommitByCoordinates
         (Fake.platform Fake.jan15 0 "n") 55 7 true
         (Fake.mkRepo ["main"] [Fake.commit_a] true [] false)
       = (Ok Undefined,
          Fake.mkRepo ["main"] [Fake.commit_a] true [] false,
          [ConsoleError ("Error removing commits:" ++ " " ++ msg)])
    /\ RemoveSingleCommit.removeSingleCommitByCoordinates
         (Fake.platform Fake.jan15 0 "n") 55 7 true
         (Fake.mkRepo ["main"] [Fake.commit_a] true [] false)
       = (Ok Undefined,
          Fake.mkRepo ["main"] [Fake.commit_a] true [] false,
          [ConsoleError ("Error removing commit:" ++ " " ++ msg)])
    /\ (forall o,
          RemoveCommitAdvanced.removeCommitByCoordinates
            (Fake.platform Fake.jan15 0 "n") 55 7 o
            (Fake.mkRepo ["main"] [Fake.commit_a] true [] false)
          = (Throw msg,
             Fake.mkRepo ["main"] [Fake.commit_a] true [] false,
             [ConsoleError ("❌ Error removing commits:" ++ " " ++ msg);
              RlClose])).
Proof.
  apply (out_of_range_rejected_first
           (Fake.platform Fake.jan15 0 "n") 55 7 true).
  lia.
Defined.

(** ** Printed dates *)

Lemma string_app_inj (a b c d : string) :
  String.length a = String.length b ->
  a ++ c = b ++ d -> a = b /\ c = d.
Proof.
  revert b. induction a as [|x a IH]; intros [|z b] L E;
    try discriminate L.
  - split; [reflexivity | exact E].
  - cbn in L, E. injection E as -> E. injection L as L.
    destruct (IH b L E) as [-> ->]. split; reflexivity.
Qed.

Lemma string_length_app (a b : string) :
  String.length (a ++ b) = (String.length a + String.length b)%nat.
Proof.
  induction a as [|x a IH]; cbn; [reflexivity | rewrite IH; reflexivity].
Qed.

Lemma below_spec (n : Z) (f : Z -> bool) (z : Z) :
  below n f = true -> 0 <= z < n -> f z = true.
Proof.
  intros B H. unfold below in B. rewrite forallb_forall in B.
  rewrite <- (Z2Nat.id z) by lia. apply B. apply in_seq. lia.
Qed.

Lemma reads_back_spec (width : nat) (print : Z -> string) (z : Z) :
  reads_back width print z = true ->
  String.length (print z) = width /\ number (print z) = Some z.
Proof.
  unfold reads_back. rewrite andb_true_iff, Nat.eqb_eq.
  intros [L N]. split; [exact L|].
  destruct (number (print z)) as [v|]; [|discriminate].
  apply Z.eqb_eq in N. congruence.
Qed.

Lemma format_YYYY_reads_back (y : Z) :
  0 <= y <= 9999 ->
  String.length (format_YYYY y) = 4%nat /\ number (format_YYYY y) = Some y.
Proof.
  intros H. apply reads_back_spec.
  apply (below_spec 10000 (reads_back 4 format_YYYY)); [|lia].
  vm_compute. reflexivity.
Qed.

Lemma zeroFill_2_reads_back (n : Z) :
  0 <= n <= 99 ->
  String.length (zeroFill n 2) = 2%nat /\ number (zeroFill n 2) = Some n.
Proof.
  intros H. apply (reads_back_spec 2 (fun z => zeroFill z 2) n).
  apply (below_spec 100 (reads_back 2 (fun z => zeroFill z 2))); [|lia].
  vm_compute. reflexivity.
Qed.

Lemma printableb_spec (d : civil) : printableb d = true <-> printable d.
Proof.
  unfold printableb, printable.
  rewrite !andb_true_iff, !Z.leb_le, valid_dateb_spec. tauto.
Qed.

Lemma format_length (d : civil) :
  printable d -> String.length (format_YYYY_MM_DD d) = 10%nat.
Proof.
  intros [[Hm Hd] Hy].
  pose proof (daysInMonth_bounds (year d) (month d) Hm) as B.
  unfold format_YYYY_MM_DD.
  rewrite !string_length_app.
  destruct (format_YYYY_reads_back (year d) Hy) as [-> _].
  destruct (zeroFill_2_reads_back (month d + 1)) as [-> _]; [lia|].
  destruct (zeroFill_2_reads_back (day d)) as [-> _]; [lia|].
  reflexivity.
Qed.

(** Two printable dates print alike only when they are the same date. *)
Lemma format_injective (a b : civil) :
  printable a -> printable b ->
  format_YYYY_MM_DD a = format_YYYY_MM_DD b -> a = b.
Proof.
  intros [[Hma Hda] Hya] [[Hmb Hdb] Hyb] E.
  pose proof (daysInMonth_bounds (year a) (month a) Hma) as Ba.
  pose proof (daysInMonth_bounds (year b) (month b) Hmb) as Bb.
  unfold format_YYYY_MM_DD in E.
  destruct (format_YYYY_reads_back (year a) Hya) as [Lya Nya].
  destruct (format_YYYY_reads_back (year b) Hyb) as [Lyb Nyb].
  destruct (zeroFill_2_reads_back (month a + 1)) as [Lma Nma]; [lia|].
  destruct (zeroFill_2_reads_back (month b + 1)) as [Lmb Nmb]; [lia|].
  destruct (zeroFill_2_reads_back (day a)) as [Lda Nda]; [lia|].
  destruct (zeroFill_2_reads_back (day b)) as [Ldb Ndb]; [lia|].
  apply string_app_inj in E; [|congruence]. destruct E as [Ey E].
  cbn in E. injection E as E.
  apply string_app_inj in E; [|congruence]. destruct E as [Em E].
  cbn in E. injection E as Ed.
  rewrite Ey in Nya. rewrite Em in Nma. rewrite Ed in Nda.
  destruct a as [ya ma da], b as [yb mb db]. cbn in *.
  f_equal; [congruence | | congruence].
  assert (ma + 1 = mb + 1) by congruence. lia.
Qed.

Lemma format_eqb (a b : civil) :
  printable a -> printable b ->
  String.eqb (format_YYYY_MM_DD a) (format_YYYY_MM_DD b) = date_eqb a b.
Proof.
  intros Pa Pb.
  destruct (String.eqb_spec (format_YYYY_MM_DD a) (format_YYYY_MM_DD b))
    as [E | N].
  - apply (format_injective a b Pa Pb) in E. subst b.
    unfold date_eqb. rewrite !Z.eqb_refl. reflexivity.
  - symmetry. apply not_true_is_false. intros D. apply N.
    unfold date_eqb in D. rewrite !andb_true_iff, !Z.eqb_eq in D.
    destruct a, b. cbn in D. destruct D as [[-> ->] ->]. reflexivity.
Qed.

Lemma date_eqb_eq (a b : civil) : date_eqb a b = true <-> a = b.
Proof.
  unfold date_eqb. rewrite !andb_true_iff, !Z.eqb_eq.
  destruct a, b. cbn. split.
  - intros [[-> ->] ->]. reflexivity.
  - intros E. injection E as -> -> ->. auto.
Qed.

(** ** Selection by date *)

Lemma invalid_date_never_matches (d : civil) :
  printable d -> String.eqb "Invalid date" (format_YYYY_MM_DD d) = false.
Proof.
  intros Pd. apply String.eqb_neq. intros E.
  apply (f_equal String.length) in E.
  rewrite (format_length d Pd) in E. discriminate E.
Qed.

(** C6.  For every sequence of commits and every target date, the
    selection is the input filtered by the calendar day of each commit's
    timestamp: a commit is kept exactly when its day equals the target,
    whatever its time of day, and the kept commits stand in the order of
    the input.  (Dates are four-digit-year calendar dates.) *)
Theorem filterByDate_selects_by_day
    {St : Type} (P : Platform St) (commits : list commit) (target : civil) :
  printable target ->
  (forall c t, In c commits -> moment_parse P (date c) = Some t ->
               printable (on t)) ->
  filterByDate P commits (format_YYYY_MM_DD target)
  = filter (on_day P target) commits
  /\ (forall c, In c (filterByDate P commits (format_YYYY_MM_DD target))
                <-> In c commits /\ commit_day P c = Some target).
Proof.
  intros Pt Pc.
  assert (E : forall c, In c commits ->
      String.eqb (format_parsed (moment_parse P (date c)))
                 (format_YYYY_MM_DD target)
      = on_day P target c).
  { intros c Hc. unfold on_day, commit_day.
    destruct (moment_parse P (date c)) as [t|] eqn:Et; cbn.
    - apply format_eqb; [apply (Pc c t Hc Et) | exact Pt].
    - apply invalid_date_never_matches. exact Pt. }
  split.
  - unfold filterByDate. apply filter_ext_in. exact E.
  - intros c. unfold filterByDate. rewrite filter_In. split.
    + intros [Hc M]. split; [exact Hc|].
      rewrite (E c Hc) in M. unfold on_day in M.
      destruct (commit_day P c) as [d|]; [|discriminate].
      apply date_eqb_eq in M. congruence.
    + intros [Hc D]. split; [exact Hc|].
      rewrite (E c Hc). unfold on_day. rewrite D.
      apply date_eqb_eq. reflexivity.
Qed.

Lemma filterByDate_selects_by_day_witness :
  let P := Fake.platform Fake.jan15 0 "n" in
  let commits := [Fake.commit_a; Fake.commit_b; Fake.commit_c;
                  Fake.commit_d] in
  let target := mkDate 2024 0 16 in
  (filterByDate P commits (format_YYYY_MM_DD target)
   = filter (on_day P target) commits
   /\ (forall c, In c (filterByDate P commits (format_YYYY_MM_DD target))
                 <-> In c commits /\ commit_day P c = Some target))
  /\ filterByDate P commits (format_YYYY_MM_DD target)
     = [Fake.commit_a; Fake.commit_b; Fake.commit_d].
Proof.
  intros P commits target. split; [|reflexivity].
  apply (filterByDate_selects_by_day P commits target).
  - apply printableb_spec. reflexivity.
  - intros c t Hc Et. apply printableb_spec.
    destruct Hc as [<- | [<- | [<- | [<- | []]]]];
      vm_compute in Et; injection Et as <-; reflexivity.
Defined.

(** C7.  When more than one commit matches the target date, the
    single-commit mode picks exactly one record, and it is the first element
    of the full selection on the same inputs. *)
Theorem commitToRemove_is_first_match
    {St : Type} (P : Platform St) (commits : list commit)
    (dateStr : string) :
  (1 < List.length (filterByDate P commits dateStr))%nat ->
  exists c rest,
    filterByDate P commits dateStr = c :: rest
    /\ RemoveSingleCommit.commitToRemove P commits dateStr = Some c
    /\ hd_error (filterByDate P commits dateStr) = Some c
    /\ In c commits.
Proof.
  intros L.
  unfold RemoveSingleCommit.commitToRemove,
    RemoveSingleCommit.matchingCommits.
  destruct (filterByDate P commits dateStr) as [|c rest] eqn:E.
  - cbn in L. lia.
  - exists c, rest. repeat split.
    assert (I : In c (filterByDate P commits dateStr))
      by (rewrite E; left; reflexivity).
    unfold filterByDate in I. apply filter_In in I. apply I.
Qed.

Lemma commitToRemove_is_first_match_witness :
  exists c rest,
    filterByDate (Fake.platform Fake.jan15 0 "n")
      [Fake.commit_c; Fake.commit_a; Fake.commit_b] "2024-01-16"
    = c :: rest
    /\ RemoveSingleCommit.commitToRemove (Fake.platform Fake.jan15 0 "n")
         [Fake.commit_c; Fake.commit_a; Fake.commit_b] "2024-01-16"
       = Some c
    /\ hd_error
         (filterByDate (Fake.platform Fake.jan15 0 "n")
            [Fake.commit_c; Fake.commit_a; Fake.commit_b] "2024-01-16")
       = Some c
    /\ In c [Fake.commit_c; Fake.commit_a; Fake.commit_b].
Proof.
  apply (commitToRemove_is_first_match (Fake.platform Fake.jan15 0 "n")
           [Fake.commit_c; Fake.commit_a; Fake.commit_b] "2024-01-16").
  vm_compute. lia.
Defined.

(** ** The grid and the search over it *)

Lemma year_next_day (d : civil) : year d <= year (next_day d).
Proof.
  unfold next_day.
  destruct (day d <? daysInMonth (year d) (month d)); cbn; [lia|].
  destruct (month d <? 11); cbn; lia.
Qed.

Lemma year_iter_next_day (n : nat) (d : civil) :
  year d <= year (Nat.iter n next_day d).
Proof.
  induction n as [|n IH]; [cbn; lia|].
  change (Nat.iter (S n) next_day d) with (next_day (Nat.iter n next_day d)).
  pose proof (year_next_day (Nat.iter n next_day d)). lia.
Qed.

Lemma dayFromYear_grows (a : Z) (n : nat) :
  dayFromYear a + 365 * Z.of_nat n <= dayFromYear (a + Z.of_nat n).
Proof.
  induction n as [|n IH].
  - change (Z.of_nat 0) with 0. rewrite Z.mul_0_r, !Z.add_0_r. lia.
  - replace (a + Z.of_nat (S n)) with (a + Z.of_nat n + 1) by lia.
    rewrite dayFromYear_succ.
    destruct (isLeapYear (a + Z.of_nat n)); lia.
Qed.

Lemma day_number_in_year (d : civil) :
  valid_date d ->
  dayFromYear (year d) <= day_number d <= dayFromYear (year d) + 365.
Proof.
  destruct d as [y m dd]. unfold valid_date, day_number. cbn [year month day].
  intros [Hm Hd]. rewrite (daysInMonth_in_year y m Hm) in Hd.
  assert (C : m = 0 \/ m = 1 \/ m = 2 \/ m = 3 \/ m = 4 \/ m = 5 \/ m = 6
              \/ m = 7 \/ m = 8 \/ m = 9 \/ m = 10 \/ m = 11) by lia.
  repeat (destruct C as [-> | C]); try subst m; cbn in *;
    destruct (isLeapYear y); lia.
Qed.

(** Every date of the grid is printable when the reference year leaves
    room for the year before and the year after. *)
Lemma grid_printable (now : civil) (x y : Z) :
  valid_date now -> 1 <= year now <= 9998 ->
  0 <= x <= 54 -> 0 <= y <= 6 ->
  printable (targetDate now x y).
Proof.
  intros V Hy Hx Hd.
  destruct (targetDate_spec now x y V ltac:(lia) ltac:(lia))
    as (Va & Na & E & Vr & Nr).
  destruct (subtract_y_1 now V) as [Es Vs].
  assert (Ys : year (subtract_y 1 now) = year now - 1)
    by (rewrite Es; reflexivity).
  split; [exact Vr|].
  set (anchor := add_d 1 (subtract_y 1 now)) in *.
  set (r := targetDate now x y) in *.
  assert (La : year (subtract_y 1 now) <= year anchor).
  { unfold anchor, add_d. rewrite add_days_iter by (assumption || lia).
    apply year_iter_next_day. }
  assert (Lr : year anchor <= year r).
  { rewrite E. apply year_iter_next_day. }
  split; [lia|].
  destruct (Z_le_gt_dec (year r) (year now + 1)) as [L | G]; [lia|].
  exfalso.
  pose proof (day_number_in_year r Vr) as Br.
  pose proof (day_number_in_year _ Vs) as Bs.
  pose proof (dayFromYear_grows (year now - 1)
                (Z.to_nat (year r - (year now - 1)))) as M.
  rewrite Z2Nat.id in M by lia.
  replace (year now - 1 + (year r - (year now - 1))) with (year r) in M
    by lia.
  rewrite Ys in Bs. lia.
Qed.

(** On the grid, two coordinates that print the same date are the same
    coordinate: [x * 7 + y] is one-to-one for [y] in 0..6. *)
Lemma grid_injective (now : civil) (x y x' y' : Z) :
  valid_date now -> 1 <= year now <= 9998 ->
  0 <= x <= 54 -> 0 <= y <= 6 -> 0 <= x' <= 54 -> 0 <= y' <= 6 ->
  targetDateStr now x' y' = targetDateStr now x y -> x' = x /\ y' = y.
Proof.
  intros V Hy Hx Hd Hx' Hd' E.
  unfold targetDateStr in E.
  apply format_injective in E; try (apply grid_printable; assumption).
  destruct (targetDate_spec now x y V ltac:(lia) ltac:(lia))
    as (_ & _ & _ & _ & N).
  destruct (targetDate_spec now x' y' V ltac:(lia) ltac:(lia))
    as (_ & _ & _ & _ & N').
  rewrite E in N'. lia.
Qed.

Section Scan.
Variables (now : civil) (target : string).

Lemma scan_y_none (x y0 : Z) (n : nat) :
  (forall y', y0 <= y' < y0 + Z.of_nat n -> targetDateStr now x y' <> target) ->
  RemoveSingleCommit.scan_y now target x y0 n = None.
Proof.
  revert y0. induction n as [|n IH]; intros y0 H; [reflexivity|].
  cbn [RemoveSingleCommit.scan_y].
  destruct (String.eqb_spec (targetDateStr now x y0) target) as [E | _].
  - exfalso. apply (H y0); [lia | exact E].
  - apply IH. intros y' Hy'. apply H. lia.
Qed.

Lemma scan_y_found (x y y0 : Z) (n : nat) :
  y0 <= y < y0 + Z.of_nat n ->
  (forall y', y0 <= y' < y -> targetDateStr now x y' <> target) ->
  targetDateStr now x y = target ->
  RemoveSingleCommit.scan_y now target x y0 n = Some (x, y).
Proof.
  revert y0. induction n as [|n IH]; intros y0 R H T; [lia|].
  cbn [RemoveSingleCommit.scan_y].
  destruct (String.eqb_spec (targetDateStr now x y0) target) as [E | N].
  - destruct (Z.eq_dec y0 y) as [-> | D]; [reflexivity|].
    exfalso. apply (H y0); [lia | exact E].
  - destruct (Z.eq_dec y0 y) as [-> | D]; [contradiction|].
    apply IH; [lia | | exact T].
    intros y' Hy'. apply H. lia.
Qed.

Lemma scan_x_found (x y x0 : Z) (n : nat) :
  x0 <= x < x0 + Z.of_nat n -> 0 <= y < 7 ->
  (forall x' y', x0 <= x' < x0 + Z.of_nat n -> 0 <= y' < 7 ->
                 targetDateStr now x' y' = target -> x' = x /\ y' = y) ->
  targetDateStr now x y = target ->
  RemoveSingleCommit.scan_x now target x0 n = Some (x, y).
Proof.
  revert x0. induction n as [|n IH]; intros x0 R Ry U T; [lia|].
  cbn [RemoveSingleCommit.scan_x].
  destruct (Z.eq_dec x0 x) as [-> | D].
  - rewrite (scan_y_found x y 0 7); [reflexivity | lia | | exact T].
    intros y' Hy' E. destruct (U x y') as [_ Ey]; [lia | lia | exact E |].
    lia.
  - rewrite scan_y_none.
    + apply IH; [lia | exact Ry | | exact T].
      intros x' y' Hx' Hy'. apply U; lia.
    + intros y' Hy' E. destruct (U x0 y') as [Ex _]; [lia | lia | exact E |].
      contradiction.
Qed.

End Scan.

(** C9.  With the reference date fixed, searching for the coordinates of
    the date resolved from a grid coordinate gives that coordinate back:
    the printed dates of the grid are pairwise distinct, and the search,
    [x] ascending then [y] ascending, stops on the one match.  (The
    reference year leaves room for four-digit years around it.) *)
Theorem findCoordinates_inverts_resolve
    {St : Type} (P : Platform St) (x y : Z) (s : St) :
  valid_date (today P) -> 1 <= year (today P) <= 9998 ->
  0 <= x <= 54 -> 0 <= y <= 6 ->
  (exists r, resolve (today P) x y = Ok r
             /\ targetDateStr (today P) x y = format_YYYY_MM_DD r)
  /\ (forall x' y', 0 <= x' <= 54 -> 0 <= y' <= 6 ->
        targetDateStr (today P) x' y' = targetDateStr (today P) x y ->
        x' = x /\ y' = y)
  /\ RemoveSingleCommit.scan_x (today P) (targetDateStr (today P) x y) 0 55
     = Some (x, y)
  /\ exists t,
       RemoveSingleCommit.findCoordinatesForDate P
         (targetDateStr (today P) x y) s
       = (Ok (Some (x, y)), s, t)
       /\ git_calls t = [].
Proof.
  intros V Hy Hx Hd.
  assert (U : forall x' y', 0 <= x' <= 54 -> 0 <= y' <= 6 ->
        targetDateStr (today P) x' y' = targetDateStr (today P) x y ->
        x' = x /\ y' = y).
  { intros x' y' Hx' Hy'. apply grid_injective; assumption. }
  assert (F : RemoveSingleCommit.scan_x (today P)
                (targetDateStr (today P) x y) 0 55 = Some (x, y)).
  { apply scan_x_found; [lia | lia | | reflexivity].
    intros x' y' Hx' Hy'. apply U; lia. }
  split.
  { exists (targetDate (today P) x y). unfold resolve.
    rewrite validateCoordinates_in_range by assumption.
    split; reflexivity. }
  split; [exact U|]. split; [exact F|].
  unfold RemoveSingleCommit.findCoordinatesForDate.
  unfold bind, console_log, emit, ret. rewrite F.
  eexists. split; reflexivity.
Qed.

Lemma findCoordinates_inverts_resolve_witness :
  RemoveSingleCommit.scan_x Fake.jan15 (targetDateStr Fake.jan15 54 6) 0 55
  = Some (54, 6).
Proof.
  apply (findCoordinates_inverts_resolve (Fake.platform Fake.jan15 0 "n") 54 6
           (Fake.mkRepo ["main"] [] true [] false)).
  - apply valid_dateb_spec. reflexivity.
  - cbn. lia.
  - lia.
  - lia.
Defined.

(** ** Reasoning about runs *)

Section Holds.
Context {St : Type}.
Variable ok : event -> bool.

Lemma holds_weaken {A : Type} (m : M (St := St) A)
    (R R' : result A -> Prop) :
  holds ok m R -> (forall r, R r -> R' r) -> holds ok m R'.
Proof.
  intros H W s. destruct (H s) as [F Rr]. split; [exact F | apply W, Rr].
Qed.

Lemma holds_ret {A : Type} (a : A) (R : result A -> Prop) :
  R (Ok a) -> holds ok (ret (St := St) a) R.
Proof. intros H s. cbn. split; [constructor | exact H]. Qed.

Lemma holds_throw {A : Type} (e : string) (R : result A -> Prop) :
  R (Throw e) -> holds ok (throw (St := St) e) R.
Proof. intros H s. cbn. split; [constructor | exact H]. Qed.

Lemma holds_emit (e : event) (R : result unit -> Prop) :
  ok e = true -> R (Ok tt) -> holds ok (emit (St := St) e) R.
Proof. intros E H s. cbn. split; [repeat constructor; exact E | exact H]. Qed.

Lemma holds_git {A : Type} (c : call) (op : St -> result A * St)
    (R : result A -> Prop) :
  ok (Git c) = true -> (forall r, R r) -> holds ok (git c op) R.
Proof.
  intros E H s. unfold git. destruct (op s) as [r s1]. cbn.
  split; [repeat constructor; exact E | apply H].
Qed.

Lemma holds_bind {A B : Type} (m : M (St := St) A) (f : A -> M B)
    (R1 : result A -> Prop) (R : result B -> Prop) :
  holds ok m R1 ->
  (forall a, R1 (Ok a) -> holds ok (f a) R) ->
  (forall e, R1 (Throw e) -> R (Throw e)) ->
  holds ok (bind m f) R.
Proof.
  intros Hm Hf Ht s. unfold bind.
  destruct (Hm s) as [F1 Rm].
  destruct (m s) as [[[a | e] s1] t1]; cbn in *.
  - destruct (Hf a Rm s1) as [F2 Rf].
    destruct (f a s1) as [[r s2] t2]. cbn in *.
    split; [apply Forall_app; split; assumption | exact Rf].
  - split; [exact F1 | apply Ht, Rm].
Qed.

Lemma holds_bind_emits {A B : Type} (m : M (St := St) A) (f : A -> M B)
    (R : result B -> Prop) :
  emits ok m ->
  (forall a, holds ok (f a) R) ->
  (forall e, R (Throw e)) ->
  holds ok (bind m f) R.
Proof.
  intros Hm Hf Ht.
  apply (holds_bind m f (fun _ => True) R Hm); auto.
Qed.

Lemma holds_try_catch {A : Type} (m : M (St := St) A) (h : string -> M A)
    (R : result A -> Prop) :
  holds ok m (fun r => match r with Ok a => R (Ok a) | Throw _ => True end) ->
  (forall e, holds ok (h e) R) ->
  holds ok (try_catch m h) R.
Proof.
  intros Hm Hh s. unfold try_catch.
  destruct (Hm s) as [F1 Rm].
  destruct (m s) as [[[a | e] s1] t1]; cbn in *.
  - split; assumption.
  - destruct (Hh e s1) as [F2 Rh].
    destruct (h e s1) as [[r s2] t2]. cbn in *.
    split; [apply Forall_app; split; assumption | exact Rh].
Qed.

Lemma holds_finally {A : Type} (m : M (St := St) A) (f : M unit)
    (R : result A -> Prop) :
  holds ok m R -> emits ok f -> (forall e, R (Throw e)) ->
  holds ok (finally m f) R.
Proof.
  intros Hm Hf Ht s. unfold finally.
  destruct (Hm s) as [F1 Rm].
  destruct (m s) as [[r s1] t1]. cbn in *.
  destruct (Hf s1) as [F2 _].
  destruct (f s1) as [[[u | e] s2] t2]; cbn in *.
  - split; [apply Forall_app; split; assumption | exact Rm].
  - split; [apply Forall_app; split; assumption | apply Ht].
Qed.

Lemma emits_bind {A B : Type} (m : M (St := St) A) (f : A -> M B) :
  emits ok m -> (forall a, emits ok (f a)) -> emits ok (bind m f).
Proof. intros Hm Hf. apply holds_bind_emits; auto. Qed.

Lemma emits_try_catch {A : Type} (m : M (St := St) A) (h : string -> M A) :
  emits ok m -> (forall e, emits ok (h e)) -> emits ok (try_catch m h).
Proof.
  intros Hm Hh. apply holds_try_catch; [|exact Hh].
  apply (holds_weaken m _ _ Hm). intros [a | e] _; exact I.
Qed.

Lemma emits_finally {A : Type} (m : M (St := St) A) (f : M unit) :
  emits ok m -> emits ok f -> emits ok (finally m f).
Proof. intros Hm Hf. apply holds_finally; auto. Qed.

Lemma emits_ret {A : Type} (a : A) : emits ok (ret (St := St) a).
Proof. apply holds_ret. exact I. Qed.

Lemma emits_throw {A : Type} (e : string) :
  emits ok (throw (St := St) (A := A) e).
Proof. apply holds_throw. exact I. Qed.

Lemma emits_emit (e : event) : ok e = true -> emits ok (emit (St := St) e).
Proof. intros E. apply holds_emit; [exact E | exact I]. Qed.

Lemma emits_git {A : Type} (c : call) (op : St -> result A * St) :
  ok (Git c) = true -> emits ok (git c op).
Proof. intros E. apply holds_git; [exact E | auto]. Qed.

Lemma emits_for_of {A : Type} (l : list A) (body : A -> M (St := St) unit) :
  (forall a, emits ok (body a)) -> emits ok (for_of l body).
Proof.
  intros Hb. induction l as [|a l IH]; cbn [for_of].
  - apply emits_ret.
  - apply emits_bind; [apply Hb | intros _; exact IH].
Qed.

Lemma emits_when (c : bool) (m : M (St := St) unit) :
  emits ok m -> emits ok (when c m).
Proof. intros Hm. destruct c; cbn; [exact Hm | apply emits_ret]. Qed.

End Holds.

(** Splits a goal [emits ok m] along the shape of [m]. *)
Ltac emits_step :=
  match goal with
  | |- emits _ (bind _ _) => apply emits_bind; [|intro]
  | |- emits _ (try_catch _ _) => apply emits_try_catch; [|intro]
  | |- emits _ (finally _ _) => apply emits_finally
  | |- emits _ (for_of _ _) => apply emits_for_of; intro
  | |- emits _ (when _ _) => apply emits_when
  | |- emits _ (console_log _) => apply emits_emit; reflexivity
  | |- emits _ (console_error _) => apply emits_emit; reflexivity
  | |- emits _ (emit _) => apply emits_emit; reflexivity
  | |- emits _ (git _ _) => apply emits_git; reflexivity
  | |- emits _ (ret _) => apply emits_ret
  | |- emits _ (throw _) => apply emits_throw
  | |- emits _ (let '(_, _) := ?p in _) => destruct p
  | |- emits _ (if ?c then _ else _) => destruct c
  | |- emits _ (match ?x with _ => _ end) => destruct x
  end.

Ltac emits_all := repeat emits_step.

(** ** Pattern removal *)

Lemma questions_none (ok : event -> bool) (t : list event) :
  (forall q, ok (Question q) = false) ->
  Forall (fun e => ok e = true) t -> questions t = [].
Proof.
  intros Q F. induction F as [|e t E _ IH]; [reflexivity|].
  unfold questions in *. cbn [flat_map]. rewrite IH.
  destruct e; try reflexivity. rewrite Q in E. discriminate E.
Qed.

Lemma git_calls_pass (ok : event -> bool) (t : list event) :
  Forall (fun e => ok e = true) t ->
  forall c, In c (git_calls t) -> ok (Git c) = true.
Proof.
  intros F c I. unfold git_calls in I. apply in_flat_map in I.
  destruct I as (e & He & Hc).
  rewrite Forall_forall in F. specialize (F e He).
  destruct e; cbn in Hc; try contradiction.
  destruct Hc as [<- | []]. exact F.
Qed.

Lemma removeCommitByCoordinates_quiet
    {St : Type} (P : Platform St) (x y : Z)
    (o : RemoveCommitAdvanced.options) :
  emits quiet
    (RemoveCommitAdvanced.removeCommitByCoordinates P x y
       (RemoveCommitAdvanced.spread_pattern o)).
Proof.
  unfold RemoveCommitAdvanced.removeCommitByCoordinates.
  cbn [RemoveCommitAdvanced.spread_pattern RemoveCommitAdvanced.backup
       RemoveCommitAdvanced.interactive RemoveCommitAdvanced.force
       RemoveCommitAdvanced.dryRun default andb when].
  unfold RemoveCommitAdvanced.removeCommitsUsingFilter,
    RemoveCommitAdvanced.removeCommitsUsingRebase.
  emits_all.
Qed.

(** C10.  Whatever pattern and options the caller passes, pattern removal
    hands each coordinate to the per-coordinate removal with
    [interactive] and [backup] set to false, so a run of it asks no
    question and makes no call on the backup branches: none is created,
    listed or deleted. *)
Theorem pattern_removal_asks_nothing_backs_up_nothing
    {St : Type} (P : Platform St) (pattern : list RemoveCommitAdvanced.coord)
    (o : RemoveCommitAdvanced.options) (s : St) :
  RemoveCommitAdvanced.interactive (RemoveCommitAdvanced.spread_pattern o)
  = Some false
  /\ RemoveCommitAdvanced.backup (RemoveCommitAdvanced.spread_pattern o)
     = Some false
  /\ RemoveCommitAdvanced.force (RemoveCommitAdvanced.spread_pattern o)
     = RemoveCommitAdvanced.force o
  /\ RemoveCommitAdvanced.dryRun (RemoveCommitAdvanced.spread_pattern o)
     = RemoveCommitAdvanced.dryRun o
  /\ questions (snd (RemoveCommitAdvanced.removeCommitPattern P pattern o s))
     = []
  /\ (forall c,
        In c (git_calls
                (snd (RemoveCommitAdvanced.removeCommitPattern P pattern o s)))
        -> branch_call c = false).
Proof.
  assert (E : emits quiet
                (RemoveCommitAdvanced.removeCommitPattern P pattern o)).
  { unfold RemoveCommitAdvanced.removeCommitPattern.
    emits_all. apply removeCommitByCoordinates_quiet. }
  destruct (E s) as [F _].
  repeat split.
  - apply (questions_none quiet); [reflexivity | exact F].
  - intros c I. pose proof (git_calls_pass quiet _ F c I) as Q.
    cbn in Q. apply negb_true_iff. exact Q.
Qed.

(** ** The two removal strategies *)

Lemma git_calls_app (t1 t2 : list event) :
  git_calls (t1 ++ t2)%list = (git_calls t1 ++ git_calls t2)%list.
Proof. unfold git_calls. apply flat_map_app. Qed.

Lemma splice_returns {St : Type} (P : Platform St) (c : commit) (s : St) :
  exists s' t,
    splice P c s = (Ok tt, s', t)
    /\ git_calls t = [GitRaw (rebase_onto (hash c))].
Proof.
  unfold splice, try_catch, bind, git, console_log, console_error, emit.
  destruct (git_raw P (rebase_onto (hash c)) s) as [[[] | e] s1];
    eexists; eexists; split; reflexivity.
Qed.

Lemma splices_attempt_each {St : Type} (P : Platform St)
    (commits : list commit) (s : St) :
  exists s' t,
    for_of commits (splice P) s = (Ok tt, s', t)
    /\ git_calls t = map (fun c => GitRaw (rebase_onto (hash c))) commits.
Proof.
  revert s. induction commits as [|c commits IH]; intros s.
  - exists s, []. split; reflexivity.
  - destruct (splice_returns P c s) as (s1 & t1 & E1 & G1).
    destruct (IH s1) as (s2 & t2 & E2 & G2).
    exists s2, (t1 ++ t2)%list. split.
    + cbn [for_of]. unfold bind. rewrite E1, E2. reflexivity.
    + rewrite git_calls_app, G1, G2. reflexivity.
Qed.

Lemma removeCommitsUsingRebase_attempts_each {St : Type} (P : Platform St)
    (commits : list commit) (s : St) :
  exists s' t,
    RemoveCommitAdvanced.removeCommitsUsingRebase P commits s = (Ok tt, s', t)
    /\ git_calls t = map (fun c => GitRaw (rebase_onto (hash c))) commits.
Proof.
  destruct (splices_attempt_each P commits s) as (s' & t & E & G).
  exists s', (ConsoleLog "🔄 Falling back to rebase method..." :: t).
  split.
  - unfold RemoveCommitAdvanced.removeCommitsUsingRebase.
    fold (splice P). unfold bind at 1. cbn. rewrite E. reflexivity.
  - cbn. exact G.
Qed.

(** C4.  When the bulk exclusion ([filter-branch]) throws, the removal
    falls back to the splices ([rebase --onto]) and returns normally; the
    fallback attempts one splice for every commit of the batch, in order,
    whichever of them throw. *)
Theorem filter_failure_falls_back_to_every_splice
    {St : Type} (P : Platform St) (commits : list commit)
    (targetDate : string) (s s1 : St) (e : string) :
  git_raw P (RemoveCommitAdvanced.filterCommand (map hash commits)) s
  = (Throw e, s1) ->
  (exists s2 t,
     RemoveCommitAdvanced.removeCommitsUsingFilter P commits targetDate s
     = (Ok tt, s2, t)
     /\ git_calls t
        = GitRaw (RemoveCommitAdvanced.filterCommand (map hash commits))
          :: map (fun c => GitRaw (rebase_onto (hash c))) commits)
  /\ (forall s0, exists s2 t,
        RemoveCommitAdvanced.removeCommitsUsingRebase P commits s0
        = (Ok tt, s2, t)
        /\ git_calls t
           = map (fun c => GitRaw (rebase_onto (hash c))) commits).
Proof.
  intros F. split.
  - destruct (removeCommitsUsingRebase_attempts_each P commits s1)
      as (s2 & t & E & G).
    eexists. eexists. split.
    + unfold RemoveCommitAdvanced.removeCommitsUsingFilter.
      unfold try_catch at 1. unfold bind at 1. cbn [console_log emit].
      unfold bind at 1. unfold git at 1. rewrite F.
      unfold bind at 1. cbn [console_error emit]. rewrite E.
      reflexivity.
    + rewrite !git_calls_app. cbn. rewrite G. reflexivity.
  - intros s0. apply removeCommitsUsingRebase_attempts_each.
Qed.

Lemma filter_failure_falls_back_to_every_splice_witness :
  let P := Fake.platform Fake.jan15 0 "n" in
  let r := Fake.mkRepo ["main"]
             [Fake.commit_a; Fake.commit_b; Fake.commit_c]
             false ["aaaaaaaaaaaa"] false in
  exists s2 t,
    RemoveCommitAdvanced.removeCommitsUsingFilter P
      [Fake.commit_a; Fake.commit_b] "2024-01-16" r
    = (Ok tt, s2, t)
    /\ git_calls t
       = GitRaw (RemoveCommitAdvanced.filterCommand
                   (map hash [Fake.commit_a; Fake.commit_b]))
         :: map (fun c => GitRaw (rebase_onto (hash c)))
                [Fake.commit_a; Fake.commit_b].
Proof.
  intros P r.
  apply (filter_failure_falls_back_to_every_splice P
           [Fake.commit_a; Fake.commit_b] "2024-01-16" r r
           "filter-branch is not available").
  reflexivity.
Defined.

Example fallback_goes_past_a_failed_splice :
  let P := Fake.platform Fake.jan15 0 "n" in
  let r := Fake.mkRepo ["main"]
             [Fake.commit_a; Fake.commit_b; Fake.commit_c]
             false ["aaaaaaaaaaaa"] false in
  Fake.history
    (snd (fst (RemoveCommitAdvanced.removeCommitsUsingFilter P
                 [Fake.commit_a; Fake.commit_b] "2024-01-16" r)))
  = [Fake.commit_a; Fake.commit_c].
Proof. reflexivity. Qed.

(** ** Dry runs *)

Lemma cleanupBackupBranch_only_deletes {St : Type} (P : Platform St) :
  emits only_deletes (RemoveCommitAdvanced.cleanupBackupBranch P).
Proof. unfold RemoveCommitAdvanced.cleanupBackupBranch. emits_all. Qed.

(** In a dry run, the one mutating call that can occur is the deletion of
    a branch, from the cleanup of old backups. *)
Lemma dry_run_only_deletes {St : Type} (P : Platform St) (x y : Z)
    (o : RemoveCommitAdvanced.options) :
  default false (RemoveCommitAdvanced.dryRun o) = true ->
  emits only_deletes (RemoveCommitAdvanced.removeCommitByCoordinates P x y o).
Proof.
  intros D. unfold RemoveCommitAdvanced.removeCommitByCoordinates.
  rewrite D. cbn [negb]. rewrite andb_false_r. cbn [when].
  unfold RemoveCommitAdvanced.cleanupBackupBranch.
  emits_all.
Qed.

(** A dry run without backup makes no mutating call. *)
Lemma dry_run_without_backup_reads_only {St : Type} (P : Platform St)
    (x y : Z) (o : RemoveCommitAdvanced.options) :
  default false (RemoveCommitAdvanced.dryRun o) = true ->
  RemoveCommitAdvanced.backup o = Some false ->
  emits read_only (RemoveCommitAdvanced.removeCommitByCoordinates P x y o).
Proof.
  intros D B. unfold RemoveCommitAdvanced.removeCommitByCoordinates.
  rewrite D, B. cbn [negb default andb when].
  emits_all.
Qed.

(** C2 (the code departs from it).  A dry run with the default backup
    option, on a date without commits, in a store that holds six backup
    branches: the script lists the branches and deletes the oldest. *)
Theorem dry_run_deletes_a_backup_branch :
  let P := Fake.platform Fake.jan15 0 "n" in
  let r := Fake.mkRepo Fake.six_backups [Fake.commit_c] true [] false in
  let o := RemoveCommitAdvanced.mkOptions None None (Some true) None in
  let run := RemoveCommitAdvanced.removeCommitByCoordinates P 0 0 o r in
  fst (fst run) = Ok Undefined
  /\ git_calls (snd run)
     = [GitLog RemoveCommitAdvanced.log_options; GitBranchLocal;
        GitDeleteLocalBranch "backup-before-removal-1"]
  /\ existsb mutating (git_calls (snd run)) = true
  /\ Fake.branches (snd (fst run))
     = ["main"; "backup-before-removal-2"; "backup-before-removal-3";
        "backup-before-removal-4"; "backup-before-removal-5";
        "backup-before-removal-6"].
Proof. vm_compute. repeat split; reflexivity. Qed.

(** ** Declined confirmation *)

Lemma askConfirmation_declined {St : Type} (P : Platform St)
    (ok : event -> bool) (message : string) :
  declines P -> (forall q, ok (Question q) = true) ->
  holds ok (RemoveCommitAdvanced.askConfirmation P message)
        (fun r => r = Ok false).
Proof.
  intros D Q s. unfold RemoveCommitAdvanced.askConfirmation.
  specialize (D (message ++ " (y/N): ") s). unfold confirms in D.
  destruct (rl_question P (message ++ " (y/N): ") s) as [a s1].
  cbn in *. rewrite D. split; [repeat constructor; apply Q | reflexivity].
Qed.

Ltac binds_through :=
  repeat (apply holds_bind_emits;
          [solve [emits_all] | intro | intros; exact I]).

Ltac declined_run D :=
  apply holds_finally;
    [ apply holds_try_catch;
      [ match goal with |- holds _ (match ?v with _ => _ end) _ =>
          destruct v as [[]|] end;
        [ binds_through;
          match goal with |- holds _ (if ?c then _ else _) _ => destruct c end;
          [ binds_through; apply holds_ret; intros l; discriminate
          | binds_through;
            eapply holds_bind;
              [ apply askConfirmation_declined; [exact D | reflexivity]
              | intros confirmed E; injection E as ->; cbn [negb];
                binds_through; apply holds_ret; intros l; discriminate
              | intros thrown E; discriminate E ] ]
        | apply holds_throw; exact I ]
      | intro; apply holds_bind_emits;
          [ emits_all | intro; apply holds_throw; intros l; discriminate
          | intros e0 l; discriminate ] ]
    | emits_all
    | intros e l; discriminate ].

Lemma declined_rewrites_nothing {St : Type} (P : Platform St) (x y : Z)
    (o : RemoveCommitAdvanced.options) :
  declines P ->
  default false (RemoveCommitAdvanced.dryRun o) = false ->
  default true (RemoveCommitAdvanced.interactive o) = true ->
  default false (RemoveCommitAdvanced.force o) = false ->
  holds no_rewrite (RemoveCommitAdvanced.removeCommitByCoordinates P x y o)
        no_commits.
Proof.
  intros D Hd Hi Hf.
  unfold RemoveCommitAdvanced.removeCommitByCoordinates.
  rewrite Hd, Hi, Hf. cbn [negb andb].
  unfold RemoveCommitAdvanced.cleanupBackupBranch, no_commits.
  declined_run D.
Qed.

Lemma declined_without_backup_reads_only {St : Type} (P : Platform St)
    (x y : Z) (o : RemoveCommitAdvanced.options) :
  declines P ->
  default false (RemoveCommitAdvanced.dryRun o) = false ->
  default true (RemoveCommitAdvanced.interactive o) = true ->
  default false (RemoveCommitAdvanced.force o) = false ->
  RemoveCommitAdvanced.backup o = Some false ->
  holds read_only (RemoveCommitAdvanced.removeCommitByCoordinates P x y o)
        no_commits.
Proof.
  intros D Hd Hi Hf Hb.
  unfold RemoveCommitAdvanced.removeCommitByCoordinates.
  rewrite Hd, Hi, Hf, Hb. cbn [negb andb default when].
  unfold no_commits.
  declined_run D.
Qed.

Section StartsWith.
Context {St : Type}.
Variable e : event.

Lemma starts_with_git {A : Type} (c : call) (op : St -> result A * St) :
  e = Git c -> starts_with e (git c op).
Proof.
  intros -> s. unfold git. destruct (op s) as [r s1].
  exists []. reflexivity.
Qed.

Lemma starts_with_bind {A B : Type} (m : M (St := St) A) (f : A -> M B) :
  starts_with e m -> starts_with e (bind m f).
Proof.
  intros H s. unfold bind. destruct (H s) as [rest E].
  destruct (m s) as [[[a | x] s1] t1]; cbn in E; subst t1.
  - destruct (f a s1) as [[r s2] t2]. exists (rest ++ t2)%list. reflexivity.
  - exists rest. reflexivity.
Qed.

Lemma starts_with_try_catch {A : Type} (m : M (St := St) A)
    (h : string -> M A) :
  starts_with e m -> starts_with e (try_catch m h).
Proof.
  intros H s. unfold try_catch. destruct (H s) as [rest E].
  destruct (m s) as [[[a | x] s1] t1]; cbn in E; subst t1.
  - exists rest. reflexivity.
  - destruct (h x s1) as [[r s2] t2]. exists (rest ++ t2)%list. reflexivity.
Qed.

Lemma starts_with_finally {A : Type} (m : M (St := St) A) (f : M unit) :
  starts_with e m -> starts_with e (finally m f).
Proof.
  intros H s. unfold finally. destruct (H s) as [rest E].
  destruct (m s) as [[r s1] t1]. cbn in E. subst t1.
  destruct (f s1) as [[[u | x] s2] t2]; exists (rest ++ t2)%list;
    reflexivity.
Qed.

End StartsWith.

(** With the backup requested and the run not a dry one, the first thing
    a run on valid coordinates does is create the backup branch. *)
Lemma backup_branch_comes_first {St : Type} (P : Platform St) (x y : Z)
    (o : RemoveCommitAdvanced.options) :
  validateCoordinates x y = Ok tt ->
  default false (RemoveCommitAdvanced.dryRun o) = false ->
  default true (RemoveCommitAdvanced.backup o) = true ->
  starts_with
    (Git (GitCheckoutLocalBranch
            ("backup-before-removal-" ++ show (date_now P))))
    (RemoveCommitAdvanced.removeCommitByCoordinates P x y o).
Proof.
  intros V Hd Hb.
  unfold RemoveCommitAdvanced.removeCommitByCoordinates.
  rewrite V, Hd, Hb. cbn [negb andb when].
  apply starts_with_finally, starts_with_try_catch.
  do 2 apply starts_with_bind.
  apply starts_with_git. reflexivity.
Qed.

(** C3, as the specification words it, fails: after a declined
    confirmation with the default options the function has returned
    undefined, not an outcome that lists the candidate as skipped, and the
    store is not the store it was called on: it holds a new branch. *)
Lemma declined_removal_leaves_a_backup_branch :
  let P := Fake.platform Fake.jan15 1700000000000 "n" in
  let r := Fake.mkRepo ["main"] [Fake.commit_a; Fake.commit_c] true []
             false in
  let o := RemoveCommitAdvanced.mkOptions None None None None in
  let run := RemoveCommitAdvanced.removeCommitByCoordinates P 0 0 o r in
  questions (snd run) <> []
  /\ fst (fst run) = Ok Undefined
  /\ Fake.branches (snd (fst run))
     = ["main"; "backup-before-removal-1700000000000"]
  /\ ~ (reports_skipped (fst (fst run)) [hash Fake.commit_a]
        /\ snd (fst run) = r).
Proof.
  vm_compute. split; [discriminate|]. split; [reflexivity|].
  split; [reflexivity|].
  intros [_ E]. discriminate E.
Qed.

(** ** Removing one commit of several *)

(** C8, as the code has it.  On a selection of three commits, the
    single-commit removal run with [force] issues exactly one splice, for
    the first commit of the selection, and no mutating call for the other
    two, whether that splice succeeds or throws.  It returns undefined:
    the other two are not listed in any outcome, the console only notes
    that two other commits remain.  Without [force] nothing is spliced. *)
Theorem single_removal_splices_the_first_only
    {St : Type} (P : Platform St) (x y : Z) (s s1 : St)
    (lg : LogResult) (c1 c2 c3 : commit) :
  validateCoordinates x y = Ok tt ->
  git_log P [] s = (Ok lg, s1) ->
  filterByDate P (all lg) (targetDateStr (today P) x y) = [c1; c2; c3] ->
  let run := RemoveSingleCommit.removeSingleCommitByCoordinates P x y true s in
  let preview :=
    RemoveSingleCommit.removeSingleCommitByCoordinates P x y false s in
  fst (fst run) = Ok Undefined
  /\ git_calls (snd run) = [GitLog []; GitRaw (rebase_onto (hash c1))]
  /\ In (ConsoleLog "Note: 2 other commit(s) will remain on this date.")
        (snd run)
  /\ ~ reports_skipped (fst (fst run)) [hash c2; hash c3]
  /\ fst (fst preview) = Ok Undefined
  /\ git_calls (snd preview) = [GitLog []].
Proof.
  intros V L F run preview.
  unfold run, preview,
    RemoveSingleCommit.removeSingleCommitByCoordinates,
    RemoveSingleCommit.commitToRemove, RemoveSingleCommit.matchingCommits,
    RemoveSingleCommit.removeSingleCommitByHash.
  rewrite V.
  unfold try_catch, bind, git, console_log, console_error, emit, when, ret,
    throw.
  rewrite L, F. cbn [nth_error List.length Nat.ltb Nat.leb negb].
  destruct (git_raw P (rebase_onto (hash c1)) s1) as [[[] | e] s2];
    cbn [fst snd app].
  - split; [reflexivity|]. split; [reflexivity|].
    split; [cbn; tauto|].
    split; [intros (l & E & _); discriminate E|].
    split; reflexivity.
  - split; [reflexivity|]. split; [reflexivity|].
    split; [cbn; tauto|].
    split; [intros (l & E & _); discriminate E|].
    split; reflexivity.
Qed.

Lemma single_removal_splices_the_first_only_witness :
  let P := Fake.platform Fake.jan15 0 "n" in
  let r := Fake.mkRepo ["main"]
             [Fake.commit_c; Fake.commit_a; Fake.commit_b; Fake.commit_d]
             true [] false in
  let run := RemoveSingleCommit.removeSingleCommitByCoordinates P 0 0 true r in
  let preview :=
    RemoveSingleCommit.removeSingleCommitByCoordinates P 0 0 false r in
  fst (fst run) = Ok Undefined
  /\ git_calls (snd run)
     = [GitLog []; GitRaw (rebase_onto (hash Fake.commit_a))]
  /\ In (ConsoleLog "Note: 2 other commit(s) will remain on this date.")
        (snd run)
  /\ ~ reports_skipped (fst (fst run))
         [hash Fake.commit_b; hash Fake.commit_d]
  /\ fst (fst preview) = Ok Undefined
  /\ git_calls (snd preview) = [GitLog []].
Proof.
  intros P r.
  apply (single_removal_splices_the_first_only P 0 0 r r
           (mkLog (Fake.history r) (hd_error (Fake.history r)))
           Fake.commit_a Fake.commit_b Fake.commit_d).
  - reflexivity.
  - reflexivity.
  - reflexivity.
Defined.

(** C8, as the specification words it, fails: on a selection of three the
    function returns undefined, so no outcome reports the other two as
    skipped, and no console line names either of them. *)
Lemma single_removal_reports_no_skipped :
  let P := Fake.platform Fake.jan15 0 "n" in
  let r := Fake.mkRepo ["main"]
             [Fake.commit_c; Fake.commit_a; Fake.commit_b; Fake.commit_d]
             true [] false in
  let run := RemoveSingleCommit.removeSingleCommitByCoordinates P 0 0 true r in
  filterByDate P (Fake.history r) (targetDateStr (today P) 0 0)
  = [Fake.commit_a; Fake.commit_b; Fake.commit_d]
  /\ fst (fst run) = Ok Undefined
  /\ existsb (names_commit Fake.commit_b) (snd run) = false
  /\ existsb (names_commit Fake.commit_d) (snd run) = false
  /\ Fake.history (snd (fst run))
     = [Fake.commit_c; Fake.commit_b; Fake.commit_d]
  /\ ~ reports_skipped (fst (fst run))
         [hash Fake.commit_b; hash Fake.commit_d].
Proof.
  vm_compute. repeat (split; [reflexivity|]).
  intros (l & E & _). discriminate E.
Qed.

(** ** Worked examples *)

Example format_example :
  format_YYYY_MM_DD (mkDate 2024 0 16) = "2024-01-16".
Proof. reflexivity. Qed.

Example subtract_year_from_leap_day :
  subtract_y 1 (mkDate 2024 1 29) = mkDate 2023 1 28.
Proof. reflexivity. Qed.

Example add_days_across_the_year :
  add_d 3 (mkDate 2023 11 30) = mkDate 2024 0 2.
Proof. reflexivity. Qed.

Example last_grid_date :
  targetDateStr Fake.jan15 54 6 = "2025-02-03".
Proof. reflexivity. Qed.

(** The selection scenario of the specification: of [a], [b] on
    2024-01-16 and [c] on 2024-01-17, the full selection is [a, b] and the
    single-commit mode picks [a]. *)
Example selection_scenario :
  let P := Fake.platform Fake.jan15 0 "n" in
  let commits := [Fake.commit_a; Fake.commit_b; Fake.commit_c] in
  filterByDate P commits "2024-01-16" = [Fake.commit_a; Fake.commit_b]
  /\ RemoveSingleCommit.commitToRemove P commits "2024-01-16"
     = Some Fake.commit_a
  /\ filterByDate P [] "2024-01-16" = [].
Proof. repeat split; reflexivity. Qed.

(** A forced pattern removal does rewrite history, without prompt or
    backup, although the caller asked for both. *)
Example forced_pattern_removal :
  let P := Fake.platform Fake.jan15 0 "n" in
  let r := Fake.mkRepo ["main"] [Fake.commit_c; Fake.commit_a] true []
             true in
  let o := RemoveCommitAdvanced.mkOptions (Some true) (Some true) None
             (Some true) in
  let run :=
    RemoveCommitAdvanced.removeCommitPattern P
      [RemoveCommitAdvanced.mkCoord 0 0] o r in
  Fake.history (snd (fst run)) = [Fake.commit_c]
  /\ Fake.branches (snd (fst run)) = ["main"]
  /\ map mutating (git_calls (snd run)) = [false; true; true]
  /\ questions (snd run) = [].
Proof. vm_compute. repeat split; reflexivity. Qed.

(** A dry run on a date with commits returns them and changes nothing. *)
Example dry_run_with_matches :
  let P := Fake.platform Fake.jan15 0 "n" in
  let r := Fake.mkRepo Fake.six_backups [Fake.commit_c; Fake.commit_a]
             true [] false in
  let o := RemoveCommitAdvanced.mkOptions None None (Some true) None in
  let run := RemoveCommitAdvanced.removeCommitByCoordinates P 0 0 o r in
  fst (fst run) = Ok (Commits [Fake.commit_a])
  /\ snd (fst run) = r
  /\ existsb mutating (git_calls (snd run)) = false.
Proof. vm_compute. repeat split; reflexivity. Qed.

(** * Further properties of the scripts *)

(** ** removeCommit.js: errors, previews and batches *)

Ltac returns_undefined :=
  apply holds_try_catch;
    [ repeat first
        [ apply holds_ret; reflexivity
        | apply holds_throw; exact I
        | apply holds_bind_emits; [solve [emits_all] | intro | intros; exact I]
        | match goal with
          | |- holds _ (if ?c then _ else _) _ => destruct c
          | |- holds _ (match ?v with _ => _ end) _ => destruct v
          end ]
    | intro;
      apply (holds_bind _ _ _ (fun r => r = Ok tt));
        [ apply holds_emit; reflexivity
        | intros ? _; apply holds_ret; reflexivity
        | intros ? E; discriminate E ] ].

Lemma simple_returns_undefined {St : Type} (P : Platform St) (x y : Z)
    (force : bool) :
  holds any_event (RemoveCommit.removeCommitByCoordinates P x y force)
        (fun r => r = Ok Undefined).
Proof.
  unfold RemoveCommit.removeCommitByCoordinates,
    RemoveCommit.removeCommitByHash.
  returns_undefined.
Qed.

Lemma single_returns_undefined {St : Type} (P : Platform St) (x y : Z)
    (force : bool) :
  holds any_event
        (RemoveSingleCommit.removeSingleCommitByCoordinates P x y force)
        (fun r => r = Ok Undefined).
Proof.
  unfold RemoveSingleCommit.removeSingleCommitByCoordinates,
    RemoveSingleCommit.removeSingleCommitByHash.
  returns_undefined.
Qed.

Lemma by_date_returns_undefined {St : Type} (P : Platform St)
    (dateStr : string) (force : bool) :
  holds any_event (RemoveSingleCommit.removeCommitByDate P dateStr force)
        (fun r => r = Ok Undefined).
Proof.
  unfold RemoveSingleCommit.removeCommitByDate,
    RemoveSingleCommit.removeSingleCommitByHash.
  returns_undefined.
Qed.

(** X1.  The functions of removeCommit.js and removeSingleCommit.js that
    remove by coordinates or by date never throw: whatever the
    coordinates, the flag and the behaviour of the store, a failed
    validation, a failed [git log] and a failed splice all end in the
    [catch] that logs, and the function returns undefined. *)
Theorem simple_scripts_swallow_every_error
    {St : Type} (P : Platform St) (x y : Z) (dateStr : string)
    (force : bool) (s : St) :
  fst (fst (RemoveCommit.removeCommitByCoordinates P x y force s))
  = Ok Undefined
  /\ fst (fst (RemoveSingleCommit.removeSingleCommitByCoordinates
                 P x y force s))
     = Ok Undefined
  /\ fst (fst (RemoveSingleCommit.removeCommitByDate P dateStr force s))
     = Ok Undefined.
Proof.
  split; [|split].
  - apply (simple_returns_undefined P x y force s).
  - apply (single_returns_undefined P x y force s).
  - apply (by_date_returns_undefined P dateStr force s).
Qed.

(** X2.  Without [force] nothing is removed: the previews of both scripts
    and the removal by date make no mutating call, whatever the store
    does. *)
Theorem previews_read_only
    {St : Type} (P : Platform St) (x y : Z) (dateStr : string) (s : St) :
  mutations (snd (RemoveCommit.previewRemoval P x y s)) = 0%nat
  /\ mutations (snd (RemoveSingleCommit.previewSingleRemoval P x y s))
     = 0%nat
  /\ mutations (snd (RemoveSingleCommit.removeCommitByDate P dateStr false s))
     = 0%nat.
Proof.
  assert (Z0 : forall t, Forall (fun e => read_only e = true) t ->
                         mutations t = 0%nat).
  { intros t F. unfold mutations.
    destruct (filter mutating (git_calls t)) as [|c l] eqn:E;
      [reflexivity|].
    assert (I : In c (filter mutating (git_calls t)))
      by (rewrite E; left; reflexivity).
    apply filter_In in I. destruct I as [I M].
    pose proof (git_calls_pass read_only t F c I) as Q. cbn in Q.
    rewrite M in Q. discriminate Q. }
  split; [|split]; apply Z0.
  - assert (E : emits read_only (RemoveCommit.previewRemoval P x y)).
    { unfold RemoveCommit.previewRemoval,
        RemoveCommit.removeCommitByCoordinates.
      cbn [negb]. emits_all. }
    apply (E s).
  - assert (E : emits read_only
                  (RemoveSingleCommit.previewSingleRemoval P x y)).
    { unfold RemoveSingleCommit.previewSingleRemoval,
        RemoveSingleCommit.removeSingleCommitByCoordinates.
      cbn [negb]. emits_all. }
    apply (E s).
  - assert (E : emits read_only
                  (RemoveSingleCommit.removeCommitByDate P dateStr false)).
    { unfold RemoveSingleCommit.removeCommitByDate.
      cbn [negb]. emits_all. }
    apply (E s).
Qed.

(** ** Runs, step by step *)

Section Runs.
Context {St : Type}.


Lemma runs_calls_eq {A : Type} (m : M (St := St) A) (s s' : St)
    (r : result A) (calls calls' : list call) :
  runs m s r s' calls -> calls = calls' -> runs m s r s' calls'.
Proof. intros H <-. exact H. Qed.

Lemma runs_ret {A : Type} (a : A) (s : St) : runs (ret a) s (Ok a) s [].
Proof. exists []. split; reflexivity. Qed.

Lemma runs_throw {A : Type} (e : string) (s : St) :
  runs (throw (A := A) e) s (Throw e) s [].
Proof. exists []. split; reflexivity. Qed.

Lemma runs_console_log (line : string) (s : St) :
  runs (console_log line) s (Ok tt) s [].
Proof. exists [ConsoleLog line]. split; reflexivity. Qed.

Lemma runs_console_error (line : string) (s : St) :
  runs (console_error line) s (Ok tt) s [].
Proof. exists [ConsoleError line]. split; reflexivity. Qed.

Lemma runs_rl_close (s : St) : runs (emit RlClose) s (Ok tt) s [].
Proof. exists [RlClose]. split; reflexivity. Qed.

Lemma runs_git {A : Type} (c : call) (op : St -> result A * St)
    (s s1 : St) (r : result A) :
  op s = (r, s1) -> runs (git c op) s r s1 [c].
Proof. intros E. exists [Git c]. unfold git. rewrite E. split; reflexivity. Qed.

Lemma runs_bind_ok {A B : Type} (m : M (St := St) A) (f : A -> M B)
    (s s1 s2 : St) (a : A) (r : result B) (c1 c2 : list call) :
  runs m s (Ok a) s1 c1 -> runs (f a) s1 r s2 c2 ->
  runs (bind m f) s r s2 (c1 ++ c2)%list.
Proof.
  intros (t1 & E1 & G1) (t2 & E2 & G2). exists (t1 ++ t2)%list.
  unfold bind. rewrite E1, E2. split; [reflexivity|].
  rewrite git_calls_app, G1, G2. reflexivity.
Qed.

Lemma runs_bind_throw {A B : Type} (m : M (St := St) A) (f : A -> M B)
    (s s1 : St) (e : string) (c1 : list call) :
  runs m s (Throw e) s1 c1 -> runs (bind m f) s (Throw e) s1 c1.
Proof.
  intros (t1 & E1 & G1). exists t1. unfold bind. rewrite E1.
  split; [reflexivity | exact G1].
Qed.

Lemma runs_try_ok {A : Type} (m : M (St := St) A) (h : string -> M A)
    (s s1 : St) (a : A) (c1 : list call) :
  runs m s (Ok a) s1 c1 -> runs (try_catch m h) s (Ok a) s1 c1.
Proof.
  intros (t1 & E1 & G1). exists t1. unfold try_catch. rewrite E1.
  split; [reflexivity | exact G1].
Qed.

Lemma runs_try_caught {A : Type} (m : M (St := St) A) (h : string -> M A)
    (s s1 s2 : St) (e : string) (r : result A) (c1 c2 : list call) :
  runs m s (Throw e) s1 c1 -> runs (h e) s1 r s2 c2 ->
  runs (try_catch m h) s r s2 (c1 ++ c2)%list.
Proof.
  intros (t1 & E1 & G1) (t2 & E2 & G2). exists (t1 ++ t2)%list.
  unfold try_catch. rewrite E1, E2. split; [reflexivity|].
  rewrite git_calls_app, G1, G2. reflexivity.
Qed.

Lemma runs_finally {A : Type} (m : M (St := St) A) (f : M unit)
    (s s1 s2 : St) (r : result A) (u : unit) (c1 c2 : list call) :
  runs m s r s1 c1 -> runs f s1 (Ok u) s2 c2 ->
  runs (finally m f) s r s2 (c1 ++ c2)%list.
Proof.
  intros (t1 & E1 & G1) (t2 & E2 & G2). exists (t1 ++ t2)%list.
  unfold finally. rewrite E1, E2. split; [reflexivity|].
  rewrite git_calls_app, G1, G2. reflexivity.
Qed.

(** A loop whose body only talks to the console. *)
Lemma runs_for_of_silent {A : Type} (l : list A)
    (body : A -> M (St := St) unit) (s : St) :
  (forall a, runs (body a) s (Ok tt) s []) ->
  runs (for_of l body) s (Ok tt) s [].
Proof.
  intros H. induction l as [|a l IH]; cbn [for_of].
  - apply runs_ret.
  - apply (runs_bind_ok _ _ s s s tt (Ok tt) [] []); [apply H | exact IH].
Qed.

Lemma for_of_app {A : Type} (l1 l2 : list A)
    (body : A -> M (St := St) unit) (s : St) :
  for_of (l1 ++ l2) body s
  = bind (for_of l1 body) (fun _ => for_of l2 body) s.
Proof.
  revert s. induction l1 as [|a l1 IH]; intros s.
  - cbn. unfold bind, ret.
    destruct (for_of l2 body s) as [[r s2] t2]. reflexivity.
  - cbn [for_of app]. unfold bind.
    destruct (body a s) as [[[u | e] s1] t1]; [|reflexivity].
    rewrite IH. unfold bind.
    destruct (for_of l1 body s1) as [[[u1 | e1] s2] t2]; [|reflexivity].
    destruct (for_of l2 body s2) as [[r s3] t3].
    rewrite app_assoc. reflexivity.
Qed.

End Runs.

(** Runs a computation whose platform calls are known from the context. *)
Ltac run_eval :=
  lazymatch goal with
  | |- runs (bind _ _) _ _ _ _ =>
      first [ eapply runs_bind_ok; [run_eval | run_eval]
            | eapply runs_bind_throw; run_eval ]
  | |- runs (try_catch _ _) _ _ _ _ =>
      first [ eapply runs_try_ok; run_eval
            | eapply runs_try_caught; [run_eval | run_eval] ]
  | |- runs (finally _ _) _ _ _ _ =>
      eapply runs_finally; [run_eval | run_eval]
  | |- runs (ret _) _ _ _ _ => apply runs_ret
  | |- runs (throw _) _ _ _ _ => apply runs_throw
  | |- runs (console_log _) _ _ _ _ => apply runs_console_log
  | |- runs (console_error _) _ _ _ _ => apply runs_console_error
  | |- runs (emit RlClose) _ _ _ _ => apply runs_rl_close
  | |- runs (git _ _) _ _ _ _ => eapply runs_git; eassumption
  | |- runs (for_of _ _) _ _ _ _ =>
      first [ eassumption
            | apply runs_for_of_silent; intro; run_eval ]
  | |- runs (let '(_, _) := ?p in _) _ _ _ _ => destruct p; run_eval
  | |- runs _ _ _ _ _ => eassumption
  end.

Ltac run_step := eapply runs_bind_ok; [run_eval | cbv beta zeta].






Lemma simple_rejects {St : Type} (P : Platform St) (x y : Z) (force : bool)
    (msg : string) (s : St) :
  validateCoordinates x y = Throw msg ->
  RemoveCommit.removeCommitByCoordinates P x y force s
  = (Ok Undefined, s,
     [ConsoleError ("Error removing commits:" ++ " " ++ msg)]).
Proof.
  intros V. unfold RemoveCommit.removeCommitByCoordinates. rewrite V.
  reflexivity.
Qed.

Lemma advanced_rejects {St : Type} (P : Platform St) (x y : Z)
    (o : RemoveCommitAdvanced.options) (msg : string) (s : St) :
  validateCoordinates x y = Throw msg ->
  RemoveCommitAdvanced.removeCommitByCoordinates P x y o s
  = (Throw msg, s,
     [ConsoleError ("❌ Error removing commits:" ++ " " ++ msg); RlClose]).
Proof.
  intros V. unfold RemoveCommitAdvanced.removeCommitByCoordinates.
  rewrite V. reflexivity.
Qed.

Lemma holds_for_of_ok {St A : Type} (ok : event -> bool) (l : list A)
    (body : A -> M (St := St) unit) :
  (forall a, holds ok (body a) (fun r => r = Ok tt)) ->
  holds ok (for_of l body) (fun r => r = Ok tt).
Proof.
  intros H. induction l as [|a l IH]; cbn [for_of].
  - apply holds_ret. reflexivity.
  - apply (holds_bind ok _ _ (fun r => r = Ok tt)).
    + apply H.
    + intros _ _. exact IH.
    + intros e E. discriminate E.
Qed.

(** X4.  In removeCommit.js a batch goes past a coordinate that is out of
    range: the single removal logs the range error and returns, so the
    batch with the bad coordinate ends like the batch without it, with
    the same outcome, the same store and the same git calls.  A batch
    never throws. *)
Theorem batch_skips_out_of_range_coordinate
    {St : Type} (P : Platform St) (pre post : list RemoveCommit.coord)
    (bad : RemoveCommit.coord) (msg : string) (force : bool) (s : St) :
  validateCoordinates (RemoveCommit.cx bad) (RemoveCommit.cy bad)
  = Throw msg ->
  let with_bad :=
    RemoveCommit.removeMultipleCommitsByCoordinates P
      (pre ++ bad :: post)%list force s in
  let without :=
    RemoveCommit.removeMultipleCommitsByCoordinates P
      (pre ++ post)%list force s in
  fst with_bad = fst without
  /\ git_calls (snd with_bad) = git_calls (snd without)
  /\ fst (fst with_bad) = Ok tt.
Proof.
  intros V with_bad without.
  set (body := fun coord : RemoveCommit.coord =>
         bind (RemoveCommit.removeCommitByCoordinates P
                 (RemoveCommit.cx coord) (RemoveCommit.cy coord) force)
              (fun _ => ret (St := St) tt)).
  assert (Hb : forall s0, body bad s0
     = (Ok tt, s0, [ConsoleError ("Error removing commits:" ++ " " ++ msg)])).
  { intros s0. unfold body, bind.
    rewrite (simple_rejects P _ _ force msg s0 V). reflexivity. }
  assert (Hs : forall s0,
     fst (for_of (bad :: post) body s0) = fst (for_of post body s0)
     /\ git_calls (snd (for_of (bad :: post) body s0))
        = git_calls (snd (for_of post body s0))).
  { intros s0. cbn [for_of]. unfold bind. rewrite Hb.
    destruct (for_of post body s0) as [[r s2] t2]. cbn. split; reflexivity. }
  assert (Ok_all : forall l s0, fst (fst (for_of l body s0)) = Ok tt).
  { intros l s0.
    assert (H : holds any_event (for_of l body) (fun r => r = Ok tt)).
    { apply holds_for_of_ok. intros a. unfold body.
      apply (holds_bind any_event _ _ (fun r => r = Ok Undefined)).
      - apply simple_returns_undefined.
      - intros v _. apply holds_ret. reflexivity.
      - intros e E. discriminate E. }
    apply (H s0). }
  assert (W : forall l,
     RemoveCommit.removeMultipleCommitsByCoordinates P l force s
     = let '(r, s', t) := for_of l body s in
       (r, s',
        ConsoleLog ("Removing commits for " ++ show_nat (List.length l)
                    ++ " coordinate pairs") :: t)).
  { intros l. unfold RemoveCommit.removeMultipleCommitsByCoordinates.
    fold body. unfold bind at 1. cbn [console_log emit].
    destruct (for_of l body s) as [[r s'] t]. reflexivity. }
  unfold with_bad, without. rewrite !W, !for_of_app. unfold bind.
  pose proof (Ok_all pre s) as Opre.
  destruct (for_of pre body s) as [[[u | e] s1] t1];
    [|discriminate Opre].
  destruct (Hs s1) as [E1 E2].
  pose proof (Ok_all (bad :: post) s1) as O.
  destruct (for_of (bad :: post) body s1) as [[r2 s2] t2].
  destruct (for_of post body s1) as [[r3 s3] t3].
  cbn [fst snd] in *. injection E1 as -> ->. subst r3.
  split; [reflexivity|]. split; [|reflexivity].
  change (git_calls (t1 ++ t2) = git_calls (t1 ++ t3)).
  rewrite !git_calls_app, E2. reflexivity.
Qed.

Lemma batch_skips_out_of_range_coordinate_witness :
  let P := Fake.platform Fake.jan15 0 "n" in
  let r := Fake.mkRepo ["main"]
             [Fake.commit_c; Fake.commit_a] true [] false in
  let with_bad :=
    RemoveCommit.removeMultipleCommitsByCoordinates P
      ([RemoveCommit.mkCoord 0 1] ++ RemoveCommit.mkCoord 55 0
         :: [RemoveCommit.mkCoord 0 0])%list true r in
  let without :=
    RemoveCommit.removeMultipleCommitsByCoordinates P
      ([RemoveCommit.mkCoord 0 1] ++ [RemoveCommit.mkCoord 0 0])%list
      true r in
  (fst with_bad = fst without
   /\ git_calls (snd with_bad) = git_calls (snd without)
   /\ fst (fst with_bad) = Ok tt)
  /\ Fake.history (snd (fst with_bad)) = [].
Proof.
  intros P r. split; [|reflexivity].
  apply (batch_skips_out_of_range_coordinate P
           [RemoveCommit.mkCoord 0 1] [RemoveCommit.mkCoord 0 0]
           (RemoveCommit.mkCoord 55 0) X_OUT_OF_RANGE true r).
  reflexivity.
Defined.

(** ** removeCommitAdvanced.js: patterns *)

(** X5.  In removeCommitAdvanced.js a pattern stops at its first
    coordinate that is out of range: the per-coordinate removal throws
    again what it caught, so the pattern removal throws, and whatever
    follows the bad coordinate is never looked at: the run ends in the
    same store and has made the same git calls as the run on the pattern
    cut after the bad coordinate. *)
Theorem pattern_stops_at_out_of_range_coordinate
    {St : Type} (P : Platform St)
    (pre post : list RemoveCommitAdvanced.coord)
    (bad : RemoveCommitAdvanced.coord) (msg : string)
    (o : RemoveCommitAdvanced.options) (s : St) :
  validateCoordinates (RemoveCommitAdvanced.cx bad)
                      (RemoveCommitAdvanced.cy bad) = Throw msg ->
  let whole :=
    RemoveCommitAdvanced.removeCommitPattern P (pre ++ bad :: post)%list o s in
  let cut :=
    RemoveCommitAdvanced.removeCommitPattern P (pre ++ [bad])%list o s in
  (exists e, fst (fst whole) = Throw e)
  /\ fst whole = fst cut
  /\ git_calls (snd whole) = git_calls (snd cut).
Proof.
  intros V whole cut.
  set (body := fun coord : RemoveCommitAdvanced.coord =>
         bind (RemoveCommitAdvanced.removeCommitByCoordinates P
                 (RemoveCommitAdvanced.cx coord) (RemoveCommitAdvanced.cy coord)
                 (RemoveCommitAdvanced.spread_pattern o))
              (fun _ => ret (St := St) tt)).
  assert (Hb : forall rest s0,
     for_of (bad :: rest) body s0
     = (Throw msg, s0,
        [ConsoleError ("❌ Error removing commits:" ++ " " ++ msg);
         RlClose])).
  { intros rest s0. cbn [for_of]. unfold bind at 1. unfold body at 1.
    unfold bind at 1.
    rewrite (advanced_rejects P _ _ _ msg s0 V). reflexivity. }
  assert (Hl : forall l s0,
     for_of (pre ++ bad :: l)%list body s0
     = for_of (pre ++ [bad])%list body s0
     /\ exists e, fst (fst (for_of (pre ++ bad :: l)%list body s0))
                  = Throw e).
  { intros l s0. rewrite !for_of_app. unfold bind.
    destruct (for_of pre body s0) as [[[u | e] s1] t1].
    - rewrite !Hb. split; [reflexivity | exists msg; reflexivity].
    - split; [reflexivity | exists e; reflexivity]. }
  assert (W : forall l,
     snd (fst (RemoveCommitAdvanced.removeCommitPattern P l o s))
     = snd (fst (for_of l body s))
     /\ git_calls (snd (RemoveCommitAdvanced.removeCommitPattern P l o s))
        = git_calls (snd (for_of l body s))
     /\ fst (fst (RemoveCommitAdvanced.removeCommitPattern P l o s))
        = match fst (fst (for_of l body s)) with
          | Ok _ => Ok Undefined
          | Throw e => Throw e
          end).
  { intros l. unfold RemoveCommitAdvanced.removeCommitPattern. fold body.
    destruct (default false (RemoveCommitAdvanced.dryRun o));
      cbn [when]; unfold bind, console_log, emit, ret;
      destruct (for_of l body s) as [[[u | e] s'] t];
      cbn; rewrite ?app_nil_r; auto. }
  destruct (Hl post s) as [E [e T]].
  destruct (W (pre ++ bad :: post)%list) as (S1 & G1 & R1).
  destruct (W (pre ++ [bad])%list) as (S2 & G2 & R2).
  fold whole in S1, G1, R1. fold cut in S2, G2, R2.
  rewrite <- E in S2, G2, R2. rewrite T in R1, R2.
  split; [exists e; exact R1|]. split.
  - destruct whole as [[rw sw] tw], cut as [[rc sc] tc].
    cbn [fst snd] in *. congruence.
  - congruence.
Qed.

Lemma pattern_stops_at_out_of_range_coordinate_witness :
  let P := Fake.platform Fake.jan15 0 "n" in
  let r := Fake.mkRepo ["main"]
             [Fake.commit_c; Fake.commit_a] true [] false in
  let o := RemoveCommitAdvanced.mkOptions (Some true) None None None in
  let whole :=
    RemoveCommitAdvanced.removeCommitPattern P
      ([RemoveCommitAdvanced.mkCoord 0 0]
       ++ RemoveCommitAdvanced.mkCoord 0 7
       :: [RemoveCommitAdvanced.mkCoord 0 1])%list o r in
  let cut :=
    RemoveCommitAdvanced.removeCommitPattern P
      ([RemoveCommitAdvanced.mkCoord 0 0]
       ++ [RemoveCommitAdvanced.mkCoord 0 7])%list o r in
  ((exists e, fst (fst whole) = Throw e)
   /\ fst whole = fst cut
   /\ git_calls (snd whole) = git_calls (snd cut))
  /\ Fake.history (snd (fst whole)) = [Fake.commit_c].
Proof.
  intros P r o. split; [|reflexivity].
  apply (pattern_stops_at_out_of_range_coordinate P
           [RemoveCommitAdvanced.mkCoord 0 0]
           [RemoveCommitAdvanced.mkCoord 0 1]
           (RemoveCommitAdvanced.mkCoord 0 7) Y_OUT_OF_RANGE o r).
  reflexivity.
Defined.

(** ** removeCommit.js: the rectangle of [removeCommitsInArea] *)

Lemma count_from_In (a z : Z) (n : nat) :
  In z (RemoveCommit.count_from a n) <-> a <= z < a + Z.of_nat n.
Proof.
  revert a. induction n as [|n IH]; intros a; cbn [RemoveCommit.count_from].
  - cbn. lia.
  - cbn [In]. rewrite IH. lia.
Qed.

Lemma count_from_length (a : Z) (n : nat) :
  List.length (RemoveCommit.count_from a n) = n.
Proof.
  revert a. induction n as [|n IH]; intros a; cbn; [|rewrite IH];
    reflexivity.
Qed.

Lemma count_from_NoDup (a : Z) (n : nat) :
  NoDup (RemoveCommit.count_from a n).
Proof.
  revert a. induction n as [|n IH]; intros a; cbn [RemoveCommit.count_from].
  - constructor.
  - constructor; [|apply IH]. rewrite count_from_In. lia.
Qed.

Lemma for_range_In (a b z : Z) :
  In z (RemoveCommit.for_range a b) <-> a <= z <= b.
Proof. unfold RemoveCommit.for_range. rewrite count_from_In. lia. Qed.

Lemma row_NoDup (x : Z) (ys : list Z) :
  NoDup ys -> NoDup (map (fun y => RemoveCommit.mkCoord x y) ys).
Proof.
  intros N. apply NoDup_map_NoDup_ForallPairs; [|exact N].
  intros y1 y2 _ _ E. injection E as E. exact E.
Qed.

Lemma rows_NoDup (xs ys : list Z) :
  NoDup xs -> NoDup ys ->
  NoDup (flat_map (fun x => map (fun y => RemoveCommit.mkCoord x y) ys) xs).
Proof.
  intros Nx Ny. induction Nx as [|x xs Hx _ IH]; cbn [flat_map].
  - constructor.
  - apply NoDup_app; [apply row_NoDup; exact Ny | exact IH |].
    intros c I1 I2.
    apply in_map_iff in I1. destruct I1 as (y & <- & _).
    apply in_flat_map in I2. destruct I2 as (x' & Hx' & I2).
    apply in_map_iff in I2. destruct I2 as (y' & E & _).
    injection E as -> _. contradiction.
Qed.

Lemma removeMultiple_returns {St : Type} (P : Platform St)
    (l : list RemoveCommit.coord) (force : bool) :
  holds any_event (RemoveCommit.removeMultipleCommitsByCoordinates P l force)
        (fun r => r = Ok tt).
Proof.
  unfold RemoveCommit.removeMultipleCommitsByCoordinates.
  apply (holds_bind any_event _ _ (fun r => r = Ok tt)).
  - apply holds_emit; reflexivity.
  - intros _ _. apply holds_for_of_ok. intros a.
    apply (holds_bind any_event _ _ (fun r => r = Ok Undefined)).
    + apply simple_returns_undefined.
    + intros v _. apply holds_ret. reflexivity.
    + intros e E. discriminate E.
  - intros e E. discriminate E.
Qed.

(** X6.  The coordinates that [removeCommitsInArea] works through are the
    rectangle and nothing else: a coordinate is visited exactly when its
    [x] lies in [startX..endX] and its [y] in [startY..endY], each one
    once, so an inverted range visits nothing; and the call never throws,
    even when the rectangle leaves the grid. *)
Theorem area_is_the_rectangle
    {St : Type} (P : Platform St) (startX endX startY endY : Z)
    (force : bool) (s : St) :
  (forall x y,
      In (RemoveCommit.mkCoord x y)
         (RemoveCommit.area startX endX startY endY)
      <-> startX <= x <= endX /\ startY <= y <= endY)
  /\ NoDup (RemoveCommit.area startX endX startY endY)
  /\ List.length (RemoveCommit.area startX endX startY endY)
     = (Z.to_nat (endX - startX + 1) * Z.to_nat (endY - startY + 1))%nat
  /\ fst (fst (RemoveCommit.removeCommitsInArea P startX endX startY endY
                 force s))
     = Ok tt.
Proof.
  split; [|split; [|split]].
  - intros x y. unfold RemoveCommit.area. rewrite in_flat_map. split.
    + intros (x' & Hx & I). apply in_map_iff in I.
      destruct I as (y' & E & Hy). injection E as -> ->.
      apply for_range_In in Hx. apply for_range_In in Hy. lia.
    + intros [Hx Hy]. exists x. split; [apply for_range_In; exact Hx|].
      apply in_map_iff. exists y. split; [reflexivity|].
      apply for_range_In. exact Hy.
  - apply rows_NoDup; apply count_from_NoDup.
  - unfold RemoveCommit.area.
    rewrite (flat_map_constant_length (c := Z.to_nat (endY - startY + 1))).
    + unfold RemoveCommit.for_range. rewrite count_from_length. reflexivity.
    + intros x _. rewrite length_map. unfold RemoveCommit.for_range.
      apply count_from_length.
  - unfold RemoveCommit.removeCommitsInArea.
    assert (H : holds any_event
      (console_log ("Removing commits in area: x(" ++ show startX ++ "-"
                    ++ show endX ++ "), y(" ++ show startY ++ "-"
                    ++ show endY ++ ")") ;;
       RemoveCommit.removeMultipleCommitsByCoordinates P
         (RemoveCommit.area startX endX startY endY) force)
      (fun r => r = Ok tt)).
    { apply (holds_bind any_event _ _ (fun r => r = Ok tt)).
      - apply holds_emit; reflexivity.
      - intros _ _. apply removeMultiple_returns.
      - intros e E. discriminate E. }
    apply (H s).
Qed.

(** ** removeCommitAdvanced.js: backups, strategies, prompt *)

Lemma delete_loop_prefix {St : Type} (P : Platform St)
    (bs : list string) (s : St) :
  exists n r s',
    (n <= List.length bs)%nat
    /\ runs (for_of bs (fun branch =>
               git (GitDeleteLocalBranch branch)
                   (git_deleteLocalBranch P branch)))
            s r s' (map GitDeleteLocalBranch (firstn n bs))
    /\ (deletes_branches P -> n = List.length bs).
Proof.
  revert s. induction bs as [|b bs IH]; intros s.
  - exists 0%nat, (Ok tt), s. split; [cbn; lia|].
    split; [apply runs_ret | reflexivity].
  - destruct (git_deleteLocalBranch P b s) as [[[] | e] s1] eqn:E.
    + destruct (IH s1) as (n & r & s' & Ln & R & D).
      exists (S n), r, s'. split; [cbn; lia|]. split.
      * cbn [for_of firstn map].
        apply (runs_bind_ok _ _ s s1 s' tt r [GitDeleteLocalBranch b]);
          [apply runs_git; exact E | exact R].
      * intros H. cbn. rewrite (D H). reflexivity.
    + exists 1%nat, (Throw e), s1. split; [cbn; lia|]. split.
      * cbn [for_of firstn map]. apply runs_bind_throw.
        apply runs_git. exact E.
      * intros H. destruct (H b s) as (s2 & E2). congruence.
Qed.

Lemma cleanup_returns {St : Type} (P : Platform St) :
  holds any_event (RemoveCommitAdvanced.cleanupBackupBranch P)
        (fun r => r = Ok tt).
Proof.
  unfold RemoveCommitAdvanced.cleanupBackupBranch.
  apply holds_try_catch.
  - assert (E : emits any_event
      (branches <- git GitBranchLocal (git_branchLocal P) ;;
       when (5 <? List.length
                    (filter (fun branch =>
                               includes branch "backup-before-removal")
                            branches))%nat
         (console_log "🧹 Cleaning up old backup branches..." ;;
          for_of (slice_0_neg 5
                    (filter (fun branch =>
                               includes branch "backup-before-removal")
                            branches))
            (fun branch =>
               git (GitDeleteLocalBranch branch)
                   (git_deleteLocalBranch P branch))))) by emits_all.
    apply (holds_weaken _ _ _ _ E). intros [[] | e] _; [reflexivity | exact I].
  - intros e. apply holds_emit; reflexivity.
Qed.

(** X7.  The cleanup of backup branches keeps the five last ones.  Given
    the branch list, it deletes branches only among those whose name
    contains [backup-before-removal], oldest first and never into the last
    five: none at all when there are five or fewer, all but the last five
    when every deletion succeeds, and a shorter prefix when one fails.
    It never throws. *)
Theorem cleanup_keeps_the_last_five
    {St : Type} (P : Platform St) (s s1 : St) (branches : list string) :
  git_branchLocal P s = (Ok branches, s1) ->
  exists n s',
    (n <= List.length (backups branches) - 5)%nat
    /\ runs (RemoveCommitAdvanced.cleanupBackupBranch P) s (Ok tt) s'
            (GitBranchLocal
             :: map GitDeleteLocalBranch (firstn n (backups branches)))
    /\ (deletes_branches P ->
        n = (List.length (backups branches) - 5)%nat)
    /\ forall s0,
         fst (fst (RemoveCommitAdvanced.cleanupBackupBranch P s0)) = Ok tt.
Proof.
  intros B.
  assert (Never : forall s0,
    fst (fst (RemoveCommitAdvanced.cleanupBackupBranch P s0)) = Ok tt).
  { intros s0. apply (cleanup_returns P s0). }
  unfold RemoveCommitAdvanced.cleanupBackupBranch.
  fold (backups branches).
  destruct (5 <? List.length (backups branches))%nat eqn:C.
  - destruct (delete_loop_prefix P (slice_0_neg 5 (backups branches)) s1)
      as (n & r & s' & Ln & R & D).
    unfold slice_0_neg in Ln, R, D.
    rewrite length_firstn in Ln, D.
    rewrite firstn_firstn in R.
    replace (Nat.min n (List.length (backups branches) - 5)) with n in R
      by lia.
    exists n, s'. split; [lia|]. split; [|split; [|exact Never]].
    + destruct r as [[] | e].
      * eapply runs_calls_eq.
        -- apply runs_try_ok. eapply runs_bind_ok; [run_eval|].
           cbv beta. fold (backups branches). rewrite C. cbn [when].
           eapply runs_bind_ok; [run_eval | exact R].
        -- reflexivity.
      * eapply runs_calls_eq.
        -- eapply runs_try_caught.
           ++ eapply runs_bind_ok; [run_eval|].
              cbv beta. fold (backups branches). rewrite C. cbn [when].
              eapply runs_bind_ok; [run_eval | exact R].
           ++ run_eval.
        -- cbn. rewrite app_nil_r. reflexivity.
    + intros H. rewrite (D H). lia.
  - apply Nat.ltb_ge in C.
    exists 0%nat, s1. split; [lia|]. split; [|split; [|exact Never]].
    + eapply runs_calls_eq.
      * apply runs_try_ok. eapply runs_bind_ok; [run_eval|].
        cbv beta. fold (backups branches).
        replace (5 <? List.length (backups branches))%nat with false
          by (symmetry; apply Nat.ltb_ge; exact C).
        cbn [when]. apply runs_ret.
      * reflexivity.
    + intros _. lia.
Qed.

Lemma cleanup_keeps_the_last_five_witness :
  let P := Fake.platform Fake.jan15 0 "n" in
  let r := Fake.mkRepo ("backup-before-removal-0" :: Fake.six_backups)
             [] true [] false in
  exists n s',
    (n <= List.length (backups (Fake.branches r)) - 5)%nat
    /\ runs (RemoveCommitAdvanced.cleanupBackupBranch P) r (Ok tt) s'
            (GitBranchLocal
             :: map GitDeleteLocalBranch
                    (firstn n (backups (Fake.branches r))))
    /\ (deletes_branches P ->
        n = (List.length (backups (Fake.branches r)) - 5)%nat)
    /\ forall s0,
         fst (fst (RemoveCommitAdvanced.cleanupBackupBranch P s0)) = Ok tt.
Proof.
  intros P r.
  apply (cleanup_keeps_the_last_five P r r (Fake.branches r)).
  reflexivity.
Defined.

Example cleanup_of_seven_backups :
  let P := Fake.platform Fake.jan15 0 "n" in
  let r := Fake.mkRepo ("backup-before-removal-0" :: Fake.six_backups)
             [] true [] false in
  Fake.branches (snd (fst (RemoveCommitAdvanced.cleanupBackupBranch P r)))
  = ["main"; "backup-before-removal-2"; "backup-before-removal-3";
     "backup-before-removal-4"; "backup-before-removal-5";
     "backup-before-removal-6"].
Proof. reflexivity. Qed.

Lemma removeCommitsUsingFilter_returns {St : Type} (P : Platform St)
    (commits : list commit) (targetDate : string) :
  holds any_event
        (RemoveCommitAdvanced.removeCommitsUsingFilter P commits targetDate)
        (fun r => r = Ok tt).
Proof.
  unfold RemoveCommitAdvanced.removeCommitsUsingFilter,
    RemoveCommitAdvanced.removeCommitsUsingRebase.
  apply holds_try_catch.
  - match goal with |- holds _ ?m _ =>
      assert (E : emits any_event m) by emits_all;
      apply (holds_weaken _ _ _ _ E)
    end.
    intros [[] | e] _; [reflexivity | exact I].
  - intros e.
    apply (holds_bind any_event _ _ (fun r => r = Ok tt)).
    + apply holds_emit; reflexivity.
    + intros _ _.
      apply (holds_bind any_event _ _ (fun r => r = Ok tt)).
      * apply holds_emit; reflexivity.
      * intros _ _. apply holds_for_of_ok. intros c.
        apply holds_try_catch.
        -- match goal with |- holds _ ?m _ =>
             assert (E : emits any_event m) by emits_all;
             apply (holds_weaken _ _ _ _ E)
           end.
           intros [[] | e0] _; [reflexivity | exact I].
        -- intros e0. apply holds_emit; reflexivity.
      * intros e0 E. discriminate E.
    + intros e0 E. discriminate E.
Qed.

(** X8.  When the bulk exclusion succeeds, no splice is attempted and the
    rewritten history is pushed once; a push that throws is logged and
    does not fail the removal.  Whatever the store does, the removal of a
    batch never throws. *)
Theorem filter_success_pushes_once
    {St : Type} (P : Platform St) (commits : list commit)
    (targetDate : string) (s s1 : St) :
  git_raw P (RemoveCommitAdvanced.filterCommand (map hash commits)) s
  = (Ok tt, s1) ->
  runs (RemoveCommitAdvanced.removeCommitsUsingFilter P commits targetDate)
       s (Ok tt) (snd (git_push P ["-f"; "origin"; "main"] s1))
       [GitRaw (RemoveCommitAdvanced.filterCommand (map hash commits));
        GitPush ["-f"; "origin"; "main"]]
  /\ forall s0,
       fst (fst (RemoveCommitAdvanced.removeCommitsUsingFilter
                   P commits targetDate s0))
       = Ok tt.
Proof.
  intros F. split.
  - unfold RemoveCommitAdvanced.removeCommitsUsingFilter.
    destruct (git_push P ["-f"; "origin"; "main"] s1) as [[[] | e] s2] eqn:E;
      cbn [snd]; (eapply runs_calls_eq; [run_eval | reflexivity]).
  - intros s0. apply (removeCommitsUsingFilter_returns P _ _ s0).
Qed.

Lemma filter_success_pushes_once_witness :
  let P := Fake.platform Fake.jan15 0 "n" in
  let r := Fake.mkRepo ["main"]
             [Fake.commit_a; Fake.commit_b; Fake.commit_c]
             true [] false in
  runs (RemoveCommitAdvanced.removeCommitsUsingFilter P
          [Fake.commit_a; Fake.commit_b] "2024-01-16")
       r (Ok tt) (Fake.mkRepo ["main"] [Fake.commit_c] true [] false)
       [GitRaw (RemoveCommitAdvanced.filterCommand
                  (map hash [Fake.commit_a; Fake.commit_b]));
        GitPush ["-f"; "origin"; "main"]].
Proof.
  intros P r.
  apply (filter_success_pushes_once P [Fake.commit_a; Fake.commit_b]
           "2024-01-16" r
           (Fake.mkRepo ["main"] [Fake.commit_c] true [] false)).
  reflexivity.
Defined.

(** X9.  The prompt is asked only in an interactive run that is neither
    forced nor a dry run: with [force] set, with [interactive: false], or
    in a dry run, no question is put, whatever the store holds. *)
Theorem no_prompt_when_forced_or_not_interactive_or_dry
    {St : Type} (P : Platform St) (x y : Z)
    (o : RemoveCommitAdvanced.options) (s : St) :
  default false (RemoveCommitAdvanced.force o) = true
  \/ default true (RemoveCommitAdvanced.interactive o) = false
  \/ default false (RemoveCommitAdvanced.dryRun o) = true ->
  questions (snd (RemoveCommitAdvanced.removeCommitByCoordinates P x y o s))
  = [].
Proof.
  intros H.
  assert (E : emits no_question
                (RemoveCommitAdvanced.removeCommitByCoordinates P x y o)).
  { unfold RemoveCommitAdvanced.removeCommitByCoordinates,
      RemoveCommitAdvanced.removeCommitsUsingFilter,
      RemoveCommitAdvanced.removeCommitsUsingRebase,
      RemoveCommitAdvanced.cleanupBackupBranch.
    destruct H as [F | [I | D]].
    - rewrite F. cbn [negb]. rewrite andb_false_r. emits_all.
    - rewrite I. cbn [andb]. emits_all.
    - rewrite D. cbn [negb]. rewrite andb_false_r. cbn [when].
      emits_all. }
  apply (questions_none no_question); [reflexivity | apply (E s)].
Qed.

Lemma no_prompt_when_forced_or_not_interactive_or_dry_witness :
  questions
    (snd (RemoveCommitAdvanced.removeCommitByCoordinates
            (Fake.platform Fake.jan15 0 "n") 0 0
            (RemoveCommitAdvanced.mkOptions (Some true) None None None)
            (Fake.mkRepo ["main"] [Fake.commit_a] true [] false)))
  = [].
Proof.
  apply (no_prompt_when_forced_or_not_interactive_or_dry
           (Fake.platform Fake.jan15 0 "n") 0 0
           (RemoveCommitAdvanced.mkOptions (Some true) None None None)).
  left. reflexivity.
Defined.

(** X10.  The advanced script puts [log.latest] in front of [log.all],
    which already starts with it: when the most recent commit falls on
    the target date, a dry run lists it twice, so the count it reports is
    one more than the number of commits on that date. *)
Theorem dry_run_lists_the_latest_commit_twice
    {St : Type} (P : Platform St) (x y : Z)
    (o : RemoveCommitAdvanced.options) (s s1 : St)
    (lg : LogResult) (c : commit) (rest : list commit) :
  validateCoordinates x y = Ok tt ->
  default false (RemoveCommitAdvanced.dryRun o) = true ->
  git_log P RemoveCommitAdvanced.log_options s = (Ok lg, s1) ->
  all lg = c :: rest -> latest lg = Some c ->
  RemoveCommitAdvanced.matches (targetDateStr (today P) x y) c = true ->
  runs (RemoveCommitAdvanced.removeCommitByCoordinates P x y o) s
       (Ok (Commits
              (c :: c
               :: filter (RemoveCommitAdvanced.matches
                            (targetDateStr (today P) x y)) rest)))
       s1 [GitLog RemoveCommitAdvanced.log_options].
Proof.
  intros V D L A T M.
  unfold RemoveCommitAdvanced.removeCommitByCoordinates.
  rewrite V, D. cbn [negb]. rewrite andb_false_r. cbn [when].
  eapply runs_calls_eq.
  - eapply runs_finally; [|run_eval].
    apply runs_try_ok.
    run_step. run_step. eapply runs_bind_ok; [run_eval|]. cbv beta zeta.
    unfold RemoveCommitAdvanced.logEntries. rewrite T, A.
    cbn [filter]. rewrite M.
    cbn [List.length Nat.eqb]. run_eval.
  - reflexivity.
Qed.

Lemma dry_run_lists_the_latest_commit_twice_witness :
  let P := Fake.platform Fake.jan15 0 "n" in
  let r := Fake.mkRepo ["main"] [Fake.commit_a; Fake.commit_c] true []
             false in
  let o := RemoveCommitAdvanced.mkOptions None None (Some true) None in
  runs (RemoveCommitAdvanced.removeCommitByCoordinates P 0 0 o) r
       (Ok (Commits
              (Fake.commit_a :: Fake.commit_a
               :: filter (RemoveCommitAdvanced.matches
                            (targetDateStr (today P) 0 0))
                         [Fake.commit_c])))
       r [GitLog RemoveCommitAdvanced.log_options].
Proof.
  intros P r o.
  apply (dry_run_lists_the_latest_commit_twice P 0 0 o r r
           (mkLog (Fake.history r) (hd_error (Fake.history r)))
           Fake.commit_a [Fake.commit_c]); reflexivity.
Defined.

(** ** removeSingleCommit.js: by date, by coordinates, in batches *)

(** X11.  Removing by date and removing by coordinates are the same
    removal: on valid coordinates, [removeCommitByDate] called on the
    printed target date ends with the same outcome and the same store,
    and makes the same git calls, as [removeSingleCommitByCoordinates]. *)
Theorem by_date_agrees_with_by_coordinates
    {St : Type} (P : Platform St) (x y : Z) (force : bool) (s : St) :
  validateCoordinates x y = Ok tt ->
  let by_coordinates :=
    RemoveSingleCommit.removeSingleCommitByCoordinates P x y force s in
  let by_date :=
    RemoveSingleCommit.removeCommitByDate P (targetDateStr (today P) x y)
      force s in
  fst by_coordinates = fst by_date
  /\ git_calls (snd by_coordinates) = git_calls (snd by_date).
Proof.
  intros V.
  unfold RemoveSingleCommit.removeSingleCommitByCoordinates,
    RemoveSingleCommit.removeCommitByDate,
    RemoveSingleCommit.removeSingleCommitByHash.
  rewrite V.
  unfold try_catch, bind, git, console_log, console_error, emit, when,
    ret, throw.
  destruct (git_log P [] s) as [[lg | e] s1]; [|split; reflexivity].
  destruct (RemoveSingleCommit.commitToRemove P (all lg)
              (targetDateStr (today P) x y)) as [c|];
    [|split; reflexivity].
  destruct (1 <? List.length
                   (RemoveSingleCommit.matchingCommits P (all lg)
                      (targetDateStr (today P) x y)))%nat;
    destruct force; cbn [negb];
    try (split; reflexivity);
    destruct (git_raw P (rebase_onto (hash c)) s1) as [[[] | e] s2];
    split; reflexivity.
Qed.

Lemma by_date_agrees_with_by_coordinates_witness :
  let P := Fake.platform Fake.jan15 0 "n" in
  let r := Fake.mkRepo ["main"] [Fake.commit_c; Fake.commit_a; Fake.commit_b]
             true [] false in
  let by_coordinates :=
    RemoveSingleCommit.removeSingleCommitByCoordinates P 0 0 true r in
  let by_date :=
    RemoveSingleCommit.removeCommitByDate P (targetDateStr (today P) 0 0)
      true r in
  (fst by_coordinates = fst by_date
   /\ git_calls (snd by_coordinates) = git_calls (snd by_date))
  /\ Fake.history (snd (fst by_date)) = [Fake.commit_c; Fake.commit_b].
Proof.
  intros P r. split; [|reflexivity].
  apply (by_date_agrees_with_by_coordinates P 0 0 true r). reflexivity.
Defined.

Lemma after_console_log {St A : Type} (line : string)
    (m : M (St := St) A) (s : St) :
  bind (console_log line) (fun _ => m) s
  = let '(r, s', t) := m s in (r, s', ConsoleLog line :: t).
Proof.
  unfold bind, console_log, emit. destruct (m s) as [[r s'] t]. reflexivity.
Qed.

Lemma mutations_app (t1 t2 : list event) :
  mutations (t1 ++ t2)%list = (mutations t1 + mutations t2)%nat.
Proof.
  unfold mutations. rewrite git_calls_app, filter_app, length_app.
  reflexivity.
Qed.

Lemma single_mutates_at_most_once {St : Type} (P : Platform St) (x y : Z)
    (force : bool) (s : St) :
  (mutations
     (snd (RemoveSingleCommit.removeSingleCommitByCoordinates P x y force s))
   <= 1)%nat.
Proof.
  unfold RemoveSingleCommit.removeSingleCommitByCoordinates,
    RemoveSingleCommit.removeSingleCommitByHash.
  destruct (validateCoordinates x y) as [[] | e0]; [|cbn; lia].
  unfold try_catch, bind, git, console_log, console_error, emit, when,
    ret, throw.
  destruct (git_log P [] s) as [[lg | e] s1]; [|cbn; lia].
  destruct (RemoveSingleCommit.commitToRemove P (all lg)
              (targetDateStr (today P) x y)) as [c|]; [|cbn; lia].
  destruct (1 <? List.length
                   (RemoveSingleCommit.matchingCommits P (all lg)
                      (targetDateStr (today P) x y)))%nat;
    destruct force; cbn [negb]; try (cbn; lia);
    destruct (git_raw P (rebase_onto (hash c)) s1) as [[[] | e] s2];
    cbn; lia.
Qed.

(** X12.  A batch of single removals takes at most one commit per
    coordinate: over the whole batch the number of mutating calls is at
    most the number of coordinates, whatever the store holds; and the
    batch never throws. *)
Theorem single_batch_removes_at_most_one_per_coordinate
    {St : Type} (P : Platform St) (coordinates : list RemoveCommit.coord)
    (force : bool) (s : St) :
  fst (fst (RemoveSingleCommit.removeSingleCommitsFromCoordinates
              P coordinates force s))
  = Ok tt
  /\ (mutations
        (snd (RemoveSingleCommit.removeSingleCommitsFromCoordinates
                P coordinates force s))
      <= List.length coordinates)%nat.
Proof.
  set (body := fun coord : RemoveCommit.coord =>
         bind (RemoveSingleCommit.removeSingleCommitByCoordinates P
                 (RemoveCommit.cx coord) (RemoveCommit.cy coord) force)
              (fun _ => ret (St := St) tt)).
  assert (Hb : forall a s0, exists s1 t1,
     body a s0 = (Ok tt, s1, t1) /\ (mutations t1 <= 1)%nat).
  { intros a s0. unfold body, bind.
    pose proof (single_returns_undefined P (RemoveCommit.cx a)
                  (RemoveCommit.cy a) force s0) as [_ R].
    pose proof (single_mutates_at_most_once P (RemoveCommit.cx a)
                  (RemoveCommit.cy a) force s0) as Mu.
    destruct (RemoveSingleCommit.removeSingleCommitByCoordinates P
                (RemoveCommit.cx a) (RemoveCommit.cy a) force s0)
      as [[r s1] t1].
    cbn [fst snd] in R, Mu. subst r. cbn [ret].
    exists s1, (t1 ++ [])%list. split; [reflexivity|].
    rewrite app_nil_r. exact Mu. }
  assert (L : forall l s0,
     fst (fst (for_of l body s0)) = Ok tt
     /\ (mutations (snd (for_of l body s0)) <= List.length l)%nat).
  { induction l as [|a l IH]; intros s0; [cbn; split; [reflexivity | lia]|].
    cbn [for_of List.length]. unfold bind.
    destruct (Hb a s0) as (s1 & t1 & E & Mu). rewrite E.
    destruct (IH s1) as [Ok1 Mu1].
    destruct (for_of l body s1) as [[r2 s2] t2]. cbn [fst snd] in *.
    split; [exact Ok1|].
    rewrite mutations_app. lia. }
  unfold RemoveSingleCommit.removeSingleCommitsFromCoordinates.
  fold body. rewrite after_console_log.
  destruct (L coordinates s) as [Ok1 Mu1].
  destruct (for_of coordinates body s) as [[r s'] t]. cbn [fst snd] in *.
  split; [exact Ok1 | exact Mu1].
Qed.

(** ** The search of [findCoordinatesForDate] *)

Section ScanSound.
Variables (now : civil) (target : string).

Lemma scan_y_some (x y0 a b : Z) (n : nat) :
  RemoveSingleCommit.scan_y now target x y0 n = Some (a, b) ->
  a = x /\ y0 <= b < y0 + Z.of_nat n
  /\ targetDateStr now x b = target
  /\ forall y', y0 <= y' < b -> targetDateStr now x y' <> target.
Proof.
  revert y0. induction n as [|n IH]; intros y0; [discriminate|].
  cbn [RemoveSingleCommit.scan_y].
  destruct (String.eqb_spec (targetDateStr now x y0) target) as [E | N].
  - intros H. injection H as <- <-. repeat split; try lia; try exact E.
  - intros H. destruct (IH _ H) as (Ha & Hb & Ht & Hn).
    repeat split; try assumption; try lia.
    intros y' Hy'. destruct (Z.eq_dec y' y0) as [-> | D]; [exact N|].
    apply Hn. lia.
Qed.

Lemma scan_y_none_inv (x y0 : Z) (n : nat) :
  RemoveSingleCommit.scan_y now target x y0 n = None ->
  forall y', y0 <= y' < y0 + Z.of_nat n -> targetDateStr now x y' <> target.
Proof.
  revert y0. induction n as [|n IH]; intros y0 H y' Hy'; [lia|].
  cbn [RemoveSingleCommit.scan_y] in H.
  destruct (String.eqb_spec (targetDateStr now x y0) target) as [E | N];
    [discriminate|].
  destruct (Z.eq_dec y' y0) as [-> | D]; [exact N|].
  apply (IH _ H). lia.
Qed.

Lemma scan_x_some (x0 a b : Z) (n : nat) :
  RemoveSingleCommit.scan_x now target x0 n = Some (a, b) ->
  x0 <= a < x0 + Z.of_nat n /\ 0 <= b < 7
  /\ targetDateStr now a b = target
  /\ forall x' y', x0 <= x' -> 0 <= y' < 7 ->
       x' < a \/ (x' = a /\ y' < b) -> targetDateStr now x' y' <> target.
Proof.
  revert x0. induction n as [|n IH]; intros x0; [discriminate|].
  cbn [RemoveSingleCommit.scan_x].
  destruct (RemoveSingleCommit.scan_y now target x0 0 7) as [[a' b']|] eqn:Y.
  - intros H. injection H as -> ->.
    destruct (scan_y_some _ _ _ _ _ Y) as (-> & Hb & Ht & Hn).
    repeat split; try lia; try exact Ht.
    intros x' y' Hx' Hy' [L | [-> L]]; [lia|]. apply Hn. lia.
  - intros H. destruct (IH _ H) as (Ha & Hb & Ht & Hn).
    repeat split; try lia; try exact Ht.
    intros x' y' Hx' Hy' O.
    destruct (Z.eq_dec x' x0) as [-> | D].
    + apply (scan_y_none_inv _ _ _ Y). lia.
    + apply Hn; lia.
Qed.

Lemma scan_x_none_inv (x0 : Z) (n : nat) :
  RemoveSingleCommit.scan_x now target x0 n = None ->
  forall x' y', x0 <= x' < x0 + Z.of_nat n -> 0 <= y' < 7 ->
                targetDateStr now x' y' <> target.
Proof.
  revert x0. induction n as [|n IH]; intros x0 H x' y' Hx' Hy'; [lia|].
  cbn [RemoveSingleCommit.scan_x] in H.
  destruct (RemoveSingleCommit.scan_y now target x0 0 7) as [c|] eqn:Y;
    [discriminate|].
  destruct (Z.eq_dec x' x0) as [-> | D].
  - apply (scan_y_none_inv _ _ _ Y). lia.
  - apply (IH _ H); lia.
Qed.

End ScanSound.

(** X13.  [findCoordinatesForDate] answers with the earliest coordinate of
    the grid whose date prints as the date asked for, and with [null]
    exactly when no coordinate of the grid does; it makes no git call and
    leaves the store alone. *)
Theorem findCoordinates_sound_and_complete
    {St : Type} (P : Platform St) (target : string) (s : St) :
  exists found t,
    RemoveSingleCommit.findCoordinatesForDate P target s
    = (Ok found, s, t)
    /\ git_calls t = []
    /\ match found with
       | Some (x, y) =>
           in_grid x y
           /\ targetDateStr (today P) x y = target
           /\ forall x' y', in_grid x' y' ->
                x' < x \/ (x' = x /\ y' < y) ->
                targetDateStr (today P) x' y' <> target
       | None =>
           forall x y, in_grid x y -> targetDateStr (today P) x y <> target
       end.
Proof.
  unfold RemoveSingleCommit.findCoordinatesForDate.
  unfold bind, console_log, emit, ret.
  destruct (RemoveSingleCommit.scan_x (today P) target 0 55)
    as [[x y]|] eqn:F.
  - eexists. eexists. split; [reflexivity|]. split; [reflexivity|].
    destruct (scan_x_some _ _ _ _ _ _ F) as (Hx & Hy & Ht & Hn).
    unfold in_grid. repeat split; try lia; try exact Ht.
    intros x' y' [Hx' Hy'] O. apply Hn; lia.
  - eexists. eexists. split; [reflexivity|]. split; [reflexivity|].
    intros x y [Hx Hy]. apply (scan_x_none_inv _ _ _ _ F); lia.
Qed.

(** ** Where today lies on the grid *)

Lemma dayFromYear_mono (a b : Z) : a <= b -> dayFromYear a <= dayFromYear b.
Proof.
  intros H. pose proof (dayFromYear_grows a (Z.to_nat (b - a))) as G.
  rewrite Z2Nat.id in G by lia.
  replace (a + (b - a)) with b in G by lia. lia.
Qed.

Lemma day_number_before_next_year (d : civil) :
  valid_date d -> day_number d < dayFromYear (year d + 1).
Proof.
  destruct d as [y m dd]. unfold valid_date, day_number.
  cbn [year month day]. intros [Hm Hd].
  rewrite (daysInMonth_in_year y m Hm) in Hd. rewrite dayFromYear_succ.
  assert (C : m = 0 \/ m = 1 \/ m = 2 \/ m = 3 \/ m = 4 \/ m = 5 \/ m = 6
              \/ m = 7 \/ m = 8 \/ m = 9 \/ m = 10 \/ m = 11) by lia.
  repeat (destruct C as [-> | C]); try subst m; cbn in *;
    destruct (isLeapYear y); lia.
Qed.

(** Two well-formed dates with the same day number are the same date. *)
Lemma day_number_injective (a b : civil) :
  valid_date a -> valid_date b -> day_number a = day_number b -> a = b.
Proof.
  intros Va Vb E.
  assert (Y : year a = year b).
  { pose proof (day_number_in_year a Va) as La.
    pose proof (day_number_in_year b Vb) as Lb.
    pose proof (day_number_before_next_year a Va) as Ua.
    pose proof (day_number_before_next_year b Vb) as Ub.
    destruct (Z.lt_trichotomy (year a) (year b)) as [L | [Q | G]];
      [|exact Q|].
    - pose proof (dayFromYear_mono (year a + 1) (year b)). lia.
    - pose proof (dayFromYear_mono (year b + 1) (year a)). lia. }
  destruct a as [ya ma da], b as [yb mb db].
  unfold valid_date, day_number in *. cbn [year month day] in *. subst yb.
  destruct Va as [Hma Hda], Vb as [Hmb Hdb].
  rewrite (daysInMonth_in_year ya ma Hma) in Hda.
  rewrite (daysInMonth_in_year ya mb Hmb) in Hdb.
  assert (M : ma = mb /\ da = db).
  { assert (Ca : ma = 0 \/ ma = 1 \/ ma = 2 \/ ma = 3 \/ ma = 4 \/ ma = 5
                 \/ ma = 6 \/ ma = 7 \/ ma = 8 \/ ma = 9 \/ ma = 10
                 \/ ma = 11) by lia.
    assert (Cb : mb = 0 \/ mb = 1 \/ mb = 2 \/ mb = 3 \/ mb = 4 \/ mb = 5
                 \/ mb = 6 \/ mb = 7 \/ mb = 8 \/ mb = 9 \/ mb = 10
                 \/ mb = 11) by lia.
    destruct (isLeapYear ya);
      repeat (destruct Ca as [-> | Ca]); try subst ma;
      repeat (destruct Cb as [-> | Cb]); try subst mb;
      cbn in *; lia. }
  destruct M as [-> ->]. reflexivity.
Qed.

(** One year back is 365 or 366 days back. *)
Lemma subtract_y_1_gap (d : civil) :
  valid_date d ->
  day_number d - day_number (subtract_y 1 d) = 365
  \/ day_number d - day_number (subtract_y 1 d) = 366.
Proof.
  intros V. destruct (subtract_y_1 d V) as [E _]. rewrite E.
  destruct d as [y m dd]. unfold valid_date, day_number in *.
  cbn [year month day] in *. destruct V as [Hm Hd].
  rewrite (daysInMonth_in_year y m Hm) in Hd.
  rewrite (daysInMonth_in_year (y - 1) m Hm).
  pose proof (dayFromYear_succ (y - 1)) as S.
  replace (y - 1 + 1) with y in S by lia.
  assert (X : isLeapYear y = true -> isLeapYear (y - 1) = true -> False).
  { rewrite !isLeapYear_mod. Z.to_euclidean_division_equations. lia. }
  assert (C : m = 0 \/ m = 1 \/ m = 2 \/ m = 3 \/ m = 4 \/ m = 5 \/ m = 6
              \/ m = 7 \/ m = 8 \/ m = 9 \/ m = 10 \/ m = 11) by lia.
  destruct (isLeapYear y); destruct (isLeapYear (y - 1));
    try (exfalso; apply X; reflexivity);
    repeat (destruct C as [-> | C]); try subst m; cbn in *; lia.
Qed.

(** X14.  Today is in week 52 of the grid: the coordinate (52, 0) or
    (52, 1) resolves to the reference date itself, it is the one
    [findCoordinatesForDate] finds for today, and every coordinate after
    (52, 1), so all of weeks 53 and 54, resolves to a date that is still
    to come. *)
Theorem today_is_in_week_52 {St : Type} (P : Platform St) :
  valid_date (today P) -> 1 <= year (today P) <= 9998 ->
  (targetDate (today P) 52 0 = today P
   \/ targetDate (today P) 52 1 = today P)
  /\ (RemoveSingleCommit.scan_x (today P)
        (format_YYYY_MM_DD (today P)) 0 55 = Some (52, 0)
      \/ RemoveSingleCommit.scan_x (today P)
           (format_YYYY_MM_DD (today P)) 0 55 = Some (52, 1))
  /\ forall x y, in_grid x y -> 52 * 7 + 1 < x * 7 + y ->
       day_number (today P) < day_number (targetDate (today P) x y).
Proof.
  intros V Y.
  pose proof (subtract_y_1_gap (today P) V) as G.
  assert (T : forall x y, 0 <= x -> 0 <= y ->
     valid_date (targetDate (today P) x y)
     /\ day_number (targetDate (today P) x y)
        = day_number (subtract_y 1 (today P)) + 1 + (x * 7 + y)).
  { intros x y Hx Hy.
    destruct (targetDate_spec (today P) x y V Hx Hy)
      as (_ & Na & _ & Vr & Nr).
    split; [exact Vr | lia]. }
  assert (D : targetDate (today P) 52 0 = today P
              \/ targetDate (today P) 52 1 = today P).
  { destruct (T 52 0 ltac:(lia) ltac:(lia)) as [V0 N0].
    destruct (T 52 1 ltac:(lia) ltac:(lia)) as [V1 N1].
    destruct G as [G | G].
    - left. apply day_number_injective; [exact V0 | exact V | lia].
    - right. apply day_number_injective; [exact V1 | exact V | lia]. }
  split; [exact D|]. split.
  - destruct D as [D | D]; [left | right].
    + apply scan_x_found; [lia | lia | | unfold targetDateStr; congruence].
      intros x' y' Hx' Hy' E.
      apply (grid_injective (today P) 52 0 x' y'); try assumption; try lia.
      rewrite E. unfold targetDateStr. congruence.
    + apply scan_x_found; [lia | lia | | unfold targetDateStr; congruence].
      intros x' y' Hx' Hy' E.
      apply (grid_injective (today P) 52 1 x' y'); try assumption; try lia.
      rewrite E. unfold targetDateStr. congruence.
  - intros x y [Hx Hy] L.
    destruct (T x y ltac:(lia) ltac:(lia)) as [_ N]. lia.
Qed.

Lemma today_is_in_week_52_witness :
  targetDate Fake.jan15 52 0 = Fake.jan15
  \/ targetDate Fake.jan15 52 1 = Fake.jan15.
Proof.
  apply (today_is_in_week_52 (Fake.platform Fake.jan15 0 "n")).
  - apply valid_dateb_spec. reflexivity.
  - cbn. lia.
Defined.

Example today_at_52_0_or_52_1 :
  targetDate (mkDate 2023 5 1) 52 0 = mkDate 2023 5 1
  /\ targetDate (mkDate 2024 1 29) 52 1 = mkDate 2024 1 29
  /\ targetDate (mkDate 2025 0 15) 52 1 = mkDate 2025 0 15.
Proof. repeat split; reflexivity. Qed.

(** ** Previews of patterns *)

Lemma pattern_preview_step {St : Type} (P : Platform St) (x y : Z)
    (o : RemoveCommitAdvanced.options) (s : St) :
  log_answers P -> in_grid x y ->
  default false (RemoveCommitAdvanced.dryRun o) = true ->
  exists v s',
    runs (RemoveCommitAdvanced.removeCommitByCoordinates P x y
            (RemoveCommitAdvanced.spread_pattern o))
         s (Ok v) s' [GitLog RemoveCommitAdvanced.log_options].
Proof.
  intros H [Hx Hy] D.
  destruct (H RemoveCommitAdvanced.log_options s) as (lg & s1 & L).
  unfold RemoveCommitAdvanced.removeCommitByCoordinates.
  cbn [RemoveCommitAdvanced.spread_pattern RemoveCommitAdvanced.backup
       RemoveCommitAdvanced.interactive RemoveCommitAdvanced.force
       RemoveCommitAdvanced.dryRun default].
  rewrite (validateCoordinates_in_range x y Hx Hy), D.
  cbn [negb andb when].
  destruct (List.length
              (filter (RemoveCommitAdvanced.matches
                         (targetDateStr (today P) x y))
                      (RemoveCommitAdvanced.logEntries lg)) =? 0)%nat eqn:C.
  - exists Undefined, s1. eapply runs_calls_eq.
    + eapply runs_finally; [|run_eval]. apply runs_try_ok.
      run_step. run_step. eapply runs_bind_ok; [run_eval|].
      cbv beta zeta. rewrite C. run_eval.
    + reflexivity.
  - eexists. exists s1. eapply runs_calls_eq.
    + eapply runs_finally; [|run_eval]. apply runs_try_ok.
      run_step. run_step. eapply runs_bind_ok; [run_eval|].
      cbv beta zeta. rewrite C. run_eval.
    + reflexivity.
Qed.

Lemma pattern_preview_runs
    {St : Type} (P : Platform St)
    (pattern : list RemoveCommitAdvanced.coord)
    (o : RemoveCommitAdvanced.options) (s : St) :
  log_answers P ->
  Forall (fun c => in_grid (RemoveCommitAdvanced.cx c)
                           (RemoveCommitAdvanced.cy c)) pattern ->
  default false (RemoveCommitAdvanced.dryRun o) = true ->
  exists s',
    runs (RemoveCommitAdvanced.removeCommitPattern P pattern o) s
         (Ok Undefined) s'
         (repeat (GitLog RemoveCommitAdvanced.log_options)
                 (List.length pattern)).
Proof.
  intros H F D.
  assert (L : forall s0, exists s',
    runs (for_of pattern (fun coord =>
            _ <- RemoveCommitAdvanced.removeCommitByCoordinates P
                   (RemoveCommitAdvanced.cx coord)
                   (RemoveCommitAdvanced.cy coord)
                   (RemoveCommitAdvanced.spread_pattern o) ;;
            ret tt))
         s0 (Ok tt) s'
         (repeat (GitLog RemoveCommitAdvanced.log_options)
                 (List.length pattern))).
  { induction F as [|c pattern Hc _ IH]; intros s0.
    - exists s0. apply runs_ret.
    - destruct (pattern_preview_step P _ _ o s0 H Hc D) as (v & s1 & R).
      destruct (IH s1) as (s' & R').
      exists s'. cbn [for_of List.length repeat].
      eapply runs_calls_eq.
      + eapply runs_bind_ok; [|exact R'].
        eapply runs_bind_ok; [exact R | apply runs_ret].
      + reflexivity. }
  destruct (L s) as (s' & R). exists s'.
  unfold RemoveCommitAdvanced.removeCommitPattern. rewrite D. cbn [when].
  eapply runs_calls_eq.
  - run_step. run_step. eapply runs_bind_ok; [exact R | apply runs_ret].
  - cbn. rewrite app_nil_r. reflexivity.
Qed.

(** X15.  The preview of a pattern that lies inside the grid reads the
    log once for each coordinate and does nothing else to the store: when
    [git log] answers, a dry run of [removeCommitPattern] returns
    undefined after exactly as many [git log] calls as the pattern has
    coordinates, and no other git call. *)
Theorem pattern_preview_reads_the_log_once_per_coordinate
    {St : Type} (P : Platform St)
    (pattern : list RemoveCommitAdvanced.coord)
    (o : RemoveCommitAdvanced.options) (s : St) :
  log_answers P ->
  Forall (fun c => in_grid (RemoveCommitAdvanced.cx c)
                           (RemoveCommitAdvanced.cy c)) pattern ->
  default false (RemoveCommitAdvanced.dryRun o) = true ->
  exists s',
    runs (RemoveCommitAdvanced.removeCommitPattern P pattern o) s
         (Ok Undefined) s'
         (repeat (GitLog RemoveCommitAdvanced.log_options)
                 (List.length pattern)).
Proof. apply pattern_preview_runs. Qed.

Lemma pattern_preview_reads_the_log_once_per_coordinate_witness :
  let P := Fake.platform Fake.jan15 0 "n" in
  let r := Fake.mkRepo ["main"] [Fake.commit_c; Fake.commit_a] true []
             false in
  exists s',
    runs (RemoveCommitAdvanced.removeCommitPattern P
            RemoveCommitAdvanced.smiley
            CommitRemovalUtility.preview_options)
         r (Ok Undefined) s'
         (repeat (GitLog RemoveCommitAdvanced.log_options)
                 (List.length RemoveCommitAdvanced.smiley)).
Proof.
  intros P r.
  apply (pattern_preview_reads_the_log_once_per_coordinate P
           RemoveCommitAdvanced.smiley
           CommitRemovalUtility.preview_options r).
  - intros options s. eexists. eexists. reflexivity.
  - repeat constructor; cbn; lia.
  - reflexivity.
Defined.

Lemma in_grid_dec_all (l : list RemoveCommitAdvanced.coord) :
  forallb (fun c => (0 <=? RemoveCommitAdvanced.cx c)
                    && (RemoveCommitAdvanced.cx c <=? 54)
                    && (0 <=? RemoveCommitAdvanced.cy c)
                    && (RemoveCommitAdvanced.cy c <=? 6)) l = true ->
  Forall (fun c => in_grid (RemoveCommitAdvanced.cx c)
                           (RemoveCommitAdvanced.cy c)) l.
Proof.
  intros H. rewrite forallb_forall in H. apply Forall_forall.
  intros c I. specialize (H c I).
  rewrite !andb_true_iff, !Z.leb_le in H. unfold in_grid. lia.
Qed.

(** X16.  The predefined patterns and the patterns of the utility all lie
    inside the grid, so a preview of them never stops on a range error;
    and the three pattern examples of the utility are previews indeed:
    when [git log] answers, each returns after one [git log] per
    coordinate (16, 7 and 15 of them) and no other git call. *)
Theorem utility_pattern_examples_only_read
    {St : Type} (P : Platform St) (s : St) :
  log_answers P ->
  Forall (fun c => in_grid (RemoveCommitAdvanced.cx c)
                           (RemoveCommitAdvanced.cy c))
         (RemoveCommitAdvanced.heart ++ RemoveCommitAdvanced.smiley
          ++ RemoveCommitAdvanced.ac ++ CommitRemovalUtility.diagonal
          ++ CommitRemovalUtility.areaPattern)%list
  /\ (exists s', runs (CommitRemovalUtility.createHeartPattern P) s (Ok tt) s'
                   (repeat (GitLog RemoveCommitAdvanced.log_options) 16))
  /\ (exists s', runs (CommitRemovalUtility.customPattern P) s (Ok tt) s'
                   (repeat (GitLog RemoveCommitAdvanced.log_options) 7))
  /\ (exists s', runs (CommitRemovalUtility.cleanupArea P) s (Ok tt) s'
                   (repeat (GitLog RemoveCommitAdvanced.log_options) 15)).
Proof.
  intros H.
  assert (G : forall l, 
    forallb (fun c => (0 <=? RemoveCommitAdvanced.cx c)
                      && (RemoveCommitAdvanced.cx c <=? 54)
                      && (0 <=? RemoveCommitAdvanced.cy c)
                      && (RemoveCommitAdvanced.cy c <=? 6)) l = true ->
    forall n, List.length l = n ->
    exists s',
      runs (RemoveCommitAdvanced.removeCommitPattern P l
              CommitRemovalUtility.preview_options) s (Ok Undefined) s'
           (repeat (GitLog RemoveCommitAdvanced.log_options) n)).
  { intros l B n <-.
    apply pattern_preview_runs;
      [exact H | apply in_grid_dec_all; exact B | reflexivity]. }
  split; [apply in_grid_dec_all; reflexivity|].
  split; [|split].
  - destruct (G RemoveCommitAdvanced.heart eq_refl 16%nat eq_refl)
      as (s' & R).
    exists s'. unfold CommitRemovalUtility.createHeartPattern.
    eapply runs_calls_eq.
    + run_step. eapply runs_bind_ok; [exact R | run_eval].
    + cbn. reflexivity.
  - destruct (G CommitRemovalUtility.diagonal eq_refl 7%nat eq_refl)
      as (s' & R).
    exists s'. unfold CommitRemovalUtility.customPattern.
    eapply runs_calls_eq.
    + run_step. eapply runs_bind_ok; [exact R | run_eval].
    + cbn. reflexivity.
  - destruct (G CommitRemovalUtility.areaPattern eq_refl 15%nat eq_refl)
      as (s' & R).
    exists s'. unfold CommitRemovalUtility.cleanupArea.
    eapply runs_calls_eq.
    + run_step. eapply runs_bind_ok; [exact R | run_eval].
    + cbn. reflexivity.
Qed.

Lemma utility_pattern_examples_only_read_witness :
  exists s',
    runs (CommitRemovalUtility.createHeartPattern
            (Fake.platform Fake.jan15 0 "n"))
         (Fake.mkRepo ["main"] [Fake.commit_c; Fake.commit_a] true [] false)
         (Ok tt) s'
         (repeat (GitLog RemoveCommitAdvanced.log_options) 16).
Proof.
  apply (utility_pattern_examples_only_read
           (Fake.platform Fake.jan15 0 "n")
           (Fake.mkRepo ["main"] [Fake.commit_c; Fake.commit_a] true []
              false)).
  intros options s. eexists. eexists. reflexivity.
Defined.

(** ** removeCommitAdvanced.js: dry runs and failures *)

(** X17.  A dry run that finds commits on the target date returns exactly
    the matching entries of the log and touches nothing: its only git call
    is the [git log], and the store is the one that call left.  In any dry
    run, the only mutating calls that can occur are branch deletions, and
    with [backup: false] there is none. *)
Theorem dry_run_returns_the_matches
    {St : Type} (P : Platform St) (x y : Z)
    (o : RemoveCommitAdvanced.options) (s s1 : St) (lg : LogResult) :
  validateCoordinates x y = Ok tt ->
  default false (RemoveCommitAdvanced.dryRun o) = true ->
  git_log P RemoveCommitAdvanced.log_options s = (Ok lg, s1) ->
  filter (RemoveCommitAdvanced.matches (targetDateStr (today P) x y))
         (RemoveCommitAdvanced.logEntries lg) <> [] ->
  runs (RemoveCommitAdvanced.removeCommitByCoordinates P x y o) s
       (Ok (Commits
              (filter (RemoveCommitAdvanced.matches
                         (targetDateStr (today P) x y))
                      (RemoveCommitAdvanced.logEntries lg))))
       s1 [GitLog RemoveCommitAdvanced.log_options]
  /\ (forall s0 c,
        In c (git_calls
                (snd (RemoveCommitAdvanced.removeCommitByCoordinates
                        P x y o s0))) ->
        mutating c = true -> exists b, c = GitDeleteLocalBranch b)
  /\ (RemoveCommitAdvanced.backup o = Some false ->
      forall s0,
        mutations
          (snd (RemoveCommitAdvanced.removeCommitByCoordinates P x y o s0))
        = 0%nat).
Proof.
  intros V D L N. split; [|split].
  - assert (C : (List.length
                   (filter (RemoveCommitAdvanced.matches
                              (targetDateStr (today P) x y))
                           (RemoveCommitAdvanced.logEntries lg)) =? 0)%nat
                = false).
    { apply Nat.eqb_neq. intros Z0. apply N.
      apply length_zero_iff_nil. exact Z0. }
    unfold RemoveCommitAdvanced.removeCommitByCoordinates.
    rewrite V, D. cbn [negb]. rewrite andb_false_r. cbn [when].
    eapply runs_calls_eq.
    + eapply runs_finally; [|run_eval]. apply runs_try_ok.
      run_step. run_step. eapply runs_bind_ok; [run_eval|].
      cbv beta zeta. rewrite C. run_eval.
    + reflexivity.
  - intros s0 c I M.
    destruct (dry_run_only_deletes P x y o D s0) as [F _].
    pose proof (git_calls_pass only_deletes _ F c I) as Q.
    destruct c; cbn in Q, M; try discriminate; eexists; reflexivity.
  - intros B s0.
    destruct (dry_run_without_backup_reads_only P x y o D B s0) as [F _].
    unfold mutations.
    destruct (filter mutating _) as [|c l] eqn:E; [reflexivity|].
    assert (I : In c (filter mutating
                        (git_calls
                           (snd (RemoveCommitAdvanced.removeCommitByCoordinates
                                   P x y o s0)))))
      by (rewrite E; left; reflexivity).
    apply filter_In in I. destruct I as [I M].
    pose proof (git_calls_pass read_only _ F c I) as Q. cbn in Q.
    rewrite M in Q. discriminate Q.
Qed.

Lemma dry_run_returns_the_matches_witness :
  let P := Fake.platform Fake.jan15 0 "n" in
  let r := Fake.mkRepo Fake.six_backups
             [Fake.commit_c; Fake.commit_a; Fake.commit_b] true []
             false in
  let lg := mkLog (Fake.history r) (hd_error (Fake.history r)) in
  let o := RemoveCommitAdvanced.mkOptions None None (Some true) None in
  runs (RemoveCommitAdvanced.removeCommitByCoordinates P 0 0 o) r
       (Ok (Commits
              (filter (RemoveCommitAdvanced.matches
                         (targetDateStr (today P) 0 0))
                      (RemoveCommitAdvanced.logEntries lg))))
       r [GitLog RemoveCommitAdvanced.log_options].
Proof.
  intros P r lg o.
  refine (proj1 (dry_run_returns_the_matches P 0 0 o r r lg _ _ _ _)).
  - reflexivity.
  - reflexivity.
  - reflexivity.
  - vm_compute. discriminate.
Defined.

Example matches_of_a_dry_run :
  let P := Fake.platform Fake.jan15 0 "n" in
  let r := Fake.mkRepo Fake.six_backups
             [Fake.commit_c; Fake.commit_a; Fake.commit_b] true []
             false in
  let o := RemoveCommitAdvanced.mkOptions None None (Some true) None in
  fst (RemoveCommitAdvanced.removeCommitByCoordinates P 0 0 o r)
  = (Ok (Commits [Fake.commit_a; Fake.commit_b]), r).
Proof. vm_compute. reflexivity. Qed.

(** X18.  Unlike the simple scripts, the advanced one throws on what it
    catches: when no backup is due and [git log] throws, the removal ends
    with that same error, after the one [git log] call, and
    [removeCommitPattern] passes it on without looking at the rest of the
    pattern. *)
Theorem advanced_rethrows_a_failed_log
    {St : Type} (P : Platform St) (x y : Z)
    (o : RemoveCommitAdvanced.options) (s s1 : St) (e : string)
    (rest : list RemoveCommitAdvanced.coord) :
  validateCoordinates x y = Ok tt ->
  git_log P RemoveCommitAdvanced.log_options s = (Throw e, s1) ->
  (default true (RemoveCommitAdvanced.backup o)
   && negb (default false (RemoveCommitAdvanced.dryRun o)) = false ->
   runs (RemoveCommitAdvanced.removeCommitByCoordinates P x y o) s
        (Throw e) s1 [GitLog RemoveCommitAdvanced.log_options])
  /\ runs (RemoveCommitAdvanced.removeCommitPattern P
             (RemoveCommitAdvanced.mkCoord x y :: rest) o) s
          (Throw e) s1 [GitLog RemoveCommitAdvanced.log_options].
Proof.
  intros V L.
  assert (A : forall o',
    default true (RemoveCommitAdvanced.backup o')
    && negb (default false (RemoveCommitAdvanced.dryRun o')) = false ->
    runs (RemoveCommitAdvanced.removeCommitByCoordinates P x y o') s
         (Throw e) s1 [GitLog RemoveCommitAdvanced.log_options]).
  { intros o' B. unfold RemoveCommitAdvanced.removeCommitByCoordinates.
    rewrite V, B. cbn [when].
    eapply runs_calls_eq; [run_eval | reflexivity]. }
  split; [apply A|].
  unfold RemoveCommitAdvanced.removeCommitPattern.
  cbn [for_of RemoveCommitAdvanced.cx RemoveCommitAdvanced.cy].
  pose proof (A (RemoveCommitAdvanced.spread_pattern o) eq_refl) as R.
  destruct (default false (RemoveCommitAdvanced.dryRun o)); cbn [when];
    (eapply runs_calls_eq; [run_eval | reflexivity]).
Qed.

Lemma advanced_rethrows_a_failed_log_witness :
  let P := Fake.platform Fake.jan15 0 "n" in
  let failing : Platform Fake.repo :=
    {| today := today P; date_now := date_now P;
       moment_parse := moment_parse P;
       git_log := fun _ r => (Throw "not a git repository", r);
       git_checkoutLocalBranch := git_checkoutLocalBranch P;
       git_checkout := git_checkout P;
       git_branchLocal := git_branchLocal P;
       git_deleteLocalBranch := git_deleteLocalBranch P;
       git_raw := git_raw P; git_push := git_push P;
       rl_question := rl_question P |} in
  let r := Fake.mkRepo ["main"] [] true [] false in
  runs (RemoveCommitAdvanced.removeCommitPattern failing
          (RemoveCommitAdvanced.mkCoord 0 0 :: RemoveCommitAdvanced.heart)
          (RemoveCommitAdvanced.mkOptions None None None None))
       r (Throw "not a git repository") r
       [GitLog RemoveCommitAdvanced.log_options].
Proof.
  intros P failing r.
  apply (advanced_rethrows_a_failed_log failing 0 0
           (RemoveCommitAdvanced.mkOptions None None None None) r r
           "not a git repository" RemoveCommitAdvanced.heart);
    reflexivity.
Defined.

(** X19.  The backup comes before everything else: in a run that is not a
    dry run, with the backup on and valid coordinates, the first git call
    creates the backup branch, and when that call throws the removal ends
    there with the same error: the log is not read and nothing is
    rewritten. *)
Theorem failed_backup_stops_the_removal
    {St : Type} (P : Platform St) (x y : Z)
    (o : RemoveCommitAdvanced.options) (s s1 : St) (e : string) :
  validateCoordinates x y = Ok tt ->
  default false (RemoveCommitAdvanced.dryRun o) = false ->
  default true (RemoveCommitAdvanced.backup o) = true ->
  (git_checkoutLocalBranch P
     ("backup-before-removal-" ++ show (date_now P)) s = (Throw e, s1) ->
   runs (RemoveCommitAdvanced.removeCommitByCoordinates P x y o) s
        (Throw e) s1
        [GitCheckoutLocalBranch
           ("backup-before-removal-" ++ show (date_now P))])
  /\ forall s0, exists rest,
       git_calls
         (snd (RemoveCommitAdvanced.removeCommitByCoordinates P x y o s0))
       = GitCheckoutLocalBranch
           ("backup-before-removal-" ++ show (date_now P)) :: rest.
Proof.
  intros V D B. split.
  - intros C. unfold RemoveCommitAdvanced.removeCommitByCoordinates.
    rewrite V, D, B. cbn [negb andb when].
    eapply runs_calls_eq; [run_eval | reflexivity].
  - intros s0.
    destruct (backup_branch_comes_first P x y o V D B s0) as [rest E].
    rewrite E. cbn. eexists. reflexivity.
Qed.

Lemma failed_backup_stops_the_removal_witness :
  let P := Fake.platform Fake.jan15 7 "y" in
  let r := Fake.mkRepo ["main"; "backup-before-removal-7"]
             [Fake.commit_a] true [] false in
  runs (RemoveCommitAdvanced.removeCommitByCoordinates P 0 0
          (RemoveCommitAdvanced.mkOptions (Some true) None None None))
       r (Throw "fatal: a branch named 'backup-before-removal-7' already exists")
       r [GitCheckoutLocalBranch "backup-before-removal-7"].
Proof.
  intros P r.
  apply (failed_backup_stops_the_removal P 0 0
           (RemoveCommitAdvanced.mkOptions (Some true) None None None) r r
           "fatal: a branch named 'backup-before-removal-7' already exists");
    reflexivity.
Defined.

(** ** The two simple scripts, side by side *)

(** X20.  When at most one commit falls on the target date, removing
    every commit of the date (removeCommit.js) and removing only the first
    (removeSingleCommit.js) are the same removal: same outcome, same
    store, same git calls, with or without [force]. *)
Theorem one_match_all_and_single_agree
    {St : Type} (P : Platform St) (x y : Z) (force : bool) (s : St) :
  validateCoordinates x y = Ok tt ->
  (forall lg s1, git_log P [] s = (Ok lg, s1) ->
     (List.length (filterByDate P (all lg) (targetDateStr (today P) x y))
      <= 1)%nat) ->
  let every := RemoveCommit.removeCommitByCoordinates P x y force s in
  let single :=
    RemoveSingleCommit.removeSingleCommitByCoordinates P x y force s in
  fst every = fst single
  /\ git_calls (snd every) = git_calls (snd single).
Proof.
  intros V H.
  unfold RemoveCommit.removeCommitByCoordinates,
    RemoveSingleCommit.removeSingleCommitByCoordinates,
    RemoveSingleCommit.commitToRemove, RemoveSingleCommit.matchingCommits.
  rewrite V.
  unfold try_catch, bind, git, console_log, console_error, emit, ret, throw.
  cbv zeta.
  destruct (git_log P [] s) as [[lg | e] s1]; [|split; reflexivity].
  specialize (H lg s1 eq_refl).
  destruct (filterByDate P (all lg) (targetDateStr (today P) x y))
    as [|c [|c' l]]; [split; reflexivity | | cbn in H; lia].
  cbn [List.length Nat.eqb nth_error for_of Nat.ltb Nat.leb when].
  unfold RemoveCommit.removeCommitByHash,
    RemoveSingleCommit.removeSingleCommitByHash.
  unfold try_catch, bind, git, console_log, console_error, emit, ret, throw.
  destruct force; cbn [negb]; [|split; reflexivity].
  destruct (git_raw P (rebase_onto (hash c)) s1) as [[[] | e] s2];
    split; reflexivity.
Qed.

Lemma one_match_all_and_single_agree_witness :
  let P := Fake.platform Fake.jan15 0 "n" in
  let r := Fake.mkRepo ["main"] [Fake.commit_c; Fake.commit_a] true []
             false in
  let every := RemoveCommit.removeCommitByCoordinates P 0 0 true r in
  let single :=
    RemoveSingleCommit.removeSingleCommitByCoordinates P 0 0 true r in
  (fst every = fst single
   /\ git_calls (snd every) = git_calls (snd single))
  /\ Fake.history (snd (fst every)) = [Fake.commit_c].
Proof.
  intros P r. split; [|reflexivity].
  apply (one_match_all_and_single_agree P 0 0 true r).
  - reflexivity.
  - intros lg s1 E. injection E as <- <-. vm_compute. lia.
Defined.

(** ** A declined confirmation, call by call *)

Section RunsAsking.
Context {St : Type}.

Lemma questions_app (t1 t2 : list event) :
  questions (t1 ++ t2)%list = (questions t1 ++ questions t2)%list.
Proof. unfold questions. apply flat_map_app. Qed.

(** A run that puts no question. *)
Lemma runs_asking_quiet {A : Type} (m : M (St := St) A) (s s' : St)
    (r : result A) (calls : list call) :
  runs m s r s' calls -> emits no_question m ->
  runs_asking m s r s' calls [].
Proof.
  intros (t & E & G) Q. exists t. split; [exact E|]. split; [exact G|].
  destruct (Q s) as [F _]. rewrite E in F. cbn [snd] in F.
  apply (questions_none no_question); [reflexivity | exact F].
Qed.

Lemma runs_asking_eq {A : Type} (m : M (St := St) A) (s s' : St)
    (r : result A) (calls calls' : list call) (asked asked' : list string) :
  runs_asking m s r s' calls asked -> calls = calls' -> asked = asked' ->
  runs_asking m s r s' calls' asked'.
Proof. intros H <- <-. exact H. Qed.

Lemma runs_asking_ret {A : Type} (a : A) (s : St) :
  runs_asking (ret a) s (Ok a) s [] [].
Proof. exists []. repeat split. Qed.

Lemma runs_asking_bind_ok {A B : Type} (m : M (St := St) A)
    (f : A -> M B) (s s1 s2 : St) (a : A) (r : result B)
    (c1 c2 : list call) (q1 q2 : list string) :
  runs_asking m s (Ok a) s1 c1 q1 -> runs_asking (f a) s1 r s2 c2 q2 ->
  runs_asking (bind m f) s r s2 (c1 ++ c2)%list (q1 ++ q2)%list.
Proof.
  intros (t1 & E1 & G1 & Q1) (t2 & E2 & G2 & Q2). exists (t1 ++ t2)%list.
  unfold bind. rewrite E1, E2. split; [reflexivity|].
  rewrite git_calls_app, questions_app, G1, G2, Q1, Q2. split; reflexivity.
Qed.

Lemma runs_asking_try_ok {A : Type} (m : M (St := St) A)
    (h : string -> M A) (s s1 : St) (a : A) (c1 : list call)
    (q1 : list string) :
  runs_asking m s (Ok a) s1 c1 q1 ->
  runs_asking (try_catch m h) s (Ok a) s1 c1 q1.
Proof.
  intros (t1 & E1 & G1). exists t1. unfold try_catch. rewrite E1.
  split; [reflexivity | exact G1].
Qed.

Lemma runs_asking_finally {A : Type} (m : M (St := St) A) (f : M unit)
    (s s1 s2 : St) (r : result A) (u : unit) (c1 c2 : list call)
    (q1 q2 : list string) :
  runs_asking m s r s1 c1 q1 -> runs_asking f s1 (Ok u) s2 c2 q2 ->
  runs_asking (finally m f) s r s2 (c1 ++ c2)%list (q1 ++ q2)%list.
Proof.
  intros (t1 & E1 & G1 & Q1) (t2 & E2 & G2 & Q2). exists (t1 ++ t2)%list.
  unfold finally. rewrite E1, E2. split; [reflexivity|].
  rewrite git_calls_app, questions_app, G1, G2, Q1, Q2. split; reflexivity.
Qed.

End RunsAsking.

(** The prompt, when the answer is no: one question, the answer read, and
    [false] returned. *)
Lemma askConfirmation_runs_declined {St : Type} (P : Platform St)
    (message : string) (s : St) :
  declines P ->
  runs_asking (RemoveCommitAdvanced.askConfirmation P message) s (Ok false)
              (snd (rl_question P (message ++ " (y/N): ") s)) []
              [message ++ " (y/N): "].
Proof.
  intros D. unfold runs_asking, RemoveCommitAdvanced.askConfirmation.
  cbv zeta.
  specialize (D (message ++ " (y/N): ") s). unfold confirms in D.
  destruct (rl_question P (message ++ " (y/N): ") s) as [a s1].
  cbn [fst snd] in *. rewrite D.
  eexists. split; [reflexivity|]. split; reflexivity.
Qed.

Lemma firstn_incl {A : Type} (n : nat) (l : list A) (x : A) :
  In x (firstn n l) -> In x l.
Proof.
  intros I. rewrite <- (firstn_skipn n l). apply in_or_app. left. exact I.
Qed.

Lemma NoDup_app_disjoint {A : Type} (l1 l2 : list A) (x : A) :
  NoDup (l1 ++ l2) -> In x l1 -> ~ In x l2.
Proof.
  induction l1 as [|a l1 IH]; intros N I; [contradiction|].
  cbn in N. inversion N as [|a' l' Na Nl]; subst.
  destruct I as [-> | I].
  - intros I2. apply Na. apply in_or_app. right. exact I2.
  - apply IH; assumption.
Qed.

(** Among branches without a repeated name, one of the last [length - k]
    is not one of the first [n], for [n <= k]. *)
Lemma kept_is_not_deleted (l : list string) (x : string) (n k : nat) :
  NoDup l -> In x (skipn k l) -> (n <= k)%nat -> ~ In x (firstn n l).
Proof.
  intros N I L I1.
  rewrite <- (firstn_skipn k l) in N.
  apply (NoDup_app_disjoint _ _ x N); [|exact I].
  replace n with (Nat.min n k) in I1 by lia.
  rewrite <- firstn_firstn in I1. apply (firstn_incl _ _ _ I1).
Qed.

(** What the cleanup does from any state: it lists the branches and
    deletes some of them, and returns.  When the listing answers, the
    deleted branches are a prefix of the listed backups that stops short
    of the last five. *)
Lemma cleanup_runs {St : Type} (P : Platform St) (s : St) :
  exists s' deleted,
    runs (RemoveCommitAdvanced.cleanupBackupBranch P) s (Ok tt) s'
         (GitBranchLocal :: map GitDeleteLocalBranch deleted)
    /\ forall branches s1,
         git_branchLocal P s = (Ok branches, s1) ->
         exists n,
           (n <= List.length (backups branches) - 5)%nat
           /\ deleted = firstn n (backups branches).
Proof.
  unfold RemoveCommitAdvanced.cleanupBackupBranch.
  destruct (git_branchLocal P s) as [[branches | e] s1] eqn:B.
  - fold (backups branches).
    destruct (5 <? List.length (backups branches))%nat eqn:C.
    + destruct (delete_loop_prefix P (slice_0_neg 5 (backups branches)) s1)
        as (n & r & s' & Ln & R & _).
      unfold slice_0_neg in Ln, R.
      rewrite length_firstn in Ln. rewrite firstn_firstn in R.
      replace (Nat.min n (List.length (backups branches) - 5)) with n in R
        by lia.
      exists s', (firstn n (backups branches)). split.
      * destruct r as [[] | e].
        -- eapply runs_calls_eq.
           ++ apply runs_try_ok. eapply runs_bind_ok; [run_eval|].
              cbv beta. fold (backups branches). rewrite C. cbn [when].
              eapply runs_bind_ok; [run_eval | exact R].
           ++ reflexivity.
        -- eapply runs_calls_eq.
           ++ eapply runs_try_caught.
              ** eapply runs_bind_ok; [run_eval|].
                 cbv beta. fold (backups branches). rewrite C. cbn [when].
                 eapply runs_bind_ok; [run_eval | exact R].
              ** run_eval.
           ++ cbn. rewrite app_nil_r. reflexivity.
      * intros b' s1' E. injection E as <- <-. exists n. split; [lia|].
        reflexivity.
    + exists s1, []. split.
      * eapply runs_calls_eq.
        -- apply runs_try_ok. eapply runs_bind_ok; [run_eval|].
           cbv beta. fold (backups branches). rewrite C. cbn [when].
           apply runs_ret.
        -- reflexivity.
      * intros b' s1' E. injection E as <- <-. exists 0%nat.
        split; [lia | reflexivity].
  - exists s1, []. split.
    + eapply runs_calls_eq.
      * eapply runs_try_caught; [eapply runs_bind_throw; run_eval | run_eval].
      * reflexivity.
    + intros b' s1' E. discriminate E.
Qed.

Lemma cleanup_asks_nothing {St : Type} (P : Platform St) :
  emits no_question (RemoveCommitAdvanced.cleanupBackupBranch P).
Proof. unfold RemoveCommitAdvanced.cleanupBackupBranch. emits_all. Qed.

Ltac quiet_step :=
  eapply runs_asking_bind_ok;
    [ apply runs_asking_quiet; [run_eval | solve [emits_all]]
    | cbv beta zeta ].

Lemma declined_run_without_backup {St : Type} (P : Platform St) (x y : Z)
    (o : RemoveCommitAdvanced.options) (s s3 : St) (lg : LogResult) :
  declines P ->
  default false (RemoveCommitAdvanced.dryRun o) = false ->
  default true (RemoveCommitAdvanced.interactive o) = true ->
  default false (RemoveCommitAdvanced.force o) = false ->
  validateCoordinates x y = Ok tt ->
  default true (RemoveCommitAdvanced.backup o) = false ->
  git_log P RemoveCommitAdvanced.log_options s = (Ok lg, s3) ->
  filter (RemoveCommitAdvanced.matches (targetDateStr (today P) x y))
         (RemoveCommitAdvanced.logEntries lg) <> [] ->
  let matching :=
    filter (RemoveCommitAdvanced.matches (targetDateStr (today P) x y))
           (RemoveCommitAdvanced.logEntries lg) in
  runs_asking (RemoveCommitAdvanced.removeCommitByCoordinates P x y o) s
              (Ok Undefined)
              (snd (rl_question P (confirmation_query matching) s3))
              [GitLog RemoveCommitAdvanced.log_options]
              [confirmation_query matching].
Proof.
  intros D Hd Hi Hf V Hb L N matching.
  assert (C : (List.length matching =? 0)%nat = false).
  { apply Nat.eqb_neq. intros Z0. apply N.
    apply length_zero_iff_nil. exact Z0. }
  unfold RemoveCommitAdvanced.removeCommitByCoordinates.
  rewrite V, Hd, Hi, Hf, Hb. cbn [negb andb when].
  eapply runs_asking_eq.
  - eapply runs_asking_finally;
      [|apply runs_asking_quiet; [run_eval | solve [emits_all]]].
    apply runs_asking_try_ok.
    quiet_step. quiet_step. quiet_step.
    fold matching. rewrite C.
    quiet_step. quiet_step.
    eapply runs_asking_bind_ok;
      [apply askConfirmation_runs_declined; exact D|].
    cbv beta. cbn [negb].
    quiet_step. quiet_step. apply runs_asking_ret.
  - reflexivity.
  - reflexivity.
Qed.

Lemma declined_run_with_backup {St : Type} (P : Platform St) (x y : Z)
    (o : RemoveCommitAdvanced.options) (s s1 s2 s3 : St) (lg : LogResult) :
  declines P ->
  default false (RemoveCommitAdvanced.dryRun o) = false ->
  default true (RemoveCommitAdvanced.interactive o) = true ->
  default false (RemoveCommitAdvanced.force o) = false ->
  validateCoordinates x y = Ok tt ->
  default true (RemoveCommitAdvanced.backup o) = true ->
  git_checkoutLocalBranch P (backup_name P) s = (Ok tt, s1) ->
  git_checkout P "main" s1 = (Ok tt, s2) ->
  git_log P RemoveCommitAdvanced.log_options s2 = (Ok lg, s3) ->
  filter (RemoveCommitAdvanced.matches (targetDateStr (today P) x y))
         (RemoveCommitAdvanced.logEntries lg) <> [] ->
  let matching :=
    filter (RemoveCommitAdvanced.matches (targetDateStr (today P) x y))
           (RemoveCommitAdvanced.logEntries lg) in
  let asked_at := snd (rl_question P (confirmation_query matching) s3) in
  exists s5 deleted,
    runs_asking (RemoveCommitAdvanced.removeCommitByCoordinates P x y o) s
                (Ok Undefined) s5
                (GitCheckoutLocalBranch (backup_name P)
                 :: GitCheckout "main"
                 :: GitLog RemoveCommitAdvanced.log_options
                 :: GitBranchLocal :: map GitDeleteLocalBranch deleted)
                [confirmation_query matching]
    /\ runs (RemoveCommitAdvanced.cleanupBackupBranch P) asked_at (Ok tt) s5
            (GitBranchLocal :: map GitDeleteLocalBranch deleted)
    /\ forall branches s4,
         git_branchLocal P asked_at = (Ok branches, s4) ->
         (exists n,
             (n <= List.length (backups branches) - 5)%nat
             /\ deleted = firstn n (backups branches))
         /\ (NoDup (backups branches) ->
             In (backup_name P)
                (skipn (List.length (backups branches) - 5)
                       (backups branches)) ->
             ~ In (backup_name P) deleted).
Proof.
  intros D Hd Hi Hf V Hb B1 B2 L N matching asked_at.
  assert (C : (List.length matching =? 0)%nat = false).
  { apply Nat.eqb_neq. intros Z0. apply N.
    apply length_zero_iff_nil. exact Z0. }
  destruct (cleanup_runs P asked_at) as (s5 & deleted & Rc & Shape).
  exists s5, deleted. split; [|split; [exact Rc|]].
  - unfold backup_name in B1 |- *.
    unfold RemoveCommitAdvanced.removeCommitByCoordinates.
    rewrite V, Hd, Hi, Hf, Hb. cbn [negb andb when].
    eapply runs_asking_eq.
    + eapply runs_asking_finally;
        [|apply runs_asking_quiet; [run_eval | solve [emits_all]]].
      apply runs_asking_try_ok.
      quiet_step. quiet_step. quiet_step.
      fold matching. rewrite C.
      quiet_step. quiet_step.
      eapply runs_asking_bind_ok;
        [apply askConfirmation_runs_declined; exact D|].
      cbv beta. cbn [negb].
      quiet_step.
      eapply runs_asking_bind_ok;
        [apply runs_asking_quiet; [exact Rc | apply cleanup_asks_nothing]|].
      apply runs_asking_ret.
    + cbn [app]. rewrite ?app_nil_r. reflexivity.
    + reflexivity.
  - intros branches s4 E.
    destruct (Shape branches s4 E) as (n & Ln & ->).
    split; [exists n; split; [exact Ln | reflexivity]|].
    intros ND I. apply (kept_is_not_deleted _ _ _ _ ND I Ln).
Qed.

Section RunsAskingMore.
Context {St : Type}.

Lemma runs_asking_facts {A : Type} (m : M (St := St) A) (s s' : St)
    (r : result A) (calls : list call) (asked : list string) :
  runs_asking m s r s' calls asked ->
  fst (fst (m s)) = r /\ snd (fst (m s)) = s'
  /\ git_calls (snd (m s)) = calls /\ questions (snd (m s)) = asked.
Proof. intros (t & E & G & Q). rewrite E. cbn. auto. Qed.

Lemma runs_asking_bind_throw {A B : Type} (m : M (St := St) A)
    (f : A -> M B) (s s1 : St) (e : string) (c1 : list call)
    (q1 : list string) :
  runs_asking m s (Throw e) s1 c1 q1 ->
  runs_asking (bind m f) s (Throw e) s1 c1 q1.
Proof.
  intros (t1 & E1 & G1). exists t1. unfold bind. rewrite E1.
  split; [reflexivity | exact G1].
Qed.

Lemma runs_asking_try_caught {A : Type} (m : M (St := St) A)
    (h : string -> M A) (s s1 s2 : St) (e : string) (r : result A)
    (c1 c2 : list call) (q1 q2 : list string) :
  runs_asking m s (Throw e) s1 c1 q1 -> runs_asking (h e) s1 r s2 c2 q2 ->
  runs_asking (try_catch m h) s r s2 (c1 ++ c2)%list (q1 ++ q2)%list.
Proof.
  intros (t1 & E1 & G1 & Q1) (t2 & E2 & G2 & Q2). exists (t1 ++ t2)%list.
  unfold try_catch. rewrite E1, E2. split; [reflexivity|].
  rewrite git_calls_app, questions_app, G1, G2, Q1, Q2. split; reflexivity.
Qed.

End RunsAskingMore.

(** Runs a computation along the one path that the known platform calls
    leave, keeping count of the questions. *)
Ltac ask_eval :=
  first
    [ apply runs_asking_quiet;
        [ run_eval
        | solve [repeat (emits_step || apply cleanup_asks_nothing)] ]
    | lazymatch goal with
      | |- runs_asking (bind _ _) _ _ _ _ _ =>
          first [ eapply runs_asking_bind_ok; [ask_eval | cbv beta; ask_eval]
                | eapply runs_asking_bind_throw; ask_eval ]
      | |- runs_asking (try_catch _ _) _ _ _ _ _ =>
          first [ eapply runs_asking_try_ok; ask_eval
                | eapply runs_asking_try_caught; [ask_eval | ask_eval] ]
      | |- runs_asking (finally _ _) _ _ _ _ _ =>
          eapply runs_asking_finally; [ask_eval | ask_eval]
      end ].

(** Under a prompt that is always declined, a run either never reaches
    the prompt, or asks once and returns undefined. *)
Lemma declined_run_asks_once_or_never {St : Type} (P : Platform St)
    (x y : Z) (o : RemoveCommitAdvanced.options) (s : St) :
  declines P ->
  default false (RemoveCommitAdvanced.dryRun o) = false ->
  default true (RemoveCommitAdvanced.interactive o) = true ->
  default false (RemoveCommitAdvanced.force o) = false ->
  let run := RemoveCommitAdvanced.removeCommitByCoordinates P x y o s in
  questions (snd run) = []
  \/ (fst (fst run) = Ok Undefined /\ exists q, questions (snd run) = [q]).
Proof.
  intros D Hd Hi Hf run.
  assert (Never : forall r s' c,
    runs_asking (RemoveCommitAdvanced.removeCommitByCoordinates P x y o)
                s r s' c [] ->
    questions (snd run) = []).
  { intros r s' c R. apply (runs_asking_facts _ _ _ _ _ _ R). }
  assert (Once : forall s' c q,
    runs_asking (RemoveCommitAdvanced.removeCommitByCoordinates P x y o)
                s (Ok Undefined) s' c [q] ->
    fst (fst run) = Ok Undefined /\ exists q', questions (snd run) = [q']).
  { intros s' c q R.
    destruct (runs_asking_facts _ _ _ _ _ _ R) as (E1 & _ & _ & E2).
    split; [exact E1 | exists q; exact E2]. }
  destruct (validateCoordinates x y) as [[] | msg] eqn:V.
  2:{ left. unfold run. rewrite (advanced_rejects P x y o msg s V).
      reflexivity. }
  destruct (default true (RemoveCommitAdvanced.backup o)) eqn:Hb.
  - destruct (git_checkoutLocalBranch P (backup_name P) s)
      as [[[] | e1] s1] eqn:B1.
    2:{ left. eapply Never.
        unfold backup_name in B1.
        unfold RemoveCommitAdvanced.removeCommitByCoordinates.
        rewrite V, Hd, Hi, Hf, Hb. cbn [negb andb when].
        eapply runs_asking_eq; [ask_eval | reflexivity | reflexivity]. }
    destruct (git_checkout P "main" s1) as [[[] | e2] s2] eqn:B2.
    2:{ left. eapply Never.
        unfold backup_name in B1.
        unfold RemoveCommitAdvanced.removeCommitByCoordinates.
        rewrite V, Hd, Hi, Hf, Hb. cbn [negb andb when].
        eapply runs_asking_eq; [ask_eval | reflexivity | reflexivity]. }
    destruct (git_log P RemoveCommitAdvanced.log_options s2)
      as [[lg | e3] s3] eqn:L.
    2:{ left. eapply Never.
        unfold backup_name in B1.
        unfold RemoveCommitAdvanced.removeCommitByCoordinates.
        rewrite V, Hd, Hi, Hf, Hb. cbn [negb andb when].
        eapply runs_asking_eq; [ask_eval | reflexivity | reflexivity]. }
    destruct (filter (RemoveCommitAdvanced.matches
                        (targetDateStr (today P) x y))
                     (RemoveCommitAdvanced.logEntries lg)) as [|c0 l0] eqn:F.
    + left. destruct (cleanup_runs P s3) as (s5 & deleted & Rc & _).
      eapply Never.
      unfold backup_name in B1.
      unfold RemoveCommitAdvanced.removeCommitByCoordinates.
      rewrite V, Hd, Hi, Hf, Hb. cbn [negb andb when].
      eapply runs_asking_eq;
        [ eapply runs_asking_finally; [|ask_eval];
          apply runs_asking_try_ok;
          quiet_step; quiet_step; quiet_step; rewrite F;
          cbn [List.length Nat.eqb]; ask_eval
        | reflexivity | reflexivity ].
    + right.
      assert (N : filter (RemoveCommitAdvanced.matches
                            (targetDateStr (today P) x y))
                         (RemoveCommitAdvanced.logEntries lg) <> [])
        by (rewrite F; discriminate).
      destruct (declined_run_with_backup P x y o s s1 s2 s3 lg
                  D Hd Hi Hf V Hb B1 B2 L N) as (s5 & deleted & R & _).
      apply (Once _ _ _ R).
  - destruct (git_log P RemoveCommitAdvanced.log_options s)
      as [[lg | e3] s3] eqn:L.
    2:{ left. eapply Never.
        unfold RemoveCommitAdvanced.removeCommitByCoordinates.
        rewrite V, Hd, Hi, Hf, Hb. cbn [negb andb when].
        eapply runs_asking_eq; [ask_eval | reflexivity | reflexivity]. }
    destruct (filter (RemoveCommitAdvanced.matches
                        (targetDateStr (today P) x y))
                     (RemoveCommitAdvanced.logEntries lg)) as [|c0 l0] eqn:F.
    + left. eapply Never.
      unfold RemoveCommitAdvanced.removeCommitByCoordinates.
      rewrite V, Hd, Hi, Hf, Hb. cbn [negb andb when].
      eapply runs_asking_eq;
        [ eapply runs_asking_finally; [|ask_eval];
          apply runs_asking_try_ok;
          quiet_step; quiet_step; quiet_step; rewrite F;
          cbn [List.length Nat.eqb]; ask_eval
        | reflexivity | reflexivity ].
    + right.
      assert (N : filter (RemoveCommitAdvanced.matches
                            (targetDateStr (today P) x y))
                         (RemoveCommitAdvanced.logEntries lg) <> [])
        by (rewrite F; discriminate).
      apply (Once _ _ _
               (declined_run_without_backup P x y o s s3 lg
                  D Hd Hi Hf V Hb L N)).
Qed.

(** C3, as the code has it.  In a run that is not a dry run, is
    interactive and not forced, a declined confirmation means that no call
    rewrites or publishes history and that no list of commits is returned.
    A run in which the question is put asks it once and returns undefined.
    With the backup off, such a run makes the [git log] call and no other
    git call.  With the backup on (the default), the backup branch is
    created before the prompt; after the refusal the cleanup of old backup
    branches runs, from the state in which the answer was read: it lists
    the branches and deletes only listed backup branches short of the last
    five, so the new branch is not deleted when the listing has it among
    the last five backups; then the function returns undefined. *)
Theorem declined_removal_rewrites_nothing
    {St : Type} (P : Platform St) (x y : Z)
    (o : RemoveCommitAdvanced.options) (s : St) :
  declines P ->
  default false (RemoveCommitAdvanced.dryRun o) = false ->
  default true (RemoveCommitAdvanced.interactive o) = true ->
  default false (RemoveCommitAdvanced.force o) = false ->
  let run := RemoveCommitAdvanced.removeCommitByCoordinates P x y o s in
  no_commits (fst (fst run))
  /\ (forall c, In c (git_calls (snd run)) -> rewrites c = false)
  /\ (RemoveCommitAdvanced.backup o = Some false ->
      forall c, In c (git_calls (snd run)) -> mutating c = false)
  /\ (default true (RemoveCommitAdvanced.backup o) = true ->
      validateCoordinates x y = Ok tt ->
      exists rest,
        git_calls (snd run)
        = GitCheckoutLocalBranch
            ("backup-before-removal-" ++ show (date_now P)) :: rest)
  /\ (questions (snd run) <> [] ->
      fst (fst run) = Ok Undefined
      /\ exists q, questions (snd run) = [q])
  /\ (validateCoordinates x y = Ok tt ->
      default true (RemoveCommitAdvanced.backup o) = false ->
      forall lg s3,
        git_log P RemoveCommitAdvanced.log_options s = (Ok lg, s3) ->
        filter (RemoveCommitAdvanced.matches (targetDateStr (today P) x y))
               (RemoveCommitAdvanced.logEntries lg) <> [] ->
        let matching :=
          filter (RemoveCommitAdvanced.matches
                    (targetDateStr (today P) x y))
                 (RemoveCommitAdvanced.logEntries lg) in
        runs_asking (RemoveCommitAdvanced.removeCommitByCoordinates P x y o)
                    s (Ok Undefined)
                    (snd (rl_question P (confirmation_query matching) s3))
                    [GitLog RemoveCommitAdvanced.log_options]
                    [confirmation_query matching])
  /\ (validateCoordinates x y = Ok tt ->
      default true (RemoveCommitAdvanced.backup o) = true ->
      forall lg s1 s2 s3,
        git_checkoutLocalBranch P (backup_name P) s = (Ok tt, s1) ->
        git_checkout P "main" s1 = (Ok tt, s2) ->
        git_log P RemoveCommitAdvanced.log_options s2 = (Ok lg, s3) ->
        filter (RemoveCommitAdvanced.matches (targetDateStr (today P) x y))
               (RemoveCommitAdvanced.logEntries lg) <> [] ->
        let matching :=
          filter (RemoveCommitAdvanced.matches
                    (targetDateStr (today P) x y))
                 (RemoveCommitAdvanced.logEntries lg) in
        let asked_at :=
          snd (rl_question P (confirmation_query matching) s3) in
        exists s5 deleted,
          runs_asking
            (RemoveCommitAdvanced.removeCommitByCoordinates P x y o)
            s (Ok Undefined) s5
            (GitCheckoutLocalBranch (backup_name P)
             :: GitCheckout "main"
             :: GitLog RemoveCommitAdvanced.log_options
             :: GitBranchLocal :: map GitDeleteLocalBranch deleted)
            [confirmation_query matching]
          /\ runs (RemoveCommitAdvanced.cleanupBackupBranch P) asked_at
                  (Ok tt) s5
                  (GitBranchLocal :: map GitDeleteLocalBranch deleted)
          /\ forall branches s4,
               git_branchLocal P asked_at = (Ok branches, s4) ->
               (exists n,
                   (n <= List.length (backups branches) - 5)%nat
                   /\ deleted = firstn n (backups branches))
               /\ (NoDup (backups branches) ->
                   In (backup_name P)
                      (skipn (List.length (backups branches) - 5)
                             (backups branches)) ->
                   ~ In (backup_name P) deleted)).
Proof.
  intros D Hd Hi Hf run.
  destruct (declined_rewrites_nothing P x y o D Hd Hi Hf s) as [F R].
  fold run in F, R.
  split; [exact R|]. split; [|split; [|split; [|split; [|split]]]].
  - intros c I. pose proof (git_calls_pass no_rewrite _ F c I) as Q.
    cbn in Q. apply negb_true_iff. exact Q.
  - intros Hb c I.
    destruct (declined_without_backup_reads_only P x y o D Hd Hi Hf Hb s)
      as [F' _].
    fold run in F'.
    pose proof (git_calls_pass read_only _ F' c I) as Q.
    cbn in Q. apply negb_true_iff. exact Q.
  - intros Hb V.
    destruct (backup_branch_comes_first P x y o V Hd Hb s) as [rest E].
    fold run in E. rewrite E. cbn. eexists. reflexivity.
  - intros Q.
    destruct (declined_run_asks_once_or_never P x y o s D Hd Hi Hf)
      as [Z0 | A]; [contradiction | exact A].
  - intros V Hb lg s3 L N.
    apply (declined_run_without_backup P x y o s s3 lg D Hd Hi Hf V Hb L N).
  - intros V Hb lg s1 s2 s3 B1 B2 L N.
    apply (declined_run_with_backup P x y o s s1 s2 s3 lg
             D Hd Hi Hf V Hb B1 B2 L N).
Qed.

Lemma declined_removal_rewrites_nothing_witness :
  let P := Fake.platform Fake.jan15 1700000000000 "n" in
  let r := Fake.mkRepo Fake.six_backups [Fake.commit_a; Fake.commit_c]
             true [] false in
  let r1 := Fake.mkRepo (Fake.six_backups ++ [backup_name P])
              [Fake.commit_a; Fake.commit_c] true [] false in
  let lg := mkLog (Fake.history r1) (hd_error (Fake.history r1)) in
  let o := RemoveCommitAdvanced.mkOptions None None None None in
  let matching :=
    filter (RemoveCommitAdvanced.matches (targetDateStr (today P) 0 0))
           (RemoveCommitAdvanced.logEntries lg) in
  let asked_at := snd (rl_question P (confirmation_query matching) r1) in
  exists s5 deleted,
    runs_asking (RemoveCommitAdvanced.removeCommitByCoordinates P 0 0 o)
      r (Ok Undefined) s5
      (GitCheckoutLocalBranch (backup_name P)
       :: GitCheckout "main"
       :: GitLog RemoveCommitAdvanced.log_options
       :: GitBranchLocal :: map GitDeleteLocalBranch deleted)
      [confirmation_query matching]
    /\ runs (RemoveCommitAdvanced.cleanupBackupBranch P) asked_at
            (Ok tt) s5
            (GitBranchLocal :: map GitDeleteLocalBranch deleted)
    /\ forall branches s4,
         git_branchLocal P asked_at = (Ok branches, s4) ->
         (exists n,
             (n <= List.length (backups branches) - 5)%nat
             /\ deleted = firstn n (backups branches))
         /\ (NoDup (backups branches) ->
             In (backup_name P)
                (skipn (List.length (backups branches) - 5)
                       (backups branches)) ->
             ~ In (backup_name P) deleted).
Proof.
  intros P r r1 lg o matching asked_at.
  refine (proj2 (proj2 (proj2 (proj2 (proj2 (proj2
            (declined_removal_rewrites_nothing P 0 0 o r _ _ _ _))))))
            _ _ lg r1 r1 r1 _ _ _ _).
  - intros query s. reflexivity.
  - reflexivity.
  - reflexivity.
  - reflexivity.
  - reflexivity.
  - reflexivity.
  - vm_compute. reflexivity.
  - reflexivity.
  - reflexivity.
  - vm_compute. discriminate.
Defined.

(** On that store, which held six backup branches, the refused run ends
    with the new backup branch in place and the two oldest deleted. *)
Example declined_run_on_six_backups :
  let P := Fake.platform Fake.jan15 1700000000000 "n" in
  let r := Fake.mkRepo Fake.six_backups [Fake.commit_a; Fake.commit_c]
             true [] false in
  let o := RemoveCommitAdvanced.mkOptions None None None None in
  let run := RemoveCommitAdvanced.removeCommitByCoordinates P 0 0 o r in
  fst (fst run) = Ok Undefined
  /\ Fake.branches (snd (fst run))
     = ["main"; "backup-before-removal-3"; "backup-before-removal-4";
        "backup-before-removal-5"; "backup-before-removal-6";
        "backup-before-removal-1700000000000"]
  /\ Fake.history (snd (fst run)) = [Fake.commit_a; Fake.commit_c].
Proof. vm_compute. repeat split; reflexivity. Qed.
